(** * President-Sim: the simulation engine of [server.js]

    A shallow embedding of the game engine of the President-Sim backend
    (delta tables, [applyDeltas], [checkGameOver], [checkRebellionChance],
    [evaluateAchievements], [compressToGlyphs]) and of the request handlers
    that drive it, followed by the properties established about them.

    Conventions of the embedding.
    - JavaScript numbers that the engine manipulates are integers (SQLite
      INTEGER columns and the integer literals of the delta tables); they
      are modelled by [Z].  The one division of the source,
      [(chaos + (50 - stability)) / 2], is carried out in [Q] and rounded
      with [Math_round].
    - A JavaScript object with a fixed set of relevant keys is a record; an
      optional key is an [option] field ([None] is [undefined]).  A delta
      table is a finite map from strings.  The lookup of the handlers finds
      the own keys of a table.  The code reads along the prototype chain:
      under a name inherited from [Object.prototype] ([inherited]) it finds
      a function or the prototype itself, and [deltas.laws = 1] then writes
      to that shared object.  The statements that pin the delta of an action
      are therefore for keys that are no inherited name, and those about the
      counters along a run are for runs of such requests ([plain]).
    - The deltas that [/multiplayer/update] receives are objects whose
      entries are integers; other JSON values in their place are not
      modelled.
    - The SQLite database, the sources of identifiers and of time, and the
      one table that a handler assigns to ([LAW_DELTAS]) form an explicit
      state ([World]) threaded through the handlers by a small state monad.
      The FOREIGN KEY constraints of the tables are not part of it: what is
      stated about an insertion for a session is for a session that has its
      row in table [Session] ([has_session]), which a row of table [Stats]
      implies in the database.
    - [applyDeltas] is given twice: as a function on values, and on a store
      of objects where its copy and its assignments are visible.
    - The routes that archive or only read, and the page script [core.js]
      that calls the routes, follow the engine.  An answer of the server is
      a JSON value; a property read on it finds the members of an object, and
      [undefined] is [None].  The state of the page is [window.current] and
      the part of the document that the script reads and writes; a call of
      [api] is a call of the route, which is taken to reach the server. *)

From Stdlib Require Import ZArith QArith Qround Ascii Lia.
From stdpp Require Import gmap strings list pretty.

Local Open Scope Z_scope.

(** ** JavaScript primitives used by the engine *)

(** [Math.round]: nearest integer, ties towards +infinity. *)
Definition Math_round (q : Q) : Z := Qfloor (q + (1 # 2))%Q.

(** [x || d] on numbers: [0] is falsy. *)
Definition num_or (x d : Z) : Z := if Z.eqb x 0 then d else x.

(** [x || d] on strings: the empty string is falsy. *)
Definition str_or (x d : string) : string :=
  if String.eqb x EmptyString then d else x.

(** Truthiness of an optional string taken from a request body: a missing
    field ([undefined]) and the empty string are falsy. *)
Definition truthy (x : option string) : bool :=
  match x with
  | Some s => negb (String.eqb s EmptyString)
  | None => false
  end.

(** ** The stat vector and the deltas *)

(** A row of table [Stats], as [getStatsStmt.get] returns it. *)
Record Stats := mkStats {
  sessionId : string;
  approval : Z;
  stability : Z;
  economy : Z;
  justice : Z;
  power : Z;
  chaos : Z;
  laws : Z;
  crises : Z
}.

(** A delta object: every key may be absent. *)
Record Deltas := mkDeltas {
  d_approval : option Z;
  d_stability : option Z;
  d_economy : option Z;
  d_justice : option Z;
  d_power : option Z;
  d_chaos : option Z;
  d_laws : option Z;
  d_crises : option Z
}.

(** The empty object [{}]. *)
Definition no_deltas : Deltas :=
  mkDeltas None None None None None None None None.

(** The five keys that the loop of [applyDeltas] walks through. *)
Inductive BoundedKey := KApproval | KStability | KEconomy | KJustice | KPower.

Definition bounded_keys : list BoundedKey :=
  [KApproval; KStability; KEconomy; KJustice; KPower].

(** [s[key]] *)
Definition stat_get (s : Stats) (key : BoundedKey) : Z :=
  match key with
  | KApproval => approval s
  | KStability => stability s
  | KEconomy => economy s
  | KJustice => justice s
  | KPower => power s
  end.

(** [s[key] = v] *)
Definition stat_set (s : Stats) (key : BoundedKey) (v : Z) : Stats :=
  match key with
  | KApproval =>
      mkStats (sessionId s) v (stability s) (economy s) (justice s) (power s)
              (chaos s) (laws s) (crises s)
  | KStability =>
      mkStats (sessionId s) (approval s) v (economy s) (justice s) (power s)
              (chaos s) (laws s) (crises s)
  | KEconomy =>
      mkStats (sessionId s) (approval s) (stability s) v (justice s) (power s)
              (chaos s) (laws s) (crises s)
  | KJustice =>
      mkStats (sessionId s) (approval s) (stability s) (economy s) v (power s)
              (chaos s) (laws s) (crises s)
  | KPower =>
      mkStats (sessionId s) (approval s) (stability s) (economy s) (justice s) v
              (chaos s) (laws s) (crises s)
  end.

Definition set_chaos (s : Stats) (v : Z) : Stats :=
  mkStats (sessionId s) (approval s) (stability s) (economy s) (justice s)
          (power s) v (laws s) (crises s).

Definition set_laws (s : Stats) (v : Z) : Stats :=
  mkStats (sessionId s) (approval s) (stability s) (economy s) (justice s)
          (power s) (chaos s) v (crises s).

Definition set_crises (s : Stats) (v : Z) : Stats :=
  mkStats (sessionId s) (approval s) (stability s) (economy s) (justice s)
          (power s) (chaos s) (laws s) v.

(** [deltas[key]] *)
Definition delta_get (d : Deltas) (key : BoundedKey) : option Z :=
  match key with
  | KApproval => d_approval d
  | KStability => d_stability d
  | KEconomy => d_economy d
  | KJustice => d_justice d
  | KPower => d_power d
  end.

(** ** [applyDeltas] *)

(** One turn of the loop:
    [if (deltas[key] !== undefined)
       s[key] = Math.max(0, Math.min(100, s[key] + deltas[key]))]. *)
Definition apply_bounded (deltas : Deltas) (s : Stats) (key : BoundedKey) : Stats :=
  match delta_get deltas key with
  | Some d => stat_set s key (Z.max 0 (Z.min 100 (stat_get s key + d)))
  | None => s
  end.

Definition apply_chaos (deltas : Deltas) (s : Stats) : Stats :=
  match d_chaos deltas with
  | Some d => set_chaos s (Z.max 0 (chaos s + d))
  | None => s
  end.

Definition apply_laws (deltas : Deltas) (s : Stats) : Stats :=
  match d_laws deltas with
  | Some d => set_laws s (num_or (laws s) 0 + d)
  | None => s
  end.

Definition apply_crises (deltas : Deltas) (s : Stats) : Stats :=
  match d_crises deltas with
  | Some d => set_crises s (num_or (crises s) 0 + d)
  | None => s
  end.

(** [function applyDeltas(stats, deltas)]; the copy [Object.assign({}, stats)]
    is the value [stats] itself, which the functional updates never touch. *)
Definition applyDeltas (stats : Stats) (deltas : Deltas) : Stats :=
  let s := stats in
  let s := fold_left (apply_bounded deltas) bounded_keys s in
  let s := apply_chaos deltas s in
  let s := apply_laws deltas s in
  let s := apply_crises deltas s in
  s.

(** ** Threshold evaluators *)

Record GameOver := mkGameOver {
  gameOver : bool;
  reason : option string
}.

(** [function checkGameOver(stats, chaosThreshold)] *)
Definition checkGameOver (stats : Stats) (chaosThreshold : Z) : GameOver :=
  if Z.leb chaosThreshold (chaos stats) then
    mkGameOver true (Some "Chaos exceeded threshold"%string)
  else if Z.leb (stability stats) 0 then
    mkGameOver true (Some "Stability collapsed"%string)
  else if Z.leb (approval stats) 0 then
    mkGameOver true (Some "Approval vanished"%string)
  else mkGameOver false None.

Record Rebellion := mkRebellion {
  rebellion : bool;
  intensity : option Z
}.

(** [function checkRebellionChance(stats)] *)
Definition checkRebellionChance (stats : Stats) : Rebellion :=
  if Z.ltb 65 (chaos stats) || Z.ltb (stability stats) 20 then
    mkRebellion true
      (Some (Z.min 100
               (Math_round (inject_Z (chaos stats + (50 - stability stats)) / 2)%Q)))
  else if Z.ltb (approval stats) 15 then
    mkRebellion true (Some (Z.max 10 (40 - approval stats)))
  else mkRebellion false None.

(** [DEFAULT_STATS], with the [sessionId] that [/session/start] adds. *)
Definition DEFAULT_STATS (id : string) : Stats :=
  mkStats id 50 50 50 50 50 0 0 0.

(** ** Delta tables *)

(** Object literal of a delta table entry, keys in the order
    approval, stability, economy, justice, power, chaos. *)
Definition deltas_of (a s e j p c : option Z) : Deltas :=
  mkDeltas a s e j p c None None.

Definition LAW_DELTAS : gmap string Deltas :=
  list_to_map
    [ ("tax_cut"%string,
       deltas_of (Some 5) (Some (-2)) (Some 8) None (Some 0) (Some (-1)));
      ("emergency_rule"%string,
       deltas_of (Some (-10)) (Some 10) None (Some (-8)) (Some 12) (Some 5));
      ("welfare_boost"%string,
       deltas_of (Some 8) None (Some (-6)) (Some 5) (Some 0) (Some (-2)));
      ("police_reform"%string,
       deltas_of (Some (-3)) (Some 2) None (Some 12) (Some (-2)) (Some (-1))) ].

Definition CRISIS_DELTAS : gmap string Deltas :=
  list_to_map
    [ ("pandemic"%string,
       deltas_of (Some (-6)) (Some (-10)) (Some (-12)) (Some 0) (Some 5) (Some 8));
      ("economic_shock"%string,
       deltas_of (Some (-8)) (Some (-6)) (Some (-15)) (Some 0) (Some 3) (Some 6));
      ("diplomatic_row"%string,
       deltas_of (Some (-4)) (Some (-3)) (Some (-2)) None (Some (-1)) (Some 2)) ].

Definition DIPLOMACY_DELTAS : gmap string Deltas :=
  list_to_map
    [ ("treaty"%string,
       deltas_of (Some 2) (Some 3) (Some 2) None None (Some (-1)));
      ("trade"%string,
       deltas_of (Some 1) (Some 1) (Some 6) None None None);
      ("rivalry"%string,
       deltas_of (Some (-3)) (Some (-4)) None None None (Some 4)) ].

Definition REBELLION_DELTAS : gmap string Deltas :=
  list_to_map
    [ ("negotiate"%string,
       deltas_of (Some 5) (Some 6) None None (Some (-5)) (Some (-8)));
      ("suppress"%string,
       deltas_of (Some (-12)) (Some 10) None None (Some 8) (Some 10));
      ("appease"%string,
       deltas_of (Some 3) (Some 4) (Some (-4)) None None (Some (-5))) ].

Definition COSMIC_DELTAS : gmap string Deltas :=
  list_to_map
    [ ("probe"%string,
       deltas_of (Some (-2)) None None None (Some 3) (Some 10));
      ("entreat"%string,
       deltas_of (Some 4) (Some 2) None None None (Some (-6)));
      ("distort"%string,
       deltas_of (Some (-20)) (Some (-15)) None None (Some 20) (Some 25)) ].

(** [TABLE[key] || fallback]: an entry of a table is an object, hence truthy.
    Keys are the own keys of the table literal.  Under a name that a
    JavaScript object inherits from [Object.prototype] the code finds the
    inherited value instead of the fallback; for every other key this
    lookup is that of the code. *)
Definition lookup_or (table : gmap string Deltas) (key : string)
    (fallback : Deltas) : Deltas :=
  match table !! key with
  | Some d => d
  | None => fallback
  end.

(** The fallback literals of the five handlers. *)
Definition law_fallback : Deltas := deltas_of (Some 0) None None None None None.
Definition crisis_fallback : Deltas := deltas_of (Some (-2)) None None None None None.
Definition diplomacy_fallback : Deltas := deltas_of (Some 0) None None None None None.
Definition rebellion_fallback : Deltas := deltas_of (Some 0) None None None None None.
Definition cosmic_fallback : Deltas := deltas_of None None None None None (Some 5).

(** [deltas.laws = 1] *)
Definition set_d_laws (d : Deltas) (v : Z) : Deltas :=
  mkDeltas (d_approval d) (d_stability d) (d_economy d) (d_justice d)
           (d_power d) (d_chaos d) (Some v) (d_crises d).

(** [merged.crises = 1] *)
Definition set_d_crises (d : Deltas) (v : Z) : Deltas :=
  mkDeltas (d_approval d) (d_stability d) (d_economy d) (d_justice d)
           (d_power d) (d_chaos d) (d_laws d) (Some v).

(** The method modifier of [/crises/resolve]. *)
Definition methodMod (method : option string) : Deltas :=
  match method with
  | Some m =>
      if String.eqb m "bold" then
        deltas_of (Some (-3)) None None None (Some 5) (Some 4)
      else if String.eqb m "measured" then
        deltas_of (Some 2) (Some 4) (Some (-3)) None None None
      else if String.eqb m "ignore" then
        deltas_of (Some (-10)) (Some (-12)) None None None (Some 10)
      else no_deltas
  | None => no_deltas
  end.

(** [merged[k] = (merged[k] || 0) + methodMod[k]] for a key [k] of
    [methodMod]; a key that [methodMod] lacks is left as it is. *)
Definition merge_key (merged modifier : option Z) : option Z :=
  match modifier with
  | Some m => Some (num_or (default 0 merged) 0 + m)
  | None => merged
  end.

(** [Object.assign({}, base)] followed by the loop over
    [Object.keys(methodMod)]. *)
Definition merge_deltas (base modifier : Deltas) : Deltas :=
  mkDeltas
    (merge_key (d_approval base) (d_approval modifier))
    (merge_key (d_stability base) (d_stability modifier))
    (merge_key (d_economy base) (d_economy modifier))
    (merge_key (d_justice base) (d_justice modifier))
    (merge_key (d_power base) (d_power modifier))
    (merge_key (d_chaos base) (d_chaos modifier))
    (merge_key (d_laws base) (d_laws modifier))
    (merge_key (d_crises base) (d_crises modifier)).

(** ** Achievement rules *)

Record Rule := mkRule {
  rule_key : string;
  rule_condition : Stats -> bool;
  rule_description : string
}.

Definition ACHIEVEMENT_RULES : list Rule :=
  [ mkRule "stable_mandate" (fun s => Z.leb 90 (stability s)) "Stability >= 90";
    mkRule "economic_wizard" (fun s => Z.leb 90 (economy s)) "Economy >= 90";
    mkRule "chaos_master" (fun s => Z.leb 80 (chaos s)) "Chaos >= 80";
    mkRule "iron_fist" (fun s => Z.leb 90 (power s) && Z.ltb (justice s) 30)
           "Power >= 90 while Justice < 30" ].

(** ** The database and the other sources of state *)

Record SessionRow := mkSession {
  session_id : string;
  session_playerName : string;
  session_country : string;
  session_difficulty : string;
  session_chaosThreshold : Z;
  session_startedAt : N;
  session_endedAt : option N
}.

Record TimelineRow := mkTimeline {
  ev_id : string;
  ev_sessionId : string;
  ev_type : string;
  ev_description : string;
  ev_at : N
}.

Record AchievementRow := mkAchievement {
  ach_id : string;
  ach_sessionId : string;
  ach_key : string;
  ach_description : string;
  ach_at : N
}.

Record MatchRow := mkMatch {
  match_id : string;
  match_sessionAId : string;
  match_sessionBId : string;
  match_mode : string;
  match_startedAt : N;
  match_endedAt : option N
}.

(** The tables are lists of rows in insertion order.  [uuidv4()] draws from a
    counter and [new Date()] reads a clock that advances with every reading;
    a timestamp is kept as the clock value instead of its ISO rendering.
    [law_table] is the object [LAW_DELTAS] as it stands: it is the one delta
    table whose entries a handler assigns to. *)
Record World := mkWorld {
  Session_tbl : list SessionRow;
  Stats_tbl : list Stats;
  TimelineEvent_tbl : list TimelineRow;
  Achievement_tbl : list AchievementRow;
  MultiplayerMatch_tbl : list MatchRow;
  next_uuid : N;
  clock : N;
  law_table : gmap string Deltas
}.

(** The state in which the server starts. *)
Definition empty_world : World := mkWorld [] [] [] [] [] 0 0 LAW_DELTAS.

(** State monad over the world. *)
Definition M (A : Type) : Type := World -> A * World.

#[global] Instance M_ret : MRet M := fun A a w => (a, w).
#[global] Instance M_bind : MBind M :=
  fun A B f m w => let '(a, w') := m w in f a w'.

Definition uuid_of (n : N) : string := String.app "uuid-" (pretty n).

Definition uuidv4 : M string := fun w =>
  (uuid_of (next_uuid w),
   mkWorld (Session_tbl w) (Stats_tbl w) (TimelineEvent_tbl w)
           (Achievement_tbl w) (MultiplayerMatch_tbl w)
           (N.succ (next_uuid w)) (clock w) (law_table w)).

Definition Date_now : M N := fun w =>
  (clock w,
   mkWorld (Session_tbl w) (Stats_tbl w) (TimelineEvent_tbl w)
           (Achievement_tbl w) (MultiplayerMatch_tbl w)
           (next_uuid w) (N.succ (clock w)) (law_table w)).

(** *** Prepared statements *)

Definition insertSession_run (r : SessionRow) : M unit := fun w =>
  (tt, mkWorld (Session_tbl w ++ [r]) (Stats_tbl w) (TimelineEvent_tbl w)
               (Achievement_tbl w) (MultiplayerMatch_tbl w)
               (next_uuid w) (clock w) (law_table w)).

(** [INSERT ... ON CONFLICT(sessionId) DO UPDATE SET ...] on a list of rows. *)
Fixpoint upsert_row (r : Stats) (tbl : list Stats) : list Stats :=
  match tbl with
  | [] => [r]
  | r' :: rest =>
      if String.eqb (sessionId r') (sessionId r) then r :: rest
      else r' :: upsert_row r rest
  end.

Definition upsertStats_run (r : Stats) : M unit := fun w =>
  (tt, mkWorld (Session_tbl w) (upsert_row r (Stats_tbl w)) (TimelineEvent_tbl w)
               (Achievement_tbl w) (MultiplayerMatch_tbl w)
               (next_uuid w) (clock w) (law_table w)).

(** [SELECT * FROM Stats WHERE sessionId = ?] *)
Definition select_stats (id : string) (tbl : list Stats) : option Stats :=
  List.find (fun r => String.eqb (sessionId r) id) tbl.

Definition getStatsStmt_get (id : string) : M (option Stats) := fun w =>
  (select_stats id (Stats_tbl w), w).

Definition insertTimeline_run (r : TimelineRow) : M unit := fun w =>
  (tt, mkWorld (Session_tbl w) (Stats_tbl w) (TimelineEvent_tbl w ++ [r])
               (Achievement_tbl w) (MultiplayerMatch_tbl w)
               (next_uuid w) (clock w) (law_table w)).

Definition insertAchievement_run (r : AchievementRow) : M unit := fun w =>
  (tt, mkWorld (Session_tbl w) (Stats_tbl w) (TimelineEvent_tbl w)
               (Achievement_tbl w ++ [r]) (MultiplayerMatch_tbl w)
               (next_uuid w) (clock w) (law_table w)).

Definition insertMatch_run (r : MatchRow) : M unit := fun w =>
  (tt, mkWorld (Session_tbl w) (Stats_tbl w) (TimelineEvent_tbl w)
               (Achievement_tbl w) (MultiplayerMatch_tbl w ++ [r])
               (next_uuid w) (clock w) (law_table w)).

(** [UPDATE MultiplayerMatch SET endedAt=@endedAt WHERE matchId=@matchId] *)
Definition updateMatch_run (id : string) (endedAt : N) : M unit := fun w =>
  (tt, mkWorld (Session_tbl w) (Stats_tbl w) (TimelineEvent_tbl w)
               (Achievement_tbl w)
               (List.map (fun m =>
                  if String.eqb (match_id m) id then
                    mkMatch (match_id m) (match_sessionAId m) (match_sessionBId m)
                            (match_mode m) (match_startedAt m) (Some endedAt)
                  else m) (MultiplayerMatch_tbl w))
               (next_uuid w) (clock w) (law_table w)).

(** [SELECT key FROM Achievement WHERE sessionId = ?], mapped to the keys. *)
Definition select_keys (id : string) (tbl : list AchievementRow) : list string :=
  List.map ach_key (List.filter (fun r => String.eqb (ach_sessionId r) id) tbl).

Definition existing_keys (id : string) : M (list string) := fun w =>
  (select_keys id (Achievement_tbl w), w).

(** [SELECT chaosThreshold FROM Session WHERE id = ?], then
    [?.chaosThreshold || 100]. *)
Definition select_chaosThreshold (id : string) : M Z := fun w =>
  (match List.find (fun r => String.eqb (session_id r) id) (Session_tbl w) with
   | Some r => num_or (session_chaosThreshold r) 100
   | None => 100
   end, w).

Definition select_match (id : string) : M (option MatchRow) := fun w =>
  (List.find (fun r => String.eqb (match_id r) id) (MultiplayerMatch_tbl w), w).

(** [Array.prototype.includes] on strings. *)
Definition includes (l : list string) (x : string) : bool :=
  List.existsb (String.eqb x) l.

(** [const deltas = LAW_DELTAS[lawKey] || { approval: 0 }; deltas.laws = v]:
    when the table holds the key, [deltas] is the entry itself, so that the
    assignment changes the table; otherwise it is the new fallback object. *)
Definition law_deltas_assign (lawKey : string) (v : Z) : M Deltas := fun w =>
  match law_table w !! lawKey with
  | Some entry =>
      (set_d_laws entry v,
       mkWorld (Session_tbl w) (Stats_tbl w) (TimelineEvent_tbl w)
               (Achievement_tbl w) (MultiplayerMatch_tbl w)
               (next_uuid w) (clock w)
               (<[lawKey := set_d_laws entry v]> (law_table w)))
  | None => (set_d_laws law_fallback v, w)
  end.

(** ** Helpers of the handlers *)

(** [function pushTimeline(sessionId, type, description)] *)
Definition pushTimeline (sid type description : string) : M TimelineRow :=
  id ← uuidv4;
  at_ ← Date_now;
  let ev := mkTimeline id sid type description at_ in
  _ ← insertTimeline_run ev;
  mret ev.

(** The body of the loop of [evaluateAchievements] for a rule that fires:
    the row is built, inserted and logged. *)
Definition unlock (sid : string) (rule : Rule) : M AchievementRow :=
  id ← uuidv4;
  at_ ← Date_now;
  let ach := mkAchievement id sid (rule_key rule) (rule_description rule) at_ in
  _ ← insertAchievement_run ach;
  _ ← pushTimeline sid "achievement"
        (String.app "Achievement unlocked: "
           (String.app (rule_key rule)
              (String.app " - " (rule_description rule))));
  mret ach.

(** The loop of [evaluateAchievements] over the rules, [found] being the
    array filled so far; [existing] is read once, before the loop. *)
Fixpoint evaluate_rules (rules : list Rule) (existing : list string)
    (sid : string) (stats : Stats) (found : list AchievementRow)
    : M (list AchievementRow) :=
  match rules with
  | [] => mret found
  | rule :: rest =>
      if negb (includes existing (rule_key rule)) && rule_condition rule stats then
        ach ← unlock sid rule;
        evaluate_rules rest existing sid stats (found ++ [ach])
      else evaluate_rules rest existing sid stats found
  end.

(** [function evaluateAchievements(sessionId, stats)] *)
Definition evaluateAchievements (sid : string) (stats : Stats)
    : M (list AchievementRow) :=
  existing ← existing_keys sid;
  evaluate_rules ACHIEVEMENT_RULES existing sid stats [].

(** ** Request handlers *)

(** What a handler sends back: [res.status(c).json({error})] or the JSON
    body of a successful answer. *)
Inductive Response :=
  | Error (status : Z) (error : string)
  | Started (id : string) (stats : Stats)
  | Acted (stats : Stats) (achievements : list AchievementRow)
          (rebellion : Rebellion) (gameOver : option GameOver)
  | Unlocked (achievement : AchievementRow)
  | MatchStarted (matchId mode : string)
  | Updated.

(** [x || d] for an optional string of the request body. *)
Definition opt_or (x : option string) (d : string) : string :=
  match x with
  | Some s => str_or s d
  | None => d
  end.

Definition cat (l : list string) : string :=
  List.fold_right String.app EmptyString l.

(** [POST /session/start] *)
Definition session_start (playerName country difficulty : option string)
    (chaosThreshold : option Z) : M Response :=
  let playerName := default "Player"%string playerName in
  let country := default "Republic"%string country in
  let difficulty := default "normal"%string difficulty in
  let chaosThreshold := default 100 chaosThreshold in
  id ← uuidv4;
  startedAt ← Date_now;
  _ ← insertSession_run
        (mkSession id playerName country difficulty chaosThreshold startedAt None);
  let baseStats := DEFAULT_STATS id in
  _ ← upsertStats_run baseStats;
  _ ← pushTimeline id "system"
        (cat ["Session started for "; playerName; " in "; country;
              " ("; difficulty; ")"]%string);
  mret (Started id baseStats).

(** [POST /laws/enforce] *)
Definition laws_enforce (sessionId lawKey description : option string)
    : M Response :=
  if negb (truthy sessionId) || negb (truthy lawKey) then
    mret (Error 400 "sessionId and lawKey required")
  else
    let sid := default EmptyString sessionId in
    let lawKey := default EmptyString lawKey in
    statsRow ← getStatsStmt_get sid;
    match statsRow with
    | None => mret (Error 404 "session not found")
    | Some statsRow =>
        deltas ← law_deltas_assign lawKey 1;
        let newStats := applyDeltas statsRow deltas in
        _ ← upsertStats_run newStats;
        _ ← pushTimeline sid "law"
              (opt_or description (cat ["Enforced law: "; lawKey]%string));
        achievements ← evaluateAchievements sid newStats;
        let rebellion := checkRebellionChance newStats in
        chaosThreshold ← select_chaosThreshold sid;
        let gameOver := checkGameOver newStats chaosThreshold in
        mret (Acted newStats achievements rebellion (Some gameOver))
    end.

(** [POST /crises/resolve] *)
Definition crises_resolve (sessionId crisisKey method description : option string)
    : M Response :=
  if negb (truthy sessionId) || negb (truthy crisisKey) then
    mret (Error 400 "sessionId and crisisKey required")
  else
    let sid := default EmptyString sessionId in
    let crisisKey := default EmptyString crisisKey in
    statsRow ← getStatsStmt_get sid;
    match statsRow with
    | None => mret (Error 404 "session not found")
    | Some statsRow =>
        let base := lookup_or CRISIS_DELTAS crisisKey crisis_fallback in
        let merged := merge_deltas base (methodMod method) in
        let merged := set_d_crises merged 1 in
        let newStats := applyDeltas statsRow merged in
        _ ← upsertStats_run newStats;
        _ ← pushTimeline sid "crisis"
              (opt_or description
                 (cat ["Resolved crisis "; crisisKey; " by ";
                       opt_or method "default"]%string));
        achievements ← evaluateAchievements sid newStats;
        let rebellion := checkRebellionChance newStats in
        chaosThreshold ← select_chaosThreshold sid;
        let gameOver := checkGameOver newStats chaosThreshold in
        mret (Acted newStats achievements rebellion (Some gameOver))
    end.

(** [POST /diplomacy/action] *)
Definition diplomacy_action (sessionId actionKey target description : option string)
    : M Response :=
  if negb (truthy sessionId) || negb (truthy actionKey) then
    mret (Error 400 "sessionId and actionKey required")
  else
    let sid := default EmptyString sessionId in
    let actionKey := default EmptyString actionKey in
    statsRow ← getStatsStmt_get sid;
    match statsRow with
    | None => mret (Error 404 "session not found")
    | Some statsRow =>
        let deltas := lookup_or DIPLOMACY_DELTAS actionKey diplomacy_fallback in
        let newStats := applyDeltas statsRow deltas in
        _ ← upsertStats_run newStats;
        _ ← pushTimeline sid "diplomacy"
              (opt_or description
                 (cat ["Diplomacy "; actionKey; " with ";
                       opt_or target "unknown"]%string));
        achievements ← evaluateAchievements sid newStats;
        let rebellion := checkRebellionChance newStats in
        mret (Acted newStats achievements rebellion None)
    end.

(** [POST /rebellion/act] *)
Definition rebellion_act (sessionId act description : option string)
    : M Response :=
  if negb (truthy sessionId) || negb (truthy act) then
    mret (Error 400 "sessionId and act required")
  else
    let sid := default EmptyString sessionId in
    let act := default EmptyString act in
    statsRow ← getStatsStmt_get sid;
    match statsRow with
    | None => mret (Error 404 "session not found")
    | Some statsRow =>
        let deltas := lookup_or REBELLION_DELTAS act rebellion_fallback in
        let newStats := applyDeltas statsRow deltas in
        _ ← upsertStats_run newStats;
        _ ← pushTimeline sid "rebellion"
              (opt_or description (cat ["Rebellion action: "; act]%string));
        achievements ← evaluateAchievements sid newStats;
        let rebellion := checkRebellionChance newStats in
        chaosThreshold ← select_chaosThreshold sid;
        let gameOver := checkGameOver newStats chaosThreshold in
        mret (Acted newStats achievements rebellion (Some gameOver))
    end.

(** [POST /cosmic/act] *)
Definition cosmic_act (sessionId actKey description : option string)
    : M Response :=
  if negb (truthy sessionId) || negb (truthy actKey) then
    mret (Error 400 "sessionId and actKey required")
  else
    let sid := default EmptyString sessionId in
    let actKey := default EmptyString actKey in
    statsRow ← getStatsStmt_get sid;
    match statsRow with
    | None => mret (Error 404 "session not found")
    | Some statsRow =>
        let deltas := lookup_or COSMIC_DELTAS actKey cosmic_fallback in
        let newStats := applyDeltas statsRow deltas in
        _ ← upsertStats_run newStats;
        _ ← pushTimeline sid "cosmic"
              (opt_or description (cat ["Cosmic act: "; actKey]%string));
        _ ← (if String.eqb actKey "distort" then
               id ← uuidv4;
               at_ ← Date_now;
               _ ← insertAchievement_run
                     (mkAchievement id sid "distorted_realm"
                        "Distorted the fabric of state" at_);
               _ ← pushTimeline sid "achievement"
                     "Achievement unlocked: distorted_realm";
               mret tt
             else mret tt);
        achievements ← evaluateAchievements sid newStats;
        let rebellion := checkRebellionChance newStats in
        chaosThreshold ← select_chaosThreshold sid;
        let gameOver := checkGameOver newStats chaosThreshold in
        mret (Acted newStats achievements rebellion (Some gameOver))
    end.

(** [POST /achievement/unlock], for a session that has its row in table
    [Session]; the failure of the FOREIGN KEY of table [Achievement] for
    another [sessionId] is not modelled. *)
Definition achievement_unlock (sessionId key description : option string)
    : M Response :=
  if negb (truthy sessionId) || negb (truthy key) then
    mret (Error 400 "sessionId and key required")
  else
    let sid := default EmptyString sessionId in
    let key := default EmptyString key in
    id ← uuidv4;
    at_ ← Date_now;
    let ach := mkAchievement id sid key (opt_or description key) at_ in
    _ ← insertAchievement_run ach;
    _ ← pushTimeline sid "achievement" (cat ["Manually unlocked: "; key]%string);
    mret (Unlocked ach).

(** [POST /multiplayer/start], for two sessions that have their rows in
    table [Session]; the failure of the FOREIGN KEY of table [TimelineEvent]
    for another [sessionId] is not modelled. *)
Definition multiplayer_start (sessionAId sessionBId mode : option string)
    : M Response :=
  let mode := default "versus"%string mode in
  if negb (truthy sessionAId) || negb (truthy sessionBId) then
    mret (Error 400 "both session IDs required")
  else
    let sessionAId := default EmptyString sessionAId in
    let sessionBId := default EmptyString sessionBId in
    matchId ← uuidv4;
    startedAt ← Date_now;
    _ ← insertMatch_run (mkMatch matchId sessionAId sessionBId mode startedAt None);
    _ ← pushTimeline sessionAId "system"
          (cat ["Multiplayer match "; matchId; " started vs "; sessionBId]%string);
    _ ← pushTimeline sessionBId "system"
          (cat ["Multiplayer match "; matchId; " started vs "; sessionAId]%string);
    mret (MatchStarted matchId mode).

(** One of the two blocks [if (deltaX && match.sessionXId) { ... }] of
    [/multiplayer/update]. *)
Definition multiplayer_apply (delta : option Deltas) (sid label : string)
    : M unit :=
  match delta with
  | Some delta =>
      if negb (String.eqb sid EmptyString) then
        s ← getStatsStmt_get sid;
        match s with
        | Some s =>
            let new := applyDeltas s delta in
            _ ← upsertStats_run new;
            _ ← pushTimeline sid "system"
                  (cat ["Multiplayer update applied to "; label]%string);
            mret tt
        | None => mret tt
        end
      else mret tt
  | None => mret tt
  end.

(** [POST /multiplayer/update], with [deltaA] and [deltaB] objects whose
    entries are integers, or missing. *)
Definition multiplayer_update (matchId : string) (deltaA deltaB : option Deltas)
    (end_ : bool) : M Response :=
  m ← select_match matchId;
  match m with
  | None => mret (Error 404 "match not found")
  | Some m =>
      _ ← multiplayer_apply deltaA (match_sessionAId m) "A";
      _ ← multiplayer_apply deltaB (match_sessionBId m) "B";
      _ ← (if end_ then
             endedAt ← Date_now;
             _ ← updateMatch_run matchId endedAt;
             _ ← pushTimeline (match_sessionAId m) "system"
                   (cat ["Match "; matchId; " ended"]%string);
             _ ← pushTimeline (match_sessionBId m) "system"
                   (cat ["Match "; matchId; " ended"]%string);
             mret tt
           else mret tt);
      mret Updated
  end.

(** *** Routing

    The requests that write to the tables [Stats] and [Achievement]; the
    routes that only read, or that write the archive, are left out. *)
Inductive Request :=
  | SessionStart (playerName country difficulty : option string)
                 (chaosThreshold : option Z)
  | LawsEnforce (sessionId lawKey description : option string)
  | CrisesResolve (sessionId crisisKey method description : option string)
  | DiplomacyAction (sessionId actionKey target description : option string)
  | RebellionAct (sessionId act description : option string)
  | CosmicAct (sessionId actKey description : option string)
  | AchievementUnlock (sessionId key description : option string)
  | MultiplayerStart (sessionAId sessionBId mode : option string)
  | MultiplayerUpdate (matchId : string) (deltaA deltaB : option Deltas)
                      (end_ : bool).

Definition route (r : Request) : M Response :=
  match r with
  | SessionStart playerName country difficulty chaosThreshold =>
      session_start playerName country difficulty chaosThreshold
  | LawsEnforce sessionId lawKey description =>
      laws_enforce sessionId lawKey description
  | CrisesResolve sessionId crisisKey method description =>
      crises_resolve sessionId crisisKey method description
  | DiplomacyAction sessionId actionKey target description =>
      diplomacy_action sessionId actionKey target description
  | RebellionAct sessionId act description =>
      rebellion_act sessionId act description
  | CosmicAct sessionId actKey description =>
      cosmic_act sessionId actKey description
  | AchievementUnlock sessionId key description =>
      achievement_unlock sessionId key description
  | MultiplayerStart sessionAId sessionBId mode =>
      multiplayer_start sessionAId sessionBId mode
  | MultiplayerUpdate matchId deltaA deltaB end_ =>
      multiplayer_update matchId deltaA deltaB end_
  end.

(** The world after the requests [rs] were served one after the other. *)
Definition serve (rs : list Request) (w : World) : World :=
  fold_left (fun w r => snd (route r w)) rs w.

(** ** [applyDeltas] on the object heap

    The same function with its objects in a store, so that what it writes
    to is visible: [stats] and [deltas] are references, the copy
    [Object.assign({}, stats)] is a new object and every assignment
    [s.k = ...] is a write to that object. *)

Inductive Obj :=
  | OStats (s : Stats)
  | ODeltas (d : Deltas).

Abbreviation Heap := (gmap positive Obj).

(** One assignment to a field of the object at [s], computed from the
    objects found at [s] and at [deltas] when the statement runs. *)
Definition heap_assign (s deltas : positive) (f : Deltas -> Stats -> Stats)
    (h : Heap) : Heap :=
  match h !! s, h !! deltas with
  | Some (OStats x), Some (ODeltas d) => <[s := OStats (f d x)]> h
  | _, _ => h
  end.

Definition applyDeltas_heap (stats deltas : positive) (h : Heap)
    : option (positive * Heap) :=
  match h !! stats, h !! deltas with
  | Some (OStats st), Some (ODeltas _) =>
      let s := fresh (dom h) in
      let h := <[s := OStats st]> h in
      let h :=
        fold_left
          (fun h key => heap_assign s deltas (fun d x => apply_bounded d x key) h)
          bounded_keys h in
      let h := heap_assign s deltas apply_chaos h in
      let h := heap_assign s deltas apply_laws h in
      let h := heap_assign s deltas apply_crises h in
      Some (s, h)
  | _, _ => None
  end.

(** ** The archive encoder *)

(** A JSON-serializable value; the members of an object are kept in the
    order in which [JSON.stringify] enumerates them. *)
#[warnings="-register-all"] Inductive Json :=
  | JNull
  | JBool (b : bool)
  | JNumber (n : Z)
  | JString (s : string)
  | JArray (items : list Json)
  | JObject (members : list (string * Json)).

(** Structural identity of two payloads in the narrow sense: the same tree,
    the members of every object in the same order. *)
Fixpoint json_eqb (p q : Json) {struct p} : bool :=
  match p, q with
  | JNull, JNull => true
  | JBool a, JBool b => Bool.eqb a b
  | JNumber a, JNumber b => Z.eqb a b
  | JString a, JString b => String.eqb a b
  | JArray xs, JArray ys =>
      (fix items_eqb (xs ys : list Json) {struct xs} : bool :=
         match xs, ys with
         | [], [] => true
         | x :: xs, y :: ys => json_eqb x y && items_eqb xs ys
         | _, _ => false
         end) xs ys
  | JObject xs, JObject ys =>
      (fix members_eqb (xs ys : list (string * Json)) {struct xs} : bool :=
         match xs, ys with
         | [], [] => true
         | (k, x) :: xs, (l, y) :: ys =>
             String.eqb k l && json_eqb x y && members_eqb xs ys
         | _, _ => false
         end) xs ys
  | _, _ => false
  end.

Definition hex_digit (n : N) : string :=
  match List.nth_error
          ["0"; "1"; "2"; "3"; "4"; "5"; "6"; "7"; "8"; "9";
           "a"; "b"; "c"; "d"; "e"; "f"]%string (N.to_nat n) with
  | Some d => d
  | None => EmptyString
  end.

(** How [JSON.stringify] writes one character of a string.  A string is held
    as its UTF-8 bytes, so a byte above 127 is part of a character that is
    written as it is. *)
Definition escape_char (c : ascii) : string :=
  let n := N_of_ascii c in
  if N.eqb n 34 then String "\" (String (ascii_of_N 34) EmptyString)
  else if N.eqb n 92 then "\\"%string
  else if N.eqb n 8 then "\b"%string
  else if N.eqb n 12 then "\f"%string
  else if N.eqb n 10 then "\n"%string
  else if N.eqb n 13 then "\r"%string
  else if N.eqb n 9 then "\t"%string
  else if N.ltb n 32 then
    cat ["\u00"; hex_digit (N.div n 16); hex_digit (N.modulo n 16)]%string
  else String c EmptyString.

Fixpoint escape (s : string) : string :=
  match s with
  | EmptyString => EmptyString
  | String c rest => String.app (escape_char c) (escape rest)
  end.

(** The double quote character. *)
Definition dq : string := String (ascii_of_N 34) EmptyString.

Definition quote (s : string) : string := cat [dq; escape s; dq].

Definition join_comma (l : list string) : string :=
  match l with
  | [] => EmptyString
  | x :: rest => List.fold_left (fun acc y => cat [acc; ","; y]%string) rest x
  end.

(** [JSON.stringify(obj)] *)
Fixpoint JSON_stringify (p : Json) : string :=
  match p with
  | JNull => "null"
  | JBool true => "true"
  | JBool false => "false"
  | JNumber n => pretty n
  | JString s => quote s
  | JArray items =>
      cat ["["; join_comma (List.map JSON_stringify items); "]"]%string
  | JObject members =>
      cat ["{";
           join_comma
             (List.map (fun m => cat [quote (fst m); ":"; JSON_stringify (snd m)]%string)
                       members);
           "}"]%string
  end.

(** [Buffer.from(json, 'utf8')]: the bytes of the string. *)
Definition Buffer_from (s : string) : list N :=
  List.map N_of_ascii (String.list_ascii_of_string s).

Definition base64_alphabet : string :=
  "ABCDEFGHIJKLMNOPQRSTUVWXYZabcdefghijklmnopqrstuvwxyz0123456789+/".

Definition base64_digit (n : N) : ascii :=
  match String.get (N.to_nat n) base64_alphabet with
  | Some c => c
  | None => "="%char
  end.

(** [buf.toString('base64')]: three bytes give four digits, the last group
    is padded with [=]. *)
Fixpoint toString_base64 (buf : list N) : string :=
  match buf with
  | [] => EmptyString
  | [a] =>
      String (base64_digit (a / 4))
        (String (base64_digit ((a mod 4) * 16)) "==")
  | [a; b] =>
      String (base64_digit (a / 4))
        (String (base64_digit ((a mod 4) * 16 + b / 16))
           (String (base64_digit ((b mod 16) * 4)) "="))
  | a :: b :: c :: rest =>
      String (base64_digit (a / 4))
        (String (base64_digit ((a mod 4) * 16 + b / 16))
           (String (base64_digit ((b mod 16) * 4 + c / 64))
              (String (base64_digit (c mod 64)) (toString_base64 rest))))
  end%N.

(** The literal [glyphSet] as the source file holds it, one number per UTF-16
    code unit; [glyphSet.length] is the length of this list. *)
Definition glyphSet : list N :=
  [
    8218; 263; 252; 8218; 250; 182; 8218; 250; 223; 8218; 250; 310; 8218;
    250; 8706; 8218; 250; 8721; 8218; 250; 322; 8218; 250; 315; 8218; 250;
    316; 8218; 250; 318; 8218; 250; 313; 8218; 250; 314; 8218; 279; 214;
    8218; 279; 318; 8218; 279; 302; 8218; 279; 322; 8218; 250; 316; 8218;
    282; 257; 8218; 282; 201; 8218; 282; 256; 8218; 250; 325; 8218; 279;
    244; 8218; 244; 220; 8218; 244; 274; 8218; 244; 275; 8218; 244; 278;
    8218; 244; 243; 8218; 244; 279; 8218; 244; 244
  ]%N.

(** The code units of the text that [glyphs += undefined] would append. *)
Definition undefined_text : list N :=
  List.map N_of_ascii (String.list_ascii_of_string "undefined").

(** [glyphSet[ch % glyphSet.length]] as the text appended to [glyphs]. *)
Definition glyph_of (ch : N) : list N :=
  match glyphSet !! N.to_nat (ch mod N.of_nat (length glyphSet))%N with
  | Some g => [g]
  | None => undefined_text
  end.

(** The loop [for (let i = 0; i < b64.length; i++)], [glyphs] being the
    string built so far. *)
Fixpoint glyph_loop (b64 : string) (glyphs : list N) : list N :=
  match b64 with
  | EmptyString => glyphs
  | String c rest => glyph_loop rest (glyphs ++ glyph_of (N_of_ascii c))
  end.

Section Encoder.

(** [zlib.deflateSync] belongs to Node.js, not to this repository; the
    encoder is parametrised by it. *)
Variable deflateSync : list N -> list N.

(** [function compressToGlyphs(obj)] *)
Definition compressToGlyphs (obj : Json) : list N :=
  let json := JSON_stringify obj in
  let def := deflateSync (Buffer_from json) in
  let b64 := toString_base64 def in
  glyph_loop b64 [].

End Encoder.

(** ** The answers as JSON and the routes that core.js calls *)

(** [o.k] for a value [o] parsed from JSON: the member of an object, and
    [undefined] ([None]) when the object lacks the key or [o] is a number, a
    string, a boolean or an array with no such property. *)
Definition member (o : Json) (k : string) : option Json :=
  match o with
  | JObject members =>
      option_map snd (List.find (fun m => String.eqb (fst m) k) members)
  | _ => None
  end.

(** A field that a handler destructures from [req.body]; the bodies of the
    model hold strings, any other value is left out. *)
Definition string_field (body : Json) (k : string) : option string :=
  match member body k with
  | Some (JString s) => Some s
  | _ => None
  end.

Definition number_field (body : Json) (k : string) : option Z :=
  match member body k with
  | Some (JNumber n) => Some n
  | _ => None
  end.

(** A row of table [Stats] as [res.json] writes it. *)
Definition Stats_json (s : Stats) : Json :=
  JObject [ ("sessionId"%string, JString (sessionId s));
            ("approval"%string, JNumber (approval s));
            ("stability"%string, JNumber (stability s));
            ("economy"%string, JNumber (economy s));
            ("justice"%string, JNumber (justice s));
            ("power"%string, JNumber (power s));
            ("chaos"%string, JNumber (chaos s));
            ("laws"%string, JNumber (laws s));
            ("crises"%string, JNumber (crises s)) ].

Definition GameOver_json (g : GameOver) : Json :=
  JObject (("gameOver"%string, JBool (gameOver g))
           :: match reason g with
              | Some r => [("reason"%string, JString r)]
              | None => []
              end).

Definition Rebellion_json (r : Rebellion) : Json :=
  JObject (("rebellion"%string, JBool (rebellion r))
           :: match intensity r with
              | Some i => [("intensity"%string, JNumber i)]
              | None => []
              end).

(** The UTF-8 bytes of a UTF-16 code unit outside the surrogate range, as
    the code units of [glyphSet] are; a JSON string is held as its bytes. *)
Definition utf8_of_unit (u : N) : list ascii :=
  (if u <? 128 then [ascii_of_N u]
   else if u <? 2048 then [ascii_of_N (192 + u / 64); ascii_of_N (128 + u mod 64)]
   else [ascii_of_N (224 + u / 4096); ascii_of_N (128 + (u / 64) mod 64);
         ascii_of_N (128 + u mod 64)])%N.

Definition utf8 (units : list N) : string :=
  String.string_of_list_ascii (List.concat (List.map utf8_of_unit units)).

(** A row of table [Archive]; the payload is the glyph string. *)
Record ArchiveRow := mkArchive {
  archive_id : string;
  archive_sessionId : string;
  archive_payload : list N;
  archive_createdAt : N
}.

(** The state of the server with the table that the archive routes write. *)
Record Server := mkServer {
  world : World;
  Archive_tbl : list ArchiveRow
}.

(** [UPDATE Session SET endedAt = @endedAt WHERE id = @id] *)
Definition updateSessionEnded_run (id : string) (endedAt : N) : M unit := fun w =>
  (tt, mkWorld
         (List.map (fun r =>
            if String.eqb (session_id r) id then
              mkSession (session_id r) (session_playerName r) (session_country r)
                        (session_difficulty r) (session_chaosThreshold r)
                        (session_startedAt r) (Some endedAt)
            else r) (Session_tbl w))
         (Stats_tbl w) (TimelineEvent_tbl w) (Achievement_tbl w)
         (MultiplayerMatch_tbl w) (next_uuid w) (clock w) (law_table w)).

(** The text of an em dash with a blank on either side. *)
Definition em_dash : string :=
  String " " (String (ascii_of_N 226) (String (ascii_of_N 128)
    (String (ascii_of_N 148) (String " " EmptyString)))).

(** The text of the three default glyphs of the final screen, joined by
    blanks, as the bytes of the source file. *)
Definition default_glyphs : string :=
  String.string_of_list_ascii
    (List.map ascii_of_N
       [226; 154; 150; 239; 184; 143; 32; 226; 154; 161; 32;
        240; 159; 140; 170; 239; 184; 143]%N).

(** [parts.join(sep)] on texts. *)
Definition join (sep : string) (parts : list string) : string :=
  match parts with
  | [] => EmptyString
  | x :: rest => List.fold_left (fun acc y => cat [acc; sep; y]) rest x
  end.

Section Platform.

(** [Date.prototype.toISOString], [zlib.deflateSync] and
    [new Date(text).toLocaleTimeString()] belong to the platform; the routes
    and the page are parametrised by them. *)
Variable toISOString : N -> string.
Variable deflateSync : list N -> list N.
Variable toLocaleTimeString : string -> string.

(** [ORDER BY at ASC]: a stable insertion sort on the stored text of the
    timestamp, compared byte by byte; the order of rows with the same
    timestamp, which SQL leaves open, is that of insertion. *)
Fixpoint insert_by_at (e : TimelineRow) (sorted : list TimelineRow)
    : list TimelineRow :=
  match sorted with
  | [] => [e]
  | e' :: rest =>
      if String.ltb (toISOString (ev_at e)) (toISOString (ev_at e'))
      then e :: e' :: rest
      else e' :: insert_by_at e rest
  end.

Definition order_by_at (rows : list TimelineRow) : list TimelineRow :=
  List.fold_left (fun sorted e => insert_by_at e sorted) rows [].

(** [SELECT * FROM TimelineEvent WHERE sessionId = ? ORDER BY at ASC] *)
Definition select_timeline (id : string) (tbl : list TimelineRow)
    : list TimelineRow :=
  order_by_at (List.filter (fun e => String.eqb (ev_sessionId e) id) tbl).

Definition Achievement_json (a : AchievementRow) : Json :=
  JObject [ ("id"%string, JString (ach_id a));
            ("sessionId"%string, JString (ach_sessionId a));
            ("key"%string, JString (ach_key a));
            ("description"%string, JString (ach_description a));
            ("at"%string, JString (toISOString (ach_at a))) ].

Definition Timeline_json (e : TimelineRow) : Json :=
  JObject [ ("id"%string, JString (ev_id e));
            ("sessionId"%string, JString (ev_sessionId e));
            ("type"%string, JString (ev_type e));
            ("description"%string, JString (ev_description e));
            ("at"%string, JString (toISOString (ev_at e))) ].

(** The body that [res.json] or [res.status(c).json] sends for an answer. *)
Definition Response_json (r : Response) : Json :=
  match r with
  | Error _ error => JObject [("error"%string, JString error)]
  | Started id stats =>
      JObject [("sessionId"%string, JString id); ("stats"%string, Stats_json stats)]
  | Acted stats achievements rebellion gameOver =>
      JObject ([ ("stats"%string, Stats_json stats);
                 ("achievements"%string,
                  JArray (List.map Achievement_json achievements));
                 ("rebellion"%string, Rebellion_json rebellion) ]
               ++ match gameOver with
                  | Some g => [("gameOver"%string, GameOver_json g)]
                  | None => []
                  end)
  | Unlocked achievement =>
      JObject [("achievement"%string, Achievement_json achievement)]
  | MatchStarted matchId mode =>
      JObject [("matchId"%string, JString matchId); ("mode"%string, JString mode)]
  | Updated => JObject [("ok"%string, JBool true)]
  end.

(** [POST /session/end] *)
Definition session_end (sessionId : option string) (s : Server) : Json * Server :=
  if negb (truthy sessionId) then
    (JObject [("error"%string, JString "sessionId required")], s)
  else
    let sid := default EmptyString sessionId in
    let '(endedAt, w) := Date_now (world s) in
    let '(_, w) := updateSessionEnded_run sid endedAt w in
    match select_stats sid (Stats_tbl w) with
    | None =>
        (JObject [("error"%string, JString "session not found or no stats")],
         mkServer w (Archive_tbl s))
    | Some stats =>
        let '(generatedAt, w) := Date_now w in
        let archivePayload :=
          JObject [ ("sessionId"%string, JString sid);
                    ("stats"%string, Stats_json stats);
                    ("endedAt"%string, JString (toISOString endedAt));
                    ("generatedAt"%string, JString (toISOString generatedAt)) ] in
        let glyphs := compressToGlyphs deflateSync archivePayload in
        let '(id, w) := uuidv4 w in
        let '(createdAt, w) := Date_now w in
        let archives := Archive_tbl s ++ [mkArchive id sid glyphs createdAt] in
        let '(_, w) := pushTimeline sid "archive" "Presidency archived" w in
        (JObject [ ("archiveId"%string, JString id);
                   ("glyphs"%string, JString (utf8 glyphs)) ],
         mkServer w archives)
    end.

(** A row of table [Session] as [res.json] and [JSON.stringify] write it;
    [endedAt] is [null] until the session is ended. *)
Definition Session_json (r : SessionRow) : Json :=
  JObject [ ("id"%string, JString (session_id r));
            ("playerName"%string, JString (session_playerName r));
            ("country"%string, JString (session_country r));
            ("difficulty"%string, JString (session_difficulty r));
            ("chaosThreshold"%string, JNumber (session_chaosThreshold r));
            ("startedAt"%string, JString (toISOString (session_startedAt r)));
            ("endedAt"%string,
             match session_endedAt r with
             | Some t => JString (toISOString t)
             | None => JNull
             end) ].

(** [SELECT key, description, at FROM Achievement WHERE sessionId = ?] *)
Definition select_achievements (id : string) (tbl : list AchievementRow)
    : list Json :=
  List.map (fun a =>
      JObject [ ("key"%string, JString (ach_key a));
                ("description"%string, JString (ach_description a));
                ("at"%string, JString (toISOString (ach_at a))) ])
    (List.filter (fun a => String.eqb (ach_sessionId a) id) tbl).

(** [POST /archive/export] *)
Definition archive_export (sessionId : option string) (s : Server)
    : Json * Server :=
  if negb (truthy sessionId) then
    (JObject [("error"%string, JString "sessionId required")], s)
  else
    let sid := default EmptyString sessionId in
    let w := world s in
    match select_stats sid (Stats_tbl w) with
    | None => (JObject [("error"%string, JString "session not found")], s)
    | Some stats =>
        let sessionRow :=
          match List.find (fun r => String.eqb (session_id r) sid) (Session_tbl w) with
          | Some r => Session_json r
          | None => JObject []
          end in
        let timeline :=
          List.map Timeline_json (select_timeline sid (TimelineEvent_tbl w)) in
        let achievements := select_achievements sid (Achievement_tbl w) in
        let '(exportedAt, w) := Date_now w in
        let payload :=
          JObject [ ("session"%string, sessionRow);
                    ("stats"%string, Stats_json stats);
                    ("timeline"%string, JArray timeline);
                    ("achievements"%string, JArray achievements);
                    ("exportedAt"%string, JString (toISOString exportedAt)) ] in
        let glyphs := compressToGlyphs deflateSync payload in
        let '(archiveId, w) := uuidv4 w in
        let '(createdAt, w) := Date_now w in
        let archives := Archive_tbl s ++ [mkArchive archiveId sid glyphs createdAt] in
        let '(_, w) := pushTimeline sid "archive" "Archive exported manually" w in
        (JObject [ ("archiveId"%string, JString archiveId);
                   ("glyphsSample"%string, JString (utf8 (take 256 glyphs)));
                   ("glyphsLength"%string, JNumber (Z.of_nat (length glyphs))) ],
         mkServer w archives)
    end.

(** [GET /session/:id/stats] *)
Definition session_stats (id : string) (s : Server) : Json * Server :=
  match select_stats id (Stats_tbl (world s)) with
  | None => (JObject [("error"%string, JString "stats not found")], s)
  | Some stats => (JObject [("stats"%string, Stats_json stats)], s)
  end.

(** [GET /timeline/:id] *)
Definition timeline (id : string) (s : Server) : Json * Server :=
  (JObject [("timeline"%string,
             JArray (List.map Timeline_json
                       (select_timeline id (TimelineEvent_tbl (world s)))))],
   s).

(** A handler of the engine run on the server, its answer sent as JSON. *)
Definition answer (m : M Response) (s : Server) : Json * Server :=
  let '(r, w) := m (world s) in (Response_json r, mkServer w (Archive_tbl s)).

(** The calls that core.js makes: the method and the path of each route,
    with the body of a POST or the identifier in the path of a GET. *)
Inductive Call :=
  | POST_session_start (body : Json)
  | GET_session_stats (id : string)
  | POST_laws_enforce (body : Json)
  | POST_crises_resolve (body : Json)
  | POST_diplomacy_action (body : Json)
  | POST_rebellion_act (body : Json)
  | POST_cosmic_act (body : Json)
  | GET_timeline (id : string)
  | POST_session_end (body : Json).

(** The routing of the express application, each handler destructuring its
    fields from [req.body]. *)
Definition express (call : Call) : Server -> Json * Server :=
  match call with
  | POST_session_start body =>
      answer (session_start (string_field body "playerName")
                (string_field body "country") (string_field body "difficulty")
                (number_field body "chaosThreshold"))
  | GET_session_stats id => session_stats id
  | POST_laws_enforce body =>
      answer (laws_enforce (string_field body "sessionId")
                (string_field body "lawKey") (string_field body "description"))
  | POST_crises_resolve body =>
      answer (crises_resolve (string_field body "sessionId")
                (string_field body "crisisKey") (string_field body "method")
                (string_field body "description"))
  | POST_diplomacy_action body =>
      answer (diplomacy_action (string_field body "sessionId")
                (string_field body "actionKey") (string_field body "target")
                (string_field body "description"))
  | POST_rebellion_act body =>
      answer (rebellion_act (string_field body "sessionId")
                (string_field body "act") (string_field body "description"))
  | POST_cosmic_act body =>
      answer (cosmic_act (string_field body "sessionId")
                (string_field body "actKey") (string_field body "description"))
  | GET_timeline id => timeline id
  | POST_session_end body => session_end (string_field body "sessionId")
  end.

(** ** The page: core.js

    The state of the page is [window.current] and what the functions of
    core.js read and write of the document: the values of the inputs, the
    text and the [style.display] of the elements, by their identifiers, and
    the children of [timelineList].  A call of [api] is taken to reach the
    server and to bring its answer back. *)

Record Page := mkPage {
  current_sessionId : option string;
  current_country : option string;
  current_player : option string;
  current_difficulty : string;
  value : gmap string string;
  textContent : gmap string string;
  display : gmap string string;
  timelineList : list string
}.

(** [document.getElementById(id).value]; an input that was not filled in
    has the empty text. *)
Definition value_of (id : string) (p : Page) : string :=
  default EmptyString (value p !! id).

Definition set_textContent (id text : string) (p : Page) : Page :=
  mkPage (current_sessionId p) (current_country p) (current_player p)
         (current_difficulty p) (value p) (<[id := text]> (textContent p))
         (display p) (timelineList p).

Definition set_display (id d : string) (p : Page) : Page :=
  mkPage (current_sessionId p) (current_country p) (current_player p)
         (current_difficulty p) (value p) (textContent p)
         (<[id := d]> (display p)) (timelineList p).

Definition set_timelineList (items : list string) (p : Page) : Page :=
  mkPage (current_sessionId p) (current_country p) (current_player p)
         (current_difficulty p) (value p) (textContent p) (display p) items.

(** [function openOverlay(id)] and [function closeOverlay(id)] *)
Definition openOverlay (id : string) : Page -> Page := set_display id "block".
Definition closeOverlay (id : string) : Page -> Page := set_display id "none".

(** [function showDialogue(msg)] *)
Definition showDialogue (msg : string) : Page -> Page :=
  set_textContent "dialogueBar" msg.

(** [function addLogEntry(type, msg)]: the new item is put first. *)
Definition addLogEntry (type msg : string) (p : Page) : Page :=
  set_timelineList
    (cat ["<span class="; dq; "type"; dq; ">["; type; "]</span> "; msg]%string
     :: timelineList p) p.

(** One line of [updateHUD]:
    [if (typeof a === 'number') getElementById(id).textContent = a + '%']. *)
Definition update_gauge (id : string) (a : option Json) (p : Page) : Page :=
  match a with
  | Some (JNumber n) => set_textContent id (String.app (pretty n) "%") p
  | _ => p
  end.

(** [function updateHUD(a, s, e, j, p, c)] *)
Definition updateHUD (a s e j p c : option Json) (page : Page) : Page :=
  let page := update_gauge "hudApproval" a page in
  let page := update_gauge "hudStability" s page in
  let page := update_gauge "hudEconomy" e page in
  let page := update_gauge "hudJustice" j page in
  let page := update_gauge "hudPower" p page in
  let page := update_gauge "hudChaos" c page in
  page.

(** How a call of an async function of core.js ends: its promise is
    resolved, or it is rejected with the [TypeError] of a property read on
    [undefined] or of a call of something that is no function. *)
Inductive Outcome := Resolved | TypeError.

(** [updateHUD(s.approval, s.stability, s.economy, s.justice, s.power,
    s.chaos)] for [s] read from an answer: the first read throws when [s] is
    [undefined] or [null]. *)
Definition updateHUD_from (s : option Json) (page : Page) : Outcome * Page :=
  match s with
  | None | Some JNull => (TypeError, page)
  | Some s =>
      (Resolved,
       updateHUD (member s "approval") (member s "stability")
         (member s "economy") (member s "justice") (member s "power")
         (member s "chaos") page)
  end.

(** [async function api(path, method, body)] *)
Definition api (call : Call) (s : Server) : Json * Server :=
  express call s.

(** [async function startSession()] *)
Definition startSession (page : Page) (s : Server) : Outcome * Page * Server :=
  let player := str_or (value_of "playerName" page) "Player" in
  let difficulty := value_of "difficulty" page in
  let country := opt_or (current_country page) "India" in
  let '(data, s) :=
    api (POST_session_start
           (JObject [ ("playerName"%string, JString player);
                      ("country"%string, JString country);
                      ("difficulty"%string, JString difficulty) ])) s in
  let page :=
    mkPage (string_field data "sessionId") (current_country page) (Some player)
           difficulty (value page) (textContent page) (display page)
           (timelineList page) in
  let page :=
    showDialogue (cat ["Session started: "; country; " ("; difficulty; ")"]%string)
      page in
  let page := addLogEntry "system" "Presidency begins." page in
  let page := set_display "titleScreen" "none" page in
  let page := set_display "hudOverlay" "grid" page in
  let '(stats, s) :=
    api (GET_session_stats (default "undefined"%string (current_sessionId page))) s in
  let page :=
    updateHUD (member stats "approval") (member stats "stability")
      (member stats "economy") (member stats "justice") (member stats "power")
      (member stats "chaos") page in
  (Resolved, page, s).

(** The common shape of the five action functions after the guard: the
    call, [const s = data.stats], the update of the gauges, the log entry and
    the dialogue. *)
Definition act (call : Call) (type entry dialogue : string) (page : Page)
    (s : Server) : Outcome * Page * Server :=
  let '(data, s) := api call s in
  match updateHUD_from (member data "stats") page with
  | (TypeError, page) => (TypeError, page, s)
  | (Resolved, page) =>
      let page := addLogEntry type entry page in
      let page := showDialogue dialogue page in
      (Resolved, page, s)
  end.

(** [async function handleEnforceLaw()] *)
Definition handleEnforceLaw (page : Page) (s : Server) : Outcome * Page * Server :=
  if negb (truthy (current_sessionId page)) then
    (Resolved, showDialogue "Start a session first." page, s)
  else
    let sessionId := default EmptyString (current_sessionId page) in
    let lawType := value_of "lawType" page in
    let description := str_or (value_of "lawDesc" page) "Law enforced" in
    act (POST_laws_enforce
           (JObject [ ("sessionId"%string, JString sessionId);
                      ("lawType"%string, JString lawType);
                      ("description"%string, JString description) ]))
        "law" (cat [description; " ("; lawType; ")"]%string)
        (cat ["Law applied: "; lawType]%string) page s.

(** [async function handleResolveCrisis(strategy)] *)
Definition handleResolveCrisis (strategy : string) (page : Page) (s : Server)
    : Outcome * Page * Server :=
  if negb (truthy (current_sessionId page)) then
    (Resolved, showDialogue "Start a session first." page, s)
  else
    let sessionId := default EmptyString (current_sessionId page) in
    act (POST_crises_resolve
           (JObject [ ("sessionId"%string, JString sessionId);
                      ("strategy"%string, JString strategy);
                      ("description"%string, JString "Crisis handled") ]))
        "crisis" (cat ["Strategy: "; strategy]%string)
        (cat ["Crisis: "; strategy; " executed."]%string) page s.

(** [async function handleDiplomacy(action)] *)
Definition handleDiplomacy (action : string) (page : Page) (s : Server)
    : Outcome * Page * Server :=
  if negb (truthy (current_sessionId page)) then
    (Resolved, showDialogue "Start a session first." page, s)
  else
    let sessionId := default EmptyString (current_sessionId page) in
    act (POST_diplomacy_action
           (JObject [ ("sessionId"%string, JString sessionId);
                      ("action"%string, JString action) ]))
        "diplomacy" (cat ["Action: "; action]%string)
        (cat ["Diplomacy: "; action; "."]%string) page s.

(** [async function handleRebellion(strategy)] *)
Definition handleRebellion (strategy : string) (page : Page) (s : Server)
    : Outcome * Page * Server :=
  if negb (truthy (current_sessionId page)) then
    (Resolved, showDialogue "Start a session first." page, s)
  else
    let sessionId := default EmptyString (current_sessionId page) in
    act (POST_rebellion_act
           (JObject [ ("sessionId"%string, JString sessionId);
                      ("strategy"%string, JString strategy) ]))
        "rebellion" (cat ["Action: "; strategy]%string)
        (cat ["Rebellion: "; strategy; "."]%string) page s.

(** [async function handleCosmic(kind)] *)
Definition handleCosmic (kind : string) (page : Page) (s : Server)
    : Outcome * Page * Server :=
  if negb (truthy (current_sessionId page)) then
    (Resolved, showDialogue "Start a session first." page, s)
  else
    let sessionId := default EmptyString (current_sessionId page) in
    act (POST_cosmic_act
           (JObject [ ("sessionId"%string, JString sessionId);
                      ("kind"%string, JString kind) ]))
        "cosmic" (cat ["Action: "; kind]%string)
        (cat ["Cosmic: "; kind; "."]%string) page s.

(** [String(v)] for a value parsed from JSON, as a template literal and
    [Array.prototype.join] compute it; [join] writes nothing for [null]. *)
Fixpoint String_of (j : Json) : string :=
  match j with
  | JNull => "null"
  | JBool true => "true"
  | JBool false => "false"
  | JNumber n => pretty n
  | JString s => s
  | JArray items =>
      join ","
        (List.map (fun e => match e with
                            | JNull => EmptyString
                            | _ => String_of e
                            end) items)
  | JObject _ => "[object Object]"
  end.

(** [items.join(sep)] *)
Definition Array_join (sep : string) (items : list Json) : string :=
  join sep
    (List.map (fun e => match e with
                        | JNull => EmptyString
                        | _ => String_of e
                        end) items).

(** The text of [${v}] inside a template literal. *)
Definition text_of (v : option Json) : string :=
  match v with
  | Some j => String_of j
  | None => "undefined"
  end.

(** Truthiness of a value read from an answer. *)
Definition js_truthy (v : option Json) : bool :=
  match v with
  | None | Some JNull => false
  | Some (JBool b) => b
  | Some (JNumber n) => negb (Z.eqb n 0)
  | Some (JString s) => negb (String.eqb s EmptyString)
  | Some (JArray _) | Some (JObject _) => true
  end.

(** The loop of [refreshTimeline] over the reversed rows: an item is
    appended to the list for each row, and the read of [t.at] throws for a
    row that is [null]. *)
Fixpoint timeline_items (rows : list Json) (page : Page) : Outcome * Page :=
  match rows with
  | [] => (Resolved, page)
  | JNull :: _ => (TypeError, page)
  | t :: rest =>
      timeline_items rest
        (set_timelineList
           (timelineList page
            ++ [cat ["<span class="; dq; "type"; dq; ">[";
                     text_of (member t "type"); "]</span> ";
                     text_of (member t "description"); em_dash;
                     toLocaleTimeString (text_of (member t "at"))]%string])
           page)
  end.

(** [async function refreshTimeline()]: an answer that is no array has no
    method [reverse]. *)
Definition refreshTimeline (page : Page) (s : Server) : Outcome * Page * Server :=
  if negb (truthy (current_sessionId page)) then (Resolved, page, s)
  else
    let sessionId := default EmptyString (current_sessionId page) in
    let '(items, s) := api (GET_timeline sessionId) s in
    let page := set_timelineList [] page in
    match items with
    | JArray rows =>
        let '(outcome, page) := timeline_items (List.rev rows) page in
        (outcome, page, s)
    | _ => (TypeError, page, s)
    end.

(** [(archive.glyphs || [...]).join(' ')]: the three default glyphs when
    [archive.glyphs] is falsy, the joined items of an array, and a
    [TypeError] for any other value, which has no method [join]. *)
Definition glyphs_text (glyphs : option Json) : option string :=
  if js_truthy glyphs then
    match glyphs with
    | Some (JArray items) => Some (Array_join " " items)
    | _ => None
    end
  else Some default_glyphs.

(** [async function endAndArchive()] *)
Definition endAndArchive (page : Page) (s : Server) : Outcome * Page * Server :=
  if negb (truthy (current_sessionId page)) then
    (Resolved, showDialogue "Start a session first." page, s)
  else
    let sessionId := default EmptyString (current_sessionId page) in
    let page := openOverlay "archiveOverlay" page in
    let page := set_textContent "archiveMsg" "Compressing your presidency..." page in
    let '(res, s) :=
      api (POST_session_end (JObject [("sessionId"%string, JString sessionId)])) s in
    match member res "archive" with
    | None | Some JNull => (TypeError, page, s)
    | Some archive =>
        match member archive "stats" with
        | None | Some JNull => (TypeError, page, s)
        | Some stats =>
            let page :=
              set_textContent "vaultlineStats"
                (cat ["Country: "; text_of (member archive "country");
                      " | Diff: "; text_of (member archive "difficulty");
                      " | Laws: "; text_of (member stats "laws");
                      " | Crises: "; text_of (member stats "crises");
                      " | Justice: "; text_of (member stats "justice");
                      "% | Power: "; text_of (member stats "power");
                      "% | Chaos: "; text_of (member stats "chaos"); "%"]%string)
                page in
            match glyphs_text (member archive "glyphs") with
            | None => (TypeError, page, s)
            | Some text =>
                let page := set_textContent "vaultlineGlyphs" text page in
                let page := closeOverlay "archiveOverlay" page in
                let page := openOverlay "vaultlineOverlay" page in
                let page := showDialogue "Final Vaultline Entry created." page in
                (Resolved, page, s)
            end
        end
    end.

(** [function returnToTitle()] *)
Definition returnToTitle (page : Page) : Page :=
  let page :=
    mkPage None None (current_player page) (current_difficulty page)
           (value page) (textContent page) (display page) (timelineList page) in
  let page := set_display "vaultlineOverlay" "none" page in
  let page := set_display "hudOverlay" "none" page in
  let page := set_display "titleScreen" "block" page in
  let page := set_timelineList [] page in
  showDialogue "Welcome to President Sim" page.

(** The click handler of the start button; [refreshTimeline] runs from its
    timer once [startSession] is done. *)
Definition startBtn_click (page : Page) (s : Server) : Outcome * Page * Server :=
  if negb (truthy (current_country page)) then
    (Resolved, showDialogue "Select a country first." page, s)
  else
    let '(_, page, s) := startSession page s in
    refreshTimeline page s.

End Platform.

(** ** Notions used by the statements *)

(** *** Bounds *)

(** [clamp(x, lo, hi)] *)
Definition clamp (x lo hi : Z) : Z := Z.max lo (Z.min hi x).

(** What one bounded field becomes under a delta entry. *)
Definition bump (v : Z) (d : option Z) : Z :=
  match d with
  | Some x => Z.max 0 (Z.min 100 (v + x))
  | None => v
  end.

Definition in_range (v : Z) : Prop := 0 <= v <= 100.

(** The invariant of a stat vector in the data model: bounded axes within
    0..100, chaos and the two counters not negative. *)
Record valid_stats (s : Stats) : Prop := mk_valid_stats {
  valid_approval : in_range (approval s);
  valid_stability : in_range (stability s);
  valid_economy : in_range (economy s);
  valid_justice : in_range (justice s);
  valid_power : in_range (power s);
  valid_chaos : 0 <= chaos s;
  valid_laws : 0 <= laws s;
  valid_crises : 0 <= crises s
}.

(** The part of the invariant that the clamps of [applyDeltas] maintain. *)
Definition within_bounds (s : Stats) : Prop :=
  (forall key, in_range (stat_get s key)) /\ 0 <= chaos s.


(** How table [Stats] changes: a session starts from the defaults, or a row
    that is there is replaced by [applyDeltas] of it. *)
Inductive evolves (tbl : list Stats) : list Stats -> Prop :=
  | evolves_refl : evolves tbl tbl
  | evolves_start (tbl' : list Stats) (id : string) :
      evolves tbl tbl' -> evolves tbl (upsert_row (DEFAULT_STATS id) tbl')
  | evolves_apply (tbl' : list Stats) (row : Stats) (d : Deltas) :
      evolves tbl tbl' -> In row tbl' ->
      evolves tbl (upsert_row (applyDeltas row d) tbl').

(** *** Rebellion *)

(** The first trigger of [checkRebellionChance]. *)
Definition unrest (s : Stats) : Prop := 65 < chaos s \/ stability s < 20.

(** The intensity of the first trigger in the words of the specification:
    [clamp(round((chaos + (50 - stability)) / 2), 0, 100)]. *)
Definition spec_unrest_intensity (s : Stats) : Z :=
  clamp (Math_round (inject_Z (chaos s + (50 - stability s)) / 2)%Q) 0 100.

(** The intensity of the first trigger as the source computes it. *)
Definition unrest_intensity (s : Stats) : Z :=
  Z.min 100 (Math_round (inject_Z (chaos s + (50 - stability s)) / 2)%Q).

(** *** The store of objects *)

(** [h] is [h0] with one more object, [x], at [s]. *)
Definition extends (h0 : Heap) (s : positive) (x : Stats) (h : Heap) : Prop :=
  h !! s = Some (OStats x) /\ forall l, l <> s -> h !! l = h0 !! l.

(** A store with a stat vector at 1 and a delta at 2. *)
Definition sample_heap : Heap :=
  <[1%positive := OStats (DEFAULT_STATS "s")]>
    (<[2%positive := ODeltas (deltas_of (Some 70) None None None None None)]> ∅).

(** *** The world *)

(** The action [m] leaves the part [field] of the world as it is. *)
Definition keeps {A B : Type} (field : World -> B) (m : M A) : Prop :=
  forall w, field (snd (m w)) = field w.

(** [w'] differs from [w] by rows appended to the achievements, and possibly
    by its timeline, counter and clock. *)
Definition appends (w : World) (new : list AchievementRow) (w' : World) : Prop :=
  Achievement_tbl w' = Achievement_tbl w ++ new
  /\ Stats_tbl w' = Stats_tbl w
  /\ Session_tbl w' = Session_tbl w
  /\ MultiplayerMatch_tbl w' = MultiplayerMatch_tbl w
  /\ law_table w' = law_table w.

(** The entries of [LAW_DELTAS] as they stand differ from those of the
    literal by an added [laws: 1] at most. *)
Definition law_table_settled (w : World) : Prop :=
  forall key,
    (fun d => set_d_laws d 1) <$> (law_table w !! key)
    = (fun d => set_d_laws d 1) <$> (LAW_DELTAS !! key).

(** The outcome [r] of a handler is a normal answer that carries the vector
    [new], with the rebellion check of [new], and [new] is the row stored
    for session [sid]. *)
Definition completes (r : Response * World) (sid : string) (new : Stats) : Prop :=
  (exists achievements go,
     fst r = Acted new achievements (checkRebellionChance new) go)
  /\ select_stats sid (Stats_tbl (snd r)) = Some new.

(** *** Achievements *)

(** The rules that fire for a set of unlocked keys and a vector. *)
Definition newly_unlocked (rules : list Rule) (unlocked : list string)
    (stats : Stats) : list Rule :=
  List.filter
    (fun rule => negb (includes unlocked (rule_key rule)) && rule_condition rule stats)
    rules.

(** The session-and-key pair of an achievement row. *)
Definition ach_pair (a : AchievementRow) : string * string :=
  (ach_sessionId a, ach_key a).

(** At most one achievement per pair of session and key. *)
Definition unique_per_session_key (tbl : list AchievementRow) : Prop :=
  List.NoDup (List.map ach_pair tbl).

(** *** Runs of requests *)

(** The world after one [POST /session/start] with an empty body; its
    session is [uuid-0]. *)
Definition one_session : World :=
  serve [SessionStart None None None None] empty_world.

(** [POST /cosmic/act] with [actKey: distort], served twice after the start
    of a session. *)
Definition distort_twice : list Request :=
  [ SessionStart None None None None;
    CosmicAct (Some "uuid-0"%string) (Some "distort"%string) None;
    CosmicAct (Some "uuid-0"%string) (Some "distort"%string) None ].

(** [POST /achievement/unlock] with [key: hero], served twice after the start
    of a session. *)
Definition unlock_twice : list Request :=
  [ SessionStart None None None None;
    AchievementUnlock (Some "uuid-0"%string) (Some "hero"%string) None;
    AchievementUnlock (Some "uuid-0"%string) (Some "hero"%string) None ].


(** *** Keys and the prototype chain *)

(** The property names that every object inherits from [Object.prototype]:
    [TABLE[key]] is not [undefined] under such a name although no table has
    it as a key of its own. *)
Definition Object_prototype_names : list string :=
  [ "constructor"; "__defineGetter__"; "__defineSetter__"; "hasOwnProperty";
    "__lookupGetter__"; "__lookupSetter__"; "isPrototypeOf";
    "propertyIsEnumerable"; "toString"; "valueOf"; "__proto__";
    "toLocaleString" ]%string.

Definition inherited (key : string) : bool :=
  existsb (String.eqb key) Object_prototype_names.

(** What [TABLE[key]] finds: an entry of the table, a value inherited from
    [Object.prototype] (a function, or the prototype itself), or nothing. *)
Inductive Property :=
  | Own (d : Deltas)
  | Inherited
  | Undefined.

(** [TABLE[key]] as JavaScript reads it, along the prototype chain. *)
Definition property_read (table : gmap string Deltas) (key : string) : Property :=
  match table !! key with
  | Some d => Own d
  | None => if inherited key then Inherited else Undefined
  end.



(** Table [Session] has a row for [sid]: the row that the FOREIGN KEY of the
    tables [Achievement] and [TimelineEvent] refers to. *)
Definition has_session (sid : string) (w : World) : bool :=
  existsb (fun r => String.eqb (session_id r) sid) (Session_tbl w).

(** *** Payloads *)






(** *** Induction over a JSON value with its items and members *)

Section JsonInduction.

Variable P : Json -> Prop.
Hypothesis Hnull : P JNull.
Hypothesis Hbool : forall b, P (JBool b).
Hypothesis Hnumber : forall n, P (JNumber n).
Hypothesis Hstring : forall s, P (JString s).
Hypothesis Harray : forall items, Forall P items -> P (JArray items).
Hypothesis Hobject :
  forall members, Forall (fun m => P (snd m)) members -> P (JObject members).

Fixpoint Json_induction (p : Json) : P p :=
  match p with
  | JNull => Hnull
  | JBool b => Hbool b
  | JNumber n => Hnumber n
  | JString s => Hstring s
  | JArray items =>
      Harray items
        ((fix all (l : list Json) : Forall P l :=
            match l with
            | [] => List.Forall_nil P
            | x :: rest =>
                @List.Forall_cons _ P x rest (Json_induction x) (all rest)
            end) items)
  | JObject members =>
      Hobject members
        ((fix all (l : list (string * Json)) : Forall (fun m => P (snd m)) l :=
            match l with
            | [] => List.Forall_nil _
            | m :: rest =>
                @List.Forall_cons _ (fun m => P (snd m)) m rest
                  (Json_induction (snd m)) (all rest)
            end) members)
  end.

End JsonInduction.

(** *** Changes of the world along an action *)

(** Whatever the world, the action [m] takes it to a world that is related
    to it by [R]. *)
Definition steps {A : Type} (R : relation World) (m : M A) : Prop :=
  forall w, R w (snd (m w)).

(** The tables [Achievement] and [TimelineEvent] of [w'] are those of [w]
    with rows added at their ends. *)
Definition grows (w w' : World) : Prop :=
  Achievement_tbl w `prefix_of` Achievement_tbl w'
  /\ TimelineEvent_tbl w `prefix_of` TimelineEvent_tbl w'.

(** The rows of the tables that belong to one session: its vector, its
    achievements, its timeline and its row of table [Session]. *)
Definition session_view (sid : string) (w : World)
    : option Stats * list AchievementRow * list TimelineRow * option SessionRow :=
  (select_stats sid (Stats_tbl w),
   List.filter (fun a => String.eqb (ach_sessionId a) sid) (Achievement_tbl w),
   List.filter (fun e => String.eqb (ev_sessionId e) sid) (TimelineEvent_tbl w),
   List.find (fun r => String.eqb (session_id r) sid) (Session_tbl w)).

(** Every session but [sid] has in [w'] the rows that it has in [w]. *)
Definition confined_to (sid : string) (w w' : World) : Prop :=
  forall other, other <> sid -> session_view other w' = session_view other w.

(** The session that a request is addressed to, for the routes that name
    one in their body. *)
Definition session_of (r : Request) : option string :=
  match r with
  | LawsEnforce sessionId _ _ | CrisesResolve sessionId _ _ _
  | DiplomacyAction sessionId _ _ _ | RebellionAct sessionId _ _
  | CosmicAct sessionId _ _ | AchievementUnlock sessionId _ _ =>
      Some (default EmptyString sessionId)
  | SessionStart _ _ _ _ | MultiplayerStart _ _ _ | MultiplayerUpdate _ _ _ _ =>
      None
  end.

(** Table [Session] is the same in [w'] as in [w]. *)
Definition same_sessions (w w' : World) : Prop := Session_tbl w' = Session_tbl w.

(** Uniqueness of the achievements per session and key carries over from
    [w] to [w']. *)
Definition stays_unique (w w' : World) : Prop :=
  unique_per_session_key (Achievement_tbl w) ->
  unique_per_session_key (Achievement_tbl w').

(** The requests that insert an achievement without looking at the table:
    the manual unlock and the cosmic act [distort]. *)
Definition unlocks_unchecked (r : Request) : bool :=
  match r with
  | AchievementUnlock _ _ _ => true
  | CosmicAct _ actKey _ => String.eqb (default EmptyString actKey) "distort"
  | _ => false
  end.

(** The threshold that the game-over check of a handler works with:
    [get(sessionId)?.chaosThreshold || 100]. *)
Definition threshold_in_force (sid : string) (w : World) : Z :=
  fst (select_chaosThreshold sid w).

(** The game-over verdict of an answer, if it carries one. *)
Definition verdict (r : Response) : option GameOver :=
  match r with
  | Acted _ _ _ go => go
  | _ => None
  end.

(** The world after two session starts with empty bodies; the sessions are
    [uuid-0] and [uuid-2]. *)
Definition two_sessions : World :=
  serve [SessionStart None None None None; SessionStart None None None None]
    empty_world.

(** The world after a session start with [chaosThreshold: 0]. *)
Definition zero_threshold_session : World :=
  serve [SessionStart None None None (Some 0)] empty_world.


(** A session start followed by nine cosmic acts probe for its session: the
    eighth takes chaos to 80, where the rule chaos_master fires, and the
    ninth is evaluated with chaos at 90 and the key already held. *)
Definition nine_probes : list Request :=
  SessionStart None None None None
  :: List.repeat (CosmicAct (Some "uuid-0"%string) (Some "probe"%string) None) 9.

(** The world after a session start and one manual unlock of hero. *)
Definition hero_unlocked : World :=
  serve [ SessionStart None None None None;
          AchievementUnlock (Some "uuid-0"%string) (Some "hero"%string) None ]
    empty_world.

(** The world after two session starts and the start of a match between
    the two sessions; the match is [uuid-4]. *)
Definition match_started : World :=
  serve [ SessionStart None None None None;
          SessionStart None None None None;
          MultiplayerStart (Some "uuid-0"%string) (Some "uuid-2"%string) None ]
    empty_world.

(** * Properties *)

(** ** Arithmetic of the primitives *)

Lemma Math_round_half (n : Z) : Math_round (inject_Z n / 2)%Q = (n + 1) / 2.
Proof.
  unfold Math_round, Qfloor, Qdiv, Qmult, Qinv, Qplus, inject_Z; simpl.
  change (Z.pos (1 * 2)) with 2; change (Z.pos (1 * 2 * 2)) with (2 * 2).
  replace (n * 1 * 2 + 1 * 2) with ((n + 1) * 2) by ring.
  rewrite Z.div_mul_cancel_r; lia.
Qed.

Lemma num_or_0 (x : Z) : num_or x 0 = x.
Proof. unfold num_or. destruct (Z.eqb_spec x 0); congruence. Qed.

Lemma bump_in_range (v x : Z) : in_range (bump v (Some x)).
Proof. unfold in_range, bump. lia. Qed.

Lemma bump_keeps_range (v : Z) (d : option Z) : in_range v -> in_range (bump v d).
Proof. destruct d; [intros _; apply bump_in_range | trivial]. Qed.

(** ** [applyDeltas] field by field *)

Lemma applyDeltas_fields (v : Stats) (d : Deltas) :
  applyDeltas v d =
  mkStats (sessionId v)
    (bump (approval v) (d_approval d)) (bump (stability v) (d_stability d))
    (bump (economy v) (d_economy d)) (bump (justice v) (d_justice d))
    (bump (power v) (d_power d))
    (match d_chaos d with Some x => Z.max 0 (chaos v + x) | None => chaos v end)
    (match d_laws d with Some x => laws v + x | None => laws v end)
    (match d_crises d with Some x => crises v + x | None => crises v end).
Proof.
  destruct v as [id va vs ve vj vp vc vl vk], d as [a s e j p c l k].
  unfold applyDeltas, apply_chaos, apply_laws, apply_crises, bounded_keys.
  cbn [fold_left].
  unfold apply_bounded.
  cbn [delta_get d_approval d_stability d_economy d_justice d_power
       d_chaos d_laws d_crises].
  destruct a, s, e, j, p;
    cbn [stat_get stat_set approval stability economy justice power chaos
         laws crises sessionId bump];
    (destruct c;
     cbn [set_chaos approval stability economy justice power chaos laws
          crises sessionId];
     (destruct l;
      cbn [set_laws approval stability economy justice power chaos laws
           crises sessionId];
      (destruct k;
       cbn [set_crises approval stability economy justice power chaos laws
            crises sessionId];
       rewrite ?num_or_0; reflexivity))).
Qed.

Lemma stat_get_applyDeltas (v : Stats) (d : Deltas) (key : BoundedKey) :
  stat_get (applyDeltas v d) key = bump (stat_get v key) (delta_get d key).
Proof. rewrite applyDeltas_fields. destruct key; reflexivity. Qed.

Lemma chaos_applyDeltas (v : Stats) (d : Deltas) :
  chaos (applyDeltas v d) =
  match d_chaos d with Some x => Z.max 0 (chaos v + x) | None => chaos v end.
Proof. rewrite applyDeltas_fields. reflexivity. Qed.

Lemma sessionId_applyDeltas (v : Stats) (d : Deltas) :
  sessionId (applyDeltas v d) = sessionId v.
Proof. rewrite applyDeltas_fields. reflexivity. Qed.


Lemma valid_within_bounds (v : Stats) : valid_stats v -> within_bounds v.
Proof. intros []. split; [intros []; assumption | assumption]. Qed.

(** [applyDeltas] keeps a vector within the bounds. *)
Lemma applyDeltas_within_bounds (v : Stats) (d : Deltas) :
  within_bounds v -> within_bounds (applyDeltas v d).
Proof.
  intros [Hkeys Hchaos]. split.
  - intros key. rewrite stat_get_applyDeltas. apply bump_keeps_range, Hkeys.
  - rewrite chaos_applyDeltas. destruct (d_chaos d); lia.
Qed.

(** C1: for every stat vector (a vector whose bounded axes are within 0..100
    and whose chaos is not negative, as the invariant of the data model has
    it) and every delta, each bounded axis of [applyDeltas v d] lies in
    0..100 and its chaos is at least 0; chaos is never capped from above:
    when the delta names chaos and the sum is not negative the result is the
    sum itself, however large, and otherwise chaos is the input's. *)
Theorem applyDeltas_bounds (v : Stats) (d : Deltas) :
  within_bounds v ->
  (forall key, in_range (stat_get (applyDeltas v d) key))
  /\ 0 <= chaos (applyDeltas v d)
  /\ (forall x, d_chaos d = Some x -> 0 <= chaos v + x ->
        chaos (applyDeltas v d) = chaos v + x)
  /\ (d_chaos d = None -> chaos (applyDeltas v d) = chaos v).
Proof.
  intros Hv. destruct (applyDeltas_within_bounds v d Hv) as [Hkeys Hchaos].
  split; [exact Hkeys | split; [exact Hchaos | split]].
  - intros x Hx Hsum. rewrite chaos_applyDeltas, Hx. lia.
  - intros Hx. rewrite chaos_applyDeltas, Hx. reflexivity.
Qed.

Lemma DEFAULT_STATS_valid (id : string) : valid_stats (DEFAULT_STATS id).
Proof. constructor; unfold in_range; simpl; lia. Qed.

Lemma DEFAULT_STATS_within_bounds (id : string) : within_bounds (DEFAULT_STATS id).
Proof. apply valid_within_bounds, DEFAULT_STATS_valid. Qed.

Lemma applyDeltas_bounds_witness :
  within_bounds (DEFAULT_STATS "s")
  /\ chaos (applyDeltas (DEFAULT_STATS "s")
              (deltas_of (Some (-70)) None None None None (Some 250))) = 250
  /\ stat_get (applyDeltas (DEFAULT_STATS "s")
                 (deltas_of (Some (-70)) None None None None (Some 250)))
              KApproval = 0.
Proof.
  split; [apply DEFAULT_STATS_within_bounds |].
  destruct (applyDeltas_bounds (DEFAULT_STATS "s")
              (deltas_of (Some (-70)) None None None None (Some 250))
              (DEFAULT_STATS_within_bounds "s")) as (_ & _ & Hsum & _).
  split; [apply (Hsum 250); [reflexivity | simpl; lia] | reflexivity].
Defined.

(** ** Threshold evaluators *)

(** C2: [checkGameOver] reports over exactly when chaos >= threshold, or
    stability <= 0, or approval <= 0, and the reason is that of the first of
    the three tests, in this order, that holds; with chaos >= threshold and
    stability <= 0 together the reason is the chaos one. *)
Theorem checkGameOver_first_match (v : Stats) (chaosThreshold : Z) :
  (gameOver (checkGameOver v chaosThreshold) = true <->
     chaosThreshold <= chaos v \/ stability v <= 0 \/ approval v <= 0)
  /\ (chaosThreshold <= chaos v ->
        checkGameOver v chaosThreshold
        = mkGameOver true (Some "Chaos exceeded threshold"%string))
  /\ (chaos v < chaosThreshold -> stability v <= 0 ->
        checkGameOver v chaosThreshold
        = mkGameOver true (Some "Stability collapsed"%string))
  /\ (chaos v < chaosThreshold -> 0 < stability v -> approval v <= 0 ->
        checkGameOver v chaosThreshold
        = mkGameOver true (Some "Approval vanished"%string))
  /\ (chaos v < chaosThreshold -> 0 < stability v -> 0 < approval v ->
        checkGameOver v chaosThreshold = mkGameOver false None)
  /\ (chaosThreshold <= chaos v -> stability v <= 0 ->
        reason (checkGameOver v chaosThreshold)
        = Some "Chaos exceeded threshold"%string).
Proof.
  unfold checkGameOver.
  destruct (Z.leb_spec chaosThreshold (chaos v)),
           (Z.leb_spec (stability v) 0),
           (Z.leb_spec (approval v) 0);
    cbn [gameOver reason];
    repeat split; intros; try reflexivity; try lia; try discriminate.
Qed.

Lemma checkRebellionChance_unrest (v : Stats) :
  unrest v ->
  checkRebellionChance v = mkRebellion true (Some (unrest_intensity v)).
Proof.
  unfold unrest, checkRebellionChance, unrest_intensity. intros H.
  destruct (Z.ltb_spec 65 (chaos v)), (Z.ltb_spec (stability v) 20);
    cbn [orb]; try reflexivity; lia.
Qed.

Lemma checkRebellionChance_calm (v : Stats) :
  ~ unrest v ->
  checkRebellionChance v =
  if Z.ltb (approval v) 15 then mkRebellion true (Some (Z.max 10 (40 - approval v)))
  else mkRebellion false None.
Proof.
  unfold unrest, checkRebellionChance. intros H.
  destruct (Z.ltb_spec 65 (chaos v)), (Z.ltb_spec (stability v) 20);
    cbn [orb]; try reflexivity; lia.
Qed.

Lemma classic_unrest (v : Stats) : unrest v \/ ~ unrest v.
Proof. unfold unrest. lia. Qed.

(** For a vector within the invariant the lower clamp of the specification's
    formula is idle under the first trigger. *)
Lemma unrest_intensity_clamp (v : Stats) :
  within_bounds v -> unrest v -> unrest_intensity v = spec_unrest_intensity v.
Proof.
  intros [Hkeys Hc] Hu. destruct (Hkeys KStability) as [Hs0 Hs1].
  cbn [stat_get] in Hs0, Hs1.
  unfold unrest_intensity, spec_unrest_intensity, clamp.
  rewrite Math_round_half. unfold unrest in Hu.
  assert (0 <= (chaos v + (50 - stability v) + 1) / 2)
    by (apply Z.div_pos; lia).
  lia.
Qed.

(** C3, as the code has it: for every stat vector, when chaos > 65 or
    stability < 20 the rebellion is active with intensity
    clamp(round((chaos + (50 - stability)) / 2), 0, 100); when that trigger
    does not hold and approval < 15 it is active with intensity
    max(10, 40 - approval); when neither holds it is not active; and
    approval < 15 alone always makes it active. *)
Theorem checkRebellionChance_branches (v : Stats) :
  within_bounds v ->
  (unrest v ->
     checkRebellionChance v = mkRebellion true (Some (spec_unrest_intensity v)))
  /\ (~ unrest v -> approval v < 15 ->
        checkRebellionChance v
        = mkRebellion true (Some (Z.max 10 (40 - approval v))))
  /\ (~ unrest v -> 15 <= approval v ->
        checkRebellionChance v = mkRebellion false None)
  /\ (approval v < 15 -> rebellion (checkRebellionChance v) = true).
Proof.
  intros Hv. split; [| split; [| split]].
  - intros Hu. rewrite checkRebellionChance_unrest by exact Hu.
    rewrite unrest_intensity_clamp by assumption. reflexivity.
  - intros Hu Ha. rewrite checkRebellionChance_calm by exact Hu.
    destruct (Z.ltb_spec (approval v) 15); [reflexivity | lia].
  - intros Hu Ha. rewrite checkRebellionChance_calm by exact Hu.
    destruct (Z.ltb_spec (approval v) 15); [lia | reflexivity].
  - intros Ha. destruct (classic_unrest v) as [Hu | Hu].
    + rewrite checkRebellionChance_unrest by exact Hu. reflexivity.
    + rewrite checkRebellionChance_calm by exact Hu.
      destruct (Z.ltb_spec (approval v) 15); [reflexivity | lia].
Qed.

Lemma checkRebellionChance_branches_witness :
  within_bounds (mkStats "s" 50 15 50 50 50 0 0 0)
  /\ unrest (mkStats "s" 50 15 50 50 50 0 0 0)
  /\ checkRebellionChance (mkStats "s" 50 15 50 50 50 0 0 0)
     = mkRebellion true (Some 18).
Proof.
  assert (Hv : within_bounds (mkStats "s" 50 15 50 50 50 0 0 0))
    by (apply valid_within_bounds; constructor; unfold in_range; simpl; lia).
  assert (Hu : unrest (mkStats "s" 50 15 50 50 50 0 0 0))
    by (right; simpl; lia).
  split; [exact Hv | split; [exact Hu |]].
  exact (proj1 (checkRebellionChance_branches _ Hv) Hu).
Defined.

(** C3 as it was stated fails where both triggers hold: approval is below 15,
    yet the intensity is that of the first trigger (35), not
    max(10, 40 - approval) (30). *)
Lemma approval_formula_overridden :
  valid_stats (mkStats "s" 10 50 50 50 50 70 0 0)
  /\ approval (mkStats "s" 10 50 50 50 50 70 0 0) < 15
  /\ checkRebellionChance (mkStats "s" 10 50 50 50 50 70 0 0)
     = mkRebellion true (Some 35)
  /\ Z.max 10 (40 - approval (mkStats "s" 10 50 50 50 50 70 0 0)) = 30.
Proof.
  split; [constructor; unfold in_range; simpl; lia |].
  split; [simpl; lia |]. split; reflexivity.
Qed.

(** C10: when both triggers hold (chaos > 65 or stability < 20, and
    approval < 15) the intensity returned is
    min(100, round((chaos + (50 - stability)) / 2)): the first trigger takes
    priority over the approval one. *)
Theorem unrest_takes_priority (v : Stats) :
  unrest v -> approval v < 15 ->
  checkRebellionChance v = mkRebellion true (Some (unrest_intensity v))
  /\ intensity (checkRebellionChance v)
     = Some (Z.min 100
               (Math_round (inject_Z (chaos v + (50 - stability v)) / 2)%Q)).
Proof.
  intros Hu _. rewrite checkRebellionChance_unrest by exact Hu.
  split; reflexivity.
Qed.

Lemma unrest_takes_priority_witness :
  intensity (checkRebellionChance (mkStats "s" 10 50 50 50 50 70 0 0)) = Some 35
  /\ Z.max 10 (40 - approval (mkStats "s" 10 50 50 50 50 70 0 0)) = 30.
Proof.
  split; [| reflexivity].
  refine (proj2 (unrest_takes_priority (mkStats "s" 10 50 50 50 50 70 0 0) _ _)).
  - left; simpl; lia.
  - simpl; lia.
Defined.

(** ** [applyDeltas] writes to its copy only *)

Lemma heap_assign_extends (h0 h : Heap) (s deltas : positive) (x : Stats)
    (d : Deltas) (f : Deltas -> Stats -> Stats) :
  deltas <> s -> h0 !! deltas = Some (ODeltas d) ->
  extends h0 s x h ->
  extends h0 s (f d x) (heap_assign s deltas f h).
Proof.
  intros Hne Hd [Hs Hrest]. unfold heap_assign.
  rewrite Hs, (Hrest deltas Hne), Hd. split.
  - apply lookup_insert_eq.
  - intros l Hl. rewrite lookup_insert_ne by congruence. apply Hrest, Hl.
Qed.

Lemma heap_loop_extends (h0 : Heap) (s deltas : positive) (d : Deltas)
    (keys : list BoundedKey) :
  deltas <> s -> h0 !! deltas = Some (ODeltas d) ->
  forall (x : Stats) (h : Heap),
    extends h0 s x h ->
    extends h0 s (fold_left (apply_bounded d) keys x)
      (fold_left
         (fun h key => heap_assign s deltas (fun d x => apply_bounded d x key) h)
         keys h).
Proof.
  intros Hne Hd. induction keys as [| key keys IH]; intros x h Hext.
  - exact Hext.
  - cbn [fold_left]. apply IH.
    apply (heap_assign_extends h0 h s deltas x d
             (fun d x => apply_bounded d x key)); assumption.
Qed.

Lemma applyDeltas_heap_extends (h : Heap) (stats deltas : positive)
    (st : Stats) (d : Deltas) :
  h !! stats = Some (OStats st) -> h !! deltas = Some (ODeltas d) ->
  exists (s : positive) (h' : Heap),
    applyDeltas_heap stats deltas h = Some (s, h')
    /\ h !! s = None
    /\ extends h s (applyDeltas st d) h'.
Proof.
  intros Hst Hd.
  set (s := fresh (dom h)).
  assert (Hfresh : h !! s = None)
    by (apply not_elem_of_dom; apply is_fresh).
  assert (Hne : deltas <> s) by (intros ->; congruence).
  exists s. eexists. unfold applyDeltas_heap. rewrite Hst, Hd.
  split; [reflexivity |]. split; [exact Hfresh |].
  fold s. unfold applyDeltas.
  apply (heap_assign_extends h _ s deltas _ d apply_crises Hne Hd).
  apply (heap_assign_extends h _ s deltas _ d apply_laws Hne Hd).
  apply (heap_assign_extends h _ s deltas _ d apply_chaos Hne Hd).
  apply heap_loop_extends; [exact Hne | exact Hd |].
  split.
  - apply lookup_insert_eq.
  - intros l Hl. apply lookup_insert_ne. congruence.
Qed.

(** C8: [applyDeltas] is pure and total.  Whatever keys the delta holds, the
    call returns a result; the result is a new object, the objects passed
    as [stats] and [deltas] and every other object of the store are as they
    were before the call; and every field whose key the delta lacks has in
    the result the value it has in the input. *)
Theorem applyDeltas_pure_total (h : Heap) (stats deltas : positive)
    (st : Stats) (d : Deltas) :
  h !! stats = Some (OStats st) -> h !! deltas = Some (ODeltas d) ->
  (exists (s : positive) (h' : Heap),
     applyDeltas_heap stats deltas h = Some (s, h')
     /\ h !! s = None
     /\ h' !! s = Some (OStats (applyDeltas st d))
     /\ h' !! stats = Some (OStats st)
     /\ h' !! deltas = Some (ODeltas d)
     /\ forall l, l <> s -> h' !! l = h !! l)
  /\ (forall key, delta_get d key = None ->
        stat_get (applyDeltas st d) key = stat_get st key)
  /\ (d_chaos d = None -> chaos (applyDeltas st d) = chaos st)
  /\ (d_laws d = None -> laws (applyDeltas st d) = laws st)
  /\ (d_crises d = None -> crises (applyDeltas st d) = crises st)
  /\ sessionId (applyDeltas st d) = sessionId st.
Proof.
  intros Hst Hd. split.
  - destruct (applyDeltas_heap_extends h stats deltas st d Hst Hd)
      as (s & h' & Hrun & Hfresh & Hs & Hrest).
    exists s, h'. repeat split; try assumption.
    + rewrite Hrest by (intros ->; congruence). exact Hst.
    + rewrite Hrest by (intros ->; congruence). exact Hd.
  - rewrite applyDeltas_fields. repeat split.
    + intros key Hk. destruct key; simpl in *; rewrite Hk; reflexivity.
    + intros ->. reflexivity.
    + intros ->. reflexivity.
    + intros ->. reflexivity.
Qed.

Lemma applyDeltas_pure_total_witness :
  sample_heap !! 1%positive = Some (OStats (DEFAULT_STATS "s"))
  /\ economy (applyDeltas (DEFAULT_STATS "s")
                (deltas_of (Some 70) None None None None None)) = 50
  /\ exists (s : positive) (h' : Heap),
       applyDeltas_heap 1 2 sample_heap = Some (s, h')
       /\ h' !! 1%positive = Some (OStats (DEFAULT_STATS "s")).
Proof.
  assert (H1 : sample_heap !! 1%positive = Some (OStats (DEFAULT_STATS "s")))
    by reflexivity.
  assert (H2 : sample_heap !! 2%positive
               = Some (ODeltas (deltas_of (Some 70) None None None None None)))
    by reflexivity.
  destruct (applyDeltas_pure_total sample_heap 1 2 _ _ H1 H2)
    as [(s & h' & Hrun & _ & _ & Hstats & _) (Hframe & _)].
  split; [exact H1 | split].
  - exact (Hframe KEconomy eq_refl).
  - exists s, h'. split; assumption.
Defined.

(** ** The state monad *)

Lemma bind_run {A B : Type} (m : M A) (f : A -> M B) (w : World) :
  (m ≫= f) w = f (fst (m w)) (snd (m w)).
Proof. unfold mbind, M_bind. destruct (m w). reflexivity. Qed.

Lemma mret_run {A : Type} (x : A) (w : World) : (mret x : M A) w = (x, w).
Proof. reflexivity. Qed.

Lemma keeps_mret {A B : Type} (field : World -> B) (x : A) :
  keeps field (mret x : M A).
Proof. intros w. reflexivity. Qed.

Lemma keeps_bind {A B C : Type} (field : World -> C) (m : M A) (f : A -> M B) :
  keeps field m -> (forall a, keeps field (f a)) -> keeps field (m ≫= f).
Proof. intros Hm Hf w. rewrite bind_run, Hf, Hm. reflexivity. Qed.

(** Runs the monadic primitives on a world given by its fields. *)
Ltac run_world :=
  cbv [mbind mret M_bind M_ret uuidv4 Date_now insertSession_run
       upsertStats_run getStatsStmt_get insertTimeline_run
       insertAchievement_run insertMatch_run updateMatch_run existing_keys
       select_chaosThreshold select_match pushTimeline unlock
       Session_tbl Stats_tbl TimelineEvent_tbl Achievement_tbl
       MultiplayerMatch_tbl next_uuid clock law_table fst snd].

(** ** The achievement evaluator *)

Lemma appends_refl (w : World) : appends w [] w.
Proof. unfold appends. rewrite app_nil_r. auto. Qed.

Lemma appends_trans (w w1 w2 : World) (l1 l2 : list AchievementRow) :
  appends w l1 w1 -> appends w1 l2 w2 -> appends w (l1 ++ l2) w2.
Proof.
  intros (Ha & Hs & Hn & Hm & Hl) (Ha' & Hs' & Hn' & Hm' & Hl'). unfold appends.
  rewrite Ha', Ha, Hs', Hs, Hn', Hn, Hm', Hm, Hl', Hl, app_assoc. auto.
Qed.

Lemma unlock_run (sid : string) (rule : Rule) (w : World) :
  exists ach w',
    unlock sid rule w = (ach, w')
    /\ ach_key ach = rule_key rule
    /\ ach_sessionId ach = sid
    /\ appends w [ach] w'.
Proof.
  destruct w. eexists. eexists. split; [run_world; reflexivity |].
  unfold appends. run_world. repeat split.
Qed.

Lemma evaluate_rules_cons (rule : Rule) (rest : list Rule)
    (existing : list string) (sid : string) (stats : Stats)
    (found : list AchievementRow) (w : World) :
  evaluate_rules (rule :: rest) existing sid stats found w =
  if negb (includes existing (rule_key rule)) && rule_condition rule stats then
    evaluate_rules rest existing sid stats
      (found ++ [fst (unlock sid rule w)]) (snd (unlock sid rule w))
  else evaluate_rules rest existing sid stats found w.
Proof.
  cbn [evaluate_rules].
  destruct (negb (includes existing (rule_key rule)) && rule_condition rule stats);
    [destruct w; run_world |]; reflexivity.
Qed.

(** What the loop returns and stores: one row per rule that fires, in the
    order of the rules. *)
Lemma evaluate_rules_run (rules : list Rule) (existing : list string)
    (sid : string) (stats : Stats) :
  forall (found : list AchievementRow) (w : World),
  exists new,
    fst (evaluate_rules rules existing sid stats found w) = found ++ new
    /\ List.map ach_key new
       = List.map rule_key (newly_unlocked rules existing stats)
    /\ Forall (fun a => ach_sessionId a = sid) new
    /\ appends w new (snd (evaluate_rules rules existing sid stats found w)).
Proof.
  induction rules as [| rule rest IH]; intros found w.
  - exists []. cbn [evaluate_rules]. rewrite mret_run. cbn [fst snd].
    rewrite app_nil_r.
    split; [reflexivity | split; [reflexivity | split]];
      [constructor | apply appends_refl].
  - rewrite evaluate_rules_cons. cbn [newly_unlocked List.filter].
    fold (newly_unlocked rest existing stats).
    destruct (negb (includes existing (rule_key rule)) && rule_condition rule stats).
    + destruct (unlock_run sid rule w) as (ach & w' & Hrun & Hkey & Hsid & Happ).
      rewrite Hrun. cbn [fst snd].
      destruct (IH (found ++ [ach]) w') as (new & Hfst & Hkeys & Hsids & Happ').
      exists (ach :: new). rewrite Hfst, <- app_assoc. cbn [List.map app].
      rewrite Hkey, Hkeys.
      split; [reflexivity | split; [reflexivity | split]];
        [constructor; assumption |].
      apply (appends_trans w w' _ [ach] new); assumption.
    + apply IH.
Qed.

Lemma evaluateAchievements_unfold (sid : string) (stats : Stats) (w : World) :
  evaluateAchievements sid stats w
  = evaluate_rules ACHIEVEMENT_RULES (select_keys sid (Achievement_tbl w))
      sid stats [] w.
Proof. reflexivity. Qed.

Lemma evaluateAchievements_run (sid : string) (stats : Stats) (w : World) :
  exists new,
    fst (evaluateAchievements sid stats w) = new
    /\ List.map ach_key new
       = List.map rule_key
           (newly_unlocked ACHIEVEMENT_RULES
              (select_keys sid (Achievement_tbl w)) stats)
    /\ Forall (fun a => ach_sessionId a = sid) new
    /\ appends w new (snd (evaluateAchievements sid stats w)).
Proof.
  destruct (evaluate_rules_run ACHIEVEMENT_RULES
              (select_keys sid (Achievement_tbl w)) sid stats [] w)
    as (new & Hfst & Hkeys & Hsids & Happ).
  exists new. rewrite evaluateAchievements_unfold.
  split; [exact Hfst | split; [exact Hkeys | split; assumption]].
Qed.

Lemma evaluateAchievements_keeps_Stats_tbl (sid : string) (stats : Stats) :
  keeps Stats_tbl (evaluateAchievements sid stats).
Proof.
  intros w.
  destruct (evaluateAchievements_run sid stats w) as (new & _ & _ & _ & Happ).
  apply Happ.
Qed.

Lemma evaluateAchievements_keeps_law_table (sid : string) (stats : Stats) :
  keeps law_table (evaluateAchievements sid stats).
Proof.
  intros w.
  destruct (evaluateAchievements_run sid stats w) as (new & _ & _ & _ & Happ).
  apply Happ.
Qed.

Lemma includes_In (l : list string) (x : string) :
  includes l x = true <-> In x l.
Proof.
  unfold includes. rewrite existsb_exists. split.
  - intros (y & Hy & Heq). apply String.eqb_eq in Heq. subst. exact Hy.
  - intros Hx. exists x. split; [exact Hx | apply String.eqb_refl].
Qed.

Lemma includes_app (l1 l2 : list string) (x : string) :
  includes (l1 ++ l2) x = includes l1 x || includes l2 x.
Proof. apply existsb_app. Qed.

Lemma filter_none {A : Type} (f : A -> bool) (l : list A) :
  (forall x, In x l -> f x = false) -> List.filter f l = [].
Proof.
  induction l as [| a l IH]; intros H; [reflexivity |].
  cbn [List.filter]. rewrite (H a (or_introl eq_refl)).
  apply IH. intros x Hx. apply H. right. exact Hx.
Qed.

(** Evaluating once more with the keys just unlocked added to the set fires
    nothing, for any list of rules. *)
Lemma newly_unlocked_again (rules : list Rule) (unlocked : list string)
    (stats : Stats) :
  newly_unlocked rules
    (unlocked ++ List.map rule_key (newly_unlocked rules unlocked stats)) stats
  = [].
Proof.
  apply filter_none. intros rule Hin. rewrite includes_app.
  destruct (includes unlocked (rule_key rule)) eqn:Hold; [reflexivity |].
  destruct (rule_condition rule stats) eqn:Hcond;
    [| rewrite andb_false_r; reflexivity].
  assert (Hnew : includes
                   (List.map rule_key (newly_unlocked rules unlocked stats))
                   (rule_key rule) = true).
  { apply includes_In, List.in_map. unfold newly_unlocked. apply List.filter_In.
    split; [exact Hin |]. rewrite Hold, Hcond. reflexivity. }
  rewrite Hnew. reflexivity.
Qed.

Lemma newly_unlocked_fresh (rules : list Rule) (unlocked : list string)
    (stats : Stats) (rule : Rule) :
  In rule (newly_unlocked rules unlocked stats) -> ~ In (rule_key rule) unlocked.
Proof.
  unfold newly_unlocked. intros Hin Hold. apply List.filter_In in Hin as [_ Hf].
  apply includes_In in Hold. rewrite Hold in Hf. discriminate.
Qed.

Lemma select_keys_app (sid : string) (tbl new : list AchievementRow) :
  Forall (fun a => ach_sessionId a = sid) new ->
  select_keys sid (tbl ++ new) = select_keys sid tbl ++ List.map ach_key new.
Proof.
  intros Hnew. unfold select_keys. rewrite List.filter_app, List.map_app. f_equal.
  induction Hnew as [| a new Ha _ IH]; [reflexivity |].
  cbn [List.filter]. rewrite Ha, String.eqb_refl. cbn [List.map]. f_equal. exact IH.
Qed.

(** C6: the evaluator is idempotent.  For every set of unlocked keys and
    every vector, evaluating again with the keys of the first result added to
    the set gives the empty list, and no key of the set is ever fired; on the
    database: the keys stored after a call are the ones stored before
    together with those returned, and a second call on the same vector
    returns the empty list. *)
Theorem evaluateAchievements_idempotent (sid : string) (stats : Stats)
    (w : World) (unlocked : list string) :
  newly_unlocked ACHIEVEMENT_RULES
    (unlocked
     ++ List.map rule_key (newly_unlocked ACHIEVEMENT_RULES unlocked stats))
    stats = []
  /\ (forall rule, In rule (newly_unlocked ACHIEVEMENT_RULES unlocked stats) ->
        ~ In (rule_key rule) unlocked)
  /\ List.map ach_key (fst (evaluateAchievements sid stats w))
     = List.map rule_key
         (newly_unlocked ACHIEVEMENT_RULES
            (select_keys sid (Achievement_tbl w)) stats)
  /\ select_keys sid (Achievement_tbl (snd (evaluateAchievements sid stats w)))
     = select_keys sid (Achievement_tbl w)
       ++ List.map ach_key (fst (evaluateAchievements sid stats w))
  /\ fst (evaluateAchievements sid stats
            (snd (evaluateAchievements sid stats w))) = [].
Proof.
  split; [apply newly_unlocked_again |].
  split; [intros rule; apply newly_unlocked_fresh |].
  destruct (evaluateAchievements_run sid stats w)
    as (new & Hfst & Hkeys & Hsids & Htbl & _).
  assert (Hstored :
            select_keys sid (Achievement_tbl (snd (evaluateAchievements sid stats w)))
            = select_keys sid (Achievement_tbl w) ++ List.map ach_key new)
    by (rewrite Htbl; apply select_keys_app, Hsids).
  rewrite Hfst. split; [exact Hkeys | split; [exact Hstored |]].
  destruct (evaluateAchievements_run sid stats
              (snd (evaluateAchievements sid stats w)))
    as (again & Hfst' & Hkeys' & _).
  rewrite Hfst'. rewrite Hstored, Hkeys, newly_unlocked_again in Hkeys'.
  destruct again; [reflexivity | discriminate].
Qed.

(** ** One achievement per session and key *)

Lemma NoDup_map_filter {A B : Type} (g : A -> B) (f : A -> bool) (l : list A) :
  List.NoDup (List.map g l) -> List.NoDup (List.map g (List.filter f l)).
Proof.
  induction l as [| a l IH]; cbn [List.map List.filter]; intros H; [exact H |].
  apply List.NoDup_cons_iff in H as [Hnotin Hnodup].
  destruct (f a); [| apply IH, Hnodup].
  cbn [List.map]. apply List.NoDup_cons; [| apply IH, Hnodup].
  intros Hin. apply Hnotin. apply List.in_map_iff in Hin as (x & Hx & Hin).
  apply List.filter_In in Hin as [Hin _].
  rewrite <- Hx. apply List.in_map, Hin.
Qed.

Lemma ACHIEVEMENT_RULES_keys : List.NoDup (List.map rule_key ACHIEVEMENT_RULES).
Proof.
  cbn. repeat (apply List.NoDup_cons; [cbn; intuition discriminate |]).
  apply List.NoDup_nil.
Qed.

Lemma In_select_keys (sid key : string) (tbl : list AchievementRow) :
  In (sid, key) (List.map ach_pair tbl) ->
  In key (select_keys sid tbl).
Proof.
  intros Hin. apply List.in_map_iff in Hin as (a & Ha & Hin).
  unfold ach_pair in Ha. injection Ha as Hs Hk. unfold select_keys. rewrite <- Hk.
  apply List.in_map, List.filter_In. split; [exact Hin |].
  rewrite Hs. apply String.eqb_refl.
Qed.

Lemma NoDup_map_pair (sid : string) (keys : list string) :
  List.NoDup keys -> List.NoDup (List.map (fun k => (sid, k)) keys).
Proof.
  induction 1 as [| k keys Hnotin _ IH]; cbn [List.map]; constructor; [| exact IH].
  intros Hin. apply Hnotin. apply List.in_map_iff in Hin as (k' & Heq & Hin).
  congruence.
Qed.

Lemma pairs_of_session (sid : string) (new : list AchievementRow) :
  Forall (fun a => ach_sessionId a = sid) new ->
  List.map ach_pair new
  = List.map (fun k => (sid, k)) (List.map ach_key new).
Proof.
  intros Hsids. induction Hsids as [| a new Ha _ IH]; [reflexivity |].
  cbn [List.map]. unfold ach_pair at 1. rewrite Ha, IH. reflexivity.
Qed.

(** The evaluator keeps the table free of duplicates: it fires no key that
    the session already holds, and no key twice. *)
Lemma evaluateAchievements_keeps_unique (sid : string) (stats : Stats) (w : World) :
  unique_per_session_key (Achievement_tbl w) ->
  unique_per_session_key (Achievement_tbl (snd (evaluateAchievements sid stats w))).
Proof.
  unfold unique_per_session_key. intros Hold.
  destruct (evaluateAchievements_run sid stats w)
    as (new & _ & Hkeys & Hsids & Htbl & _).
  rewrite Htbl, List.map_app, (pairs_of_session sid new Hsids), Hkeys.
  apply List.NoDup_app.
  - exact Hold.
  - apply NoDup_map_pair, NoDup_map_filter, ACHIEVEMENT_RULES_keys.
  - intros [s k] Hin Hin'.
    apply List.in_map_iff in Hin' as (k' & Heq & Hk').
    injection Heq as <- <-.
    apply List.in_map_iff in Hk' as (rule & <- & Hrule).
    apply (newly_unlocked_fresh _ _ _ _ Hrule).
    apply In_select_keys, Hin.
Qed.

(** C5 at the failing inputs: after one session start the table has no
    duplicate; serving the distort act twice, or the manual unlock of one key
    twice, leaves two achievements with the same session and key. *)
Theorem repeated_unlock_duplicates :
  unique_per_session_key (Achievement_tbl one_session)
  /\ List.map ach_pair (Achievement_tbl (serve distort_twice empty_world))
     = [("uuid-0", "distorted_realm"); ("uuid-0", "distorted_realm")]%string
  /\ ~ unique_per_session_key (Achievement_tbl (serve distort_twice empty_world))
  /\ List.map ach_pair (Achievement_tbl (serve unlock_twice empty_world))
     = [("uuid-0", "hero"); ("uuid-0", "hero")]%string
  /\ ~ unique_per_session_key (Achievement_tbl (serve unlock_twice empty_world)).
Proof.
  assert (Hd : List.map ach_pair (Achievement_tbl (serve distort_twice empty_world))
               = [("uuid-0", "distorted_realm"); ("uuid-0", "distorted_realm")]%string)
    by (vm_compute; reflexivity).
  assert (Hu : List.map ach_pair (Achievement_tbl (serve unlock_twice empty_world))
               = [("uuid-0", "hero"); ("uuid-0", "hero")]%string)
    by (vm_compute; reflexivity).
  split; [apply List.NoDup_nil |].
  split; [exact Hd | split; [| split; [exact Hu |]]];
    unfold unique_per_session_key; [rewrite Hd | rewrite Hu];
    intros Hnodup; apply List.NoDup_cons_iff in Hnodup as [Hnotin _];
    apply Hnotin; left; reflexivity.
Qed.

(** ** What the handlers answer and store *)

Lemma truthy_Some (s : string) : s <> EmptyString -> truthy (Some s) = true.
Proof. intros H. cbn. apply String.eqb_neq in H. rewrite H. reflexivity. Qed.

Lemma select_stats_sessionId (sid : string) (tbl : list Stats) (row : Stats) :
  select_stats sid tbl = Some row -> sessionId row = sid.
Proof.
  unfold select_stats. intros H. apply List.find_some in H as [_ H].
  apply String.eqb_eq, H.
Qed.

Lemma select_stats_In (sid : string) (tbl : list Stats) (row : Stats) :
  select_stats sid tbl = Some row -> In row tbl.
Proof. unfold select_stats. intros H. apply List.find_some in H as [H _]. exact H. Qed.

Lemma select_upsert (r : Stats) (tbl : list Stats) :
  select_stats (sessionId r) (upsert_row r tbl) = Some r.
Proof.
  unfold select_stats. induction tbl as [| r' tbl IH]; cbn [upsert_row List.find].
  - rewrite String.eqb_refl. reflexivity.
  - destruct (String.eqb (sessionId r') (sessionId r)) eqn:E; cbn [List.find].
    + rewrite String.eqb_refl. reflexivity.
    + rewrite E. exact IH.
Qed.

Lemma select_stats_stored (sid : string) (row : Stats) (d : Deltas)
    (tbl : list Stats) :
  select_stats sid tbl = Some row ->
  select_stats sid (upsert_row (applyDeltas row d) tbl) = Some (applyDeltas row d).
Proof.
  intros Hrow. apply select_stats_sessionId in Hrow.
  rewrite <- Hrow at 1. rewrite <- (sessionId_applyDeltas row d).
  apply select_upsert.
Qed.

Lemma getStatsStmt_get_run (sid : string) (w : World) :
  getStatsStmt_get sid w = (select_stats sid (Stats_tbl w), w).
Proof. reflexivity. Qed.

Lemma Stats_tbl_upsertStats_run (r : Stats) (w : World) :
  Stats_tbl (snd (upsertStats_run r w)) = upsert_row r (Stats_tbl w).
Proof. reflexivity. Qed.

Lemma law_deltas_assign_fst (lawKey : string) (v : Z) (w : World) :
  fst (law_deltas_assign lawKey v w)
  = set_d_laws (lookup_or (law_table w) lawKey law_fallback) v.
Proof.
  unfold law_deltas_assign, lookup_or.
  destruct (law_table w !! lawKey); reflexivity.
Qed.

Lemma law_deltas_assign_keeps_Stats_tbl (lawKey : string) (v : Z) :
  keeps Stats_tbl (law_deltas_assign lawKey v).
Proof.
  intros w. unfold law_deltas_assign.
  destruct (law_table w !! lawKey); reflexivity.
Qed.

(** Proves that an action leaves a field of the world alone, by splitting
    the action into its primitives. *)
Ltac keeps_tac :=
  repeat (intros; cbv zeta;
    match goal with
    | |- keeps Stats_tbl (evaluateAchievements _ _) =>
        apply evaluateAchievements_keeps_Stats_tbl
    | |- keeps law_table (evaluateAchievements _ _) =>
        apply evaluateAchievements_keeps_law_table
    | |- keeps Stats_tbl (law_deltas_assign _ _) =>
        apply law_deltas_assign_keeps_Stats_tbl
    | |- keeps _ (mret _) => apply keeps_mret
    | |- keeps _ (_ ≫= _) => apply keeps_bind
    | |- keeps _ (if ?c then _ else _) => destruct c
    | |- keeps _ (match ?x with Some _ => _ | None => _ end) => destruct x
    | |- keeps _ _ =>
        solve [let w := fresh "w" in intros w; destruct w; reflexivity]
    end).

(** Removes from the goal the actions that leave [field] alone. *)
Ltac frame field :=
  repeat match goal with
  | |- context [field (snd (?m ?w))] =>
      let H := fresh "Hkeeps" in
      assert (H : keeps field m) by keeps_tac; rewrite (H w); clear H
  end.

(** A request whose two identifiers are truthy passes the guard. *)
Ltac pass_guard Hs Hk :=
  rewrite (truthy_Some _ Hs), (truthy_Some _ Hk);
  cbn [negb orb default from_option id].

(** Runs an action handler on a session that has a row, up to its answer,
    then reads the stored row. *)
Ltac run_handler Hrow :=
  rewrite bind_run, getStatsStmt_get_run; cbn [fst snd]; rewrite Hrow;
  cbv zeta; rewrite !bind_run, mret_run; cbn [fst snd];
  rewrite ?law_deltas_assign_fst;
  split;
  [ do 2 eexists; reflexivity
  | frame Stats_tbl; rewrite Stats_tbl_upsertStats_run; frame Stats_tbl;
    apply select_stats_stored, Hrow ].

Section Served.

Variables (sid key : string) (row : Stats) (w : World).
Hypothesis Hsid : sid <> EmptyString.
Hypothesis Hkey : key <> EmptyString.
Hypothesis Hrow : select_stats sid (Stats_tbl w) = Some row.

Lemma laws_enforce_acts (description : option string) :
  completes (laws_enforce (Some sid) (Some key) description w) sid
    (applyDeltas row (set_d_laws (lookup_or (law_table w) key law_fallback) 1)).
Proof.
  unfold completes, laws_enforce. pass_guard Hsid Hkey. run_handler Hrow.
Qed.

Lemma crises_resolve_acts (method description : option string) :
  completes (crises_resolve (Some sid) (Some key) method description w) sid
    (applyDeltas row
       (set_d_crises
          (merge_deltas (lookup_or CRISIS_DELTAS key crisis_fallback)
             (methodMod method)) 1)).
Proof.
  unfold completes, crises_resolve. pass_guard Hsid Hkey. run_handler Hrow.
Qed.

Lemma diplomacy_action_acts (target description : option string) :
  completes (diplomacy_action (Some sid) (Some key) target description w) sid
    (applyDeltas row (lookup_or DIPLOMACY_DELTAS key diplomacy_fallback)).
Proof.
  unfold completes, diplomacy_action. pass_guard Hsid Hkey. run_handler Hrow.
Qed.

Lemma rebellion_act_acts (description : option string) :
  completes (rebellion_act (Some sid) (Some key) description w) sid
    (applyDeltas row (lookup_or REBELLION_DELTAS key rebellion_fallback)).
Proof.
  unfold completes, rebellion_act. pass_guard Hsid Hkey. run_handler Hrow.
Qed.

Lemma cosmic_act_acts (description : option string) :
  completes (cosmic_act (Some sid) (Some key) description w) sid
    (applyDeltas row (lookup_or COSMIC_DELTAS key cosmic_fallback)).
Proof.
  unfold completes, cosmic_act. pass_guard Hsid Hkey. run_handler Hrow.
Qed.

End Served.


(** Under a name that is not inherited, the lookup among the own keys is
    the property read of the code followed by its fallback. *)
Lemma lookup_or_property_read (table : gmap string Deltas) (key : string)
    (fallback : Deltas) :
  inherited key = false ->
  lookup_or table key fallback
  = match property_read table key with
    | Own d => d
    | Inherited | Undefined => fallback
    end.
Proof.
  intros H. unfold lookup_or, property_read. rewrite H.
  destruct (table !! key); reflexivity.
Qed.









(** ** The worlds that the requests can reach *)

Lemma evolves_trans (t1 t2 t3 : list Stats) :
  evolves t1 t2 -> evolves t2 t3 -> evolves t1 t3.
Proof.
  intros H12 H23. induction H23 as [| t3 id _ IH | t3 row d _ IH Hin].
  - exact H12.
  - apply evolves_start, IH.
  - apply evolves_apply; [exact IH | exact Hin].
Qed.

Lemma upsert_row_Forall (P : Stats -> Prop) (r : Stats) (tbl : list Stats) :
  P r -> Forall P tbl -> Forall P (upsert_row r tbl).
Proof.
  intros Hr Htbl. induction Htbl as [| r' tbl Hr' Htbl IH]; cbn [upsert_row].
  - constructor; [exact Hr | constructor].
  - destruct (String.eqb (sessionId r') (sessionId r)); constructor; assumption.
Qed.

(** The evolution of the table keeps every row within the bounds. *)
Lemma evolves_bounds (t t' : list Stats) :
  evolves t t' -> Forall within_bounds t -> Forall within_bounds t'.
Proof.
  intros Hev Ht. induction Hev as [| t' id _ IH | t' row d _ IH Hin].
  - exact Ht.
  - apply upsert_row_Forall; [apply DEFAULT_STATS_within_bounds | exact IH].
  - apply upsert_row_Forall; [| exact IH].
    apply applyDeltas_within_bounds.
    rewrite List.Forall_forall in IH. apply IH, Hin.
Qed.

(** An action handler leaves the rows as they are or stores [applyDeltas]
    of a row that was there. *)
Ltac evolve_action :=
  match goal with
  | |- context [negb (truthy ?a) || negb (truthy ?b)] =>
      destruct (negb (truthy a) || negb (truthy b)); [apply evolves_refl |]
  end;
  rewrite bind_run, getStatsStmt_get_run; cbn [fst snd];
  let Hrow := fresh "Hrow" in
  match goal with
  | |- context [select_stats ?sid ?tbl] =>
      destruct (select_stats sid tbl) eqn:Hrow; [| apply evolves_refl]
  end;
  cbv zeta; rewrite !bind_run, mret_run; cbn [snd];
  frame Stats_tbl; rewrite Stats_tbl_upsertStats_run; frame Stats_tbl;
  apply evolves_apply;
  [apply evolves_refl | apply (select_stats_In _ _ _ Hrow)].

Lemma multiplayer_apply_evolves (delta : option Deltas) (sid label : string)
    (w : World) :
  evolves (Stats_tbl w) (Stats_tbl (snd (multiplayer_apply delta sid label w))).
Proof.
  unfold multiplayer_apply.
  destruct delta as [delta |]; [| apply evolves_refl].
  destruct (negb (String.eqb sid EmptyString)); [| apply evolves_refl].
  rewrite bind_run, getStatsStmt_get_run; cbn [fst snd].
  destruct (select_stats sid (Stats_tbl w)) as [row |] eqn:Hrow;
    [| apply evolves_refl].
  cbv zeta. rewrite !bind_run, mret_run. cbn [snd].
  frame Stats_tbl. rewrite Stats_tbl_upsertStats_run.
  apply evolves_apply; [apply evolves_refl | apply (select_stats_In _ _ _ Hrow)].
Qed.

(** The rows of table [Stats] change through [applyDeltas] only, a new
    session starting from the defaults. *)
Lemma route_evolves (r : Request) (w : World) :
  evolves (Stats_tbl w) (Stats_tbl (snd (route r w))).
Proof.
  destruct r as [playerName country difficulty chaosThreshold
                | sid key description | sid key method description
                | sid key target description | sid key description
                | sid key description | sid key description
                | sessionAId sessionBId mode | matchId deltaA deltaB end_];
    cbn [route].
  - unfold session_start. cbv zeta. rewrite !bind_run, mret_run. cbn [snd].
    frame Stats_tbl. rewrite Stats_tbl_upsertStats_run. frame Stats_tbl.
    apply evolves_start, evolves_refl.
  - unfold laws_enforce. evolve_action.
  - unfold crises_resolve. evolve_action.
  - unfold diplomacy_action. evolve_action.
  - unfold rebellion_act. evolve_action.
  - unfold cosmic_act. evolve_action.
  - assert (H : keeps Stats_tbl (achievement_unlock sid key description))
      by (unfold achievement_unlock; keeps_tac).
    rewrite H. apply evolves_refl.
  - assert (H : keeps Stats_tbl (multiplayer_start sessionAId sessionBId mode))
      by (unfold multiplayer_start; keeps_tac).
    rewrite H. apply evolves_refl.
  - unfold multiplayer_update. rewrite bind_run.
    change (snd (select_match matchId w)) with w.
    destruct (fst (select_match matchId w)) as [m |]; [| apply evolves_refl].
    rewrite !bind_run, mret_run. cbn [snd].
    assert (Hab : evolves (Stats_tbl w)
              (Stats_tbl
                 (snd (multiplayer_apply deltaB (match_sessionBId m) "B"
                         (snd (multiplayer_apply deltaA (match_sessionAId m) "A" w))))))
      by (eapply evolves_trans; apply multiplayer_apply_evolves).
    destruct end_; [| exact Hab].
    rewrite !bind_run, mret_run. cbn [snd]. frame Stats_tbl. exact Hab.
Qed.

Lemma serve_evolves (rs : list Request) :
  forall w, evolves (Stats_tbl w) (Stats_tbl (serve rs w)).
Proof.
  induction rs as [| r rs IH]; intros w; [apply evolves_refl |].
  apply (evolves_trans _ (Stats_tbl (snd (route r w)))); 
    [apply route_evolves | apply (IH (snd (route r w)))].
Qed.


Lemma law_deltas_assign_settled (lawKey : string) (w : World) :
  law_table_settled w -> law_table_settled (snd (law_deltas_assign lawKey 1 w)).
Proof.
  intros H key. unfold law_deltas_assign.
  destruct (law_table w !! lawKey) as [entry |] eqn:E; [| apply H].
  cbn [snd law_table]. destruct (decide (lawKey = key)) as [-> | Hne].
  - rewrite lookup_insert_eq, <- H, E. reflexivity.
  - rewrite lookup_insert_ne by exact Hne. apply H.
Qed.

Lemma route_settled (r : Request) (w : World) :
  law_table_settled w -> law_table_settled (snd (route r w)).
Proof.
  intros H.
  assert (Hkeeps : forall (m : M Response),
             keeps law_table m -> law_table_settled (snd (m w)))
    by (intros m Hm key; rewrite Hm; apply H).
  destruct r as [playerName country difficulty chaosThreshold
                | sid key description | sid key method description
                | sid key target description | sid key description
                | sid key description | sid key description
                | sessionAId sessionBId mode | matchId deltaA deltaB end_];
    cbn [route].
  2: {
    unfold laws_enforce.
    destruct (negb (truthy sid) || negb (truthy key)); [exact H |].
    rewrite bind_run, getStatsStmt_get_run. cbn [fst snd].
    destruct (select_stats (default EmptyString sid) (Stats_tbl w)); [| exact H].
    cbv zeta. rewrite !bind_run, mret_run. cbn [snd].
    intros k. frame law_table. apply law_deltas_assign_settled, H. }
  all: apply Hkeeps.
  - unfold session_start. keeps_tac.
  - unfold crises_resolve. keeps_tac.
  - unfold diplomacy_action. keeps_tac.
  - unfold rebellion_act. keeps_tac.
  - unfold cosmic_act. keeps_tac.
  - unfold achievement_unlock. keeps_tac.
  - unfold multiplayer_start. keeps_tac.
  - unfold multiplayer_update, multiplayer_apply. keeps_tac.
Qed.

Lemma serve_settled (rs : list Request) :
  forall w, law_table_settled w -> law_table_settled (serve rs w).
Proof.
  induction rs as [| r rs IH]; intros w H; [exact H |].
  apply (IH (snd (route r w))), route_settled, H.
Qed.

(** In every world that the requests can reach, the deltas of a law are
    those of the literal [LAW_DELTAS] with [laws: 1], and the table holds the
    keys of the literal: the assignment [deltas.laws = 1] to an entry of the
    table is never observed. *)
Lemma reachable_law_table (rs : list Request) (key : string) :
  set_d_laws (lookup_or (law_table (serve rs empty_world)) key law_fallback) 1
  = set_d_laws (lookup_or LAW_DELTAS key law_fallback) 1
  /\ (law_table (serve rs empty_world) !! key = None <-> LAW_DELTAS !! key = None).
Proof.
  assert (H : law_table_settled (serve rs empty_world))
    by (apply serve_settled; intros k; reflexivity).
  specialize (H key). unfold lookup_or.
  destruct (law_table (serve rs empty_world) !! key), (LAW_DELTAS !! key);
    cbn in H; try discriminate; split; try congruence; split; congruence.
Qed.

(** ** The archive encoder *)


Lemma json_eqb_refl (p : Json) : json_eqb p p = true.
Proof.
  induction p as [| a | a | a | xs IH | xs IH] using Json_induction;
    cbn [json_eqb].
  - reflexivity.
  - destruct a; reflexivity.
  - apply Z.eqb_refl.
  - apply String.eqb_refl.
  - induction IH as [| x xs Hx _ IHxs]; [reflexivity |].
    rewrite Hx. exact IHxs.
  - induction IH as [| [k x] xs Hx _ IHxs]; [reflexivity |].
    cbn [snd] in Hx. rewrite String.eqb_refl, Hx. exact IHxs.
Qed.

(** Every base64 digit is given a glyph of the set: nothing of
    [undefined_text] ever enters the output. *)
Lemma glyph_of_defined (ch : N) : exists g, glyph_of ch = [g] /\ In g glyphSet.
Proof.
  unfold glyph_of.
  destruct (glyphSet !! N.to_nat (ch mod N.of_nat (length glyphSet))%N)
    as [g |] eqn:E.
  - exists g. split; [reflexivity |].
    apply list_elem_of_In, list_elem_of_lookup. eauto.
  - exfalso. apply lookup_ge_None in E.
    assert (ch mod N.of_nat (length glyphSet) < N.of_nat (length glyphSet))%N
      by (apply N.mod_lt; discriminate).
    lia.
Qed.

Lemma glyph_loop_app (b64 : string) (glyphs : list N) :
  glyph_loop b64 glyphs = glyphs ++ glyph_loop b64 [].
Proof.
  revert glyphs. induction b64 as [| c rest IH]; intros glyphs; cbn [glyph_loop].
  - rewrite app_nil_r. reflexivity.
  - rewrite (IH (glyphs ++ _)), (IH ([] ++ _)), app_assoc. reflexivity.
Qed.

(** The glyph string has one glyph of the set per base64 digit. *)
Lemma glyph_loop_glyphs (b64 : string) :
  length (glyph_loop b64 []) = String.length b64
  /\ Forall (fun g => In g glyphSet) (glyph_loop b64 []).
Proof.
  induction b64 as [| c rest [IHlen IHin]]; cbn [glyph_loop String.length].
  - split; [reflexivity | constructor].
  - rewrite glyph_loop_app.
    destruct (glyph_of_defined (N_of_ascii c)) as (g & -> & Hg).
    cbn [app length]. split; [rewrite IHlen; reflexivity |].
    constructor; assumption.
Qed.




(** ** Scenarios *)

Example applyDeltas_scenario :
  applyDeltas (DEFAULT_STATS "s")
    (mkDeltas (Some (-10)) (Some 10) None (Some (-8)) (Some 12) (Some 5) (Some 1) None)
  = mkStats "s" 40 60 50 42 62 5 1 0.
Proof. reflexivity. Qed.

Example rebellion_scenario :
  checkRebellionChance (mkStats "s" 50 15 50 50 50 0 0 0)
  = mkRebellion true (Some 18).
Proof. reflexivity. Qed.

Example gameOver_scenario :
  checkGameOver (mkStats "s" 50 50 50 50 50 120 0 0) 100
  = mkGameOver true (Some "Chaos exceeded threshold"%string).
Proof. reflexivity. Qed.

Example stringify_sample :
  JSON_stringify
    (JObject [("n"%string, JArray [JNumber (-3); JBool true; JNull]);
              ("s"%string, JString "a\b")])
  = cat ["{"; dq; "n"; dq; ":[-3,true,null],"; dq; "s"; dq; ":";
         dq; "a\\b"; dq; "}"]%string.
Proof. vm_compute. reflexivity. Qed.

Example base64_sample :
  toString_base64 (Buffer_from "Many hands") = "TWFueSBoYW5kcw=="%string.
Proof. reflexivity. Qed.

Example glyphSet_length : length glyphSet = 87%nat.
Proof. reflexivity. Qed.

(** ** Invariants of the served worlds *)

(** X1: after every run of requests served since the server started, the
    requests being those of [Request] (identifiers and keys that are strings,
    and for [/multiplayer/update] deltas whose entries are integers), every
    row of table Stats has its five bounded axes within 0..100 and its chaos
    at least 0; the counters are not part of it. *)
Theorem served_rows_stay_within_bounds (rs : list Request) :
  Forall (fun row => (forall key, 0 <= stat_get row key <= 100) /\ 0 <= chaos row)
    (Stats_tbl (serve rs empty_world)).
Proof.
  apply (evolves_bounds (Stats_tbl empty_world)); [apply serve_evolves |].
  constructor.
Qed.

(** Follows an action handler to its error answers, which leave the world
    as it was; the normal answer contradicts [H]. *)
Ltac action_refused H :=
  match type of H with
  | context [negb (truthy ?a) || negb (truthy ?b)] =>
      destruct (negb (truthy a) || negb (truthy b)); [reflexivity |]
  end;
  rewrite bind_run, getStatsStmt_get_run in H |- *; cbn [fst snd] in H |- *;
  match type of H with
  | context [select_stats ?sid ?tbl] =>
      destruct (select_stats sid tbl); [| reflexivity]
  end;
  cbv zeta in H; rewrite !bind_run, mret_run in H; cbn [fst] in H;
  discriminate H.

(** X2: a request that is answered with an error has changed nothing: no
    table, not the identifier counter, the clock or the law table.  This holds
    for every route of the model, whatever the state of the world. *)
Theorem error_answer_changes_nothing (r : Request) (w : World)
    (status : Z) (error : string) :
  fst (route r w) = Error status error -> snd (route r w) = w.
Proof.
  intros H.
  destruct r as [playerName country difficulty chaosThreshold
                | sid key description | sid key method description
                | sid key target description | sid key description
                | sid key description | sid key description
                | sessionAId sessionBId mode | matchId deltaA deltaB end_];
    cbn [route] in H |- *.
  - unfold session_start in H. cbv zeta in H.
    rewrite !bind_run, mret_run in H. discriminate H.
  - unfold laws_enforce in H |- *. action_refused H.
  - unfold crises_resolve in H |- *. action_refused H.
  - unfold diplomacy_action in H |- *. action_refused H.
  - unfold rebellion_act in H |- *. action_refused H.
  - unfold cosmic_act in H |- *. action_refused H.
  - unfold achievement_unlock in H |- *.
    destruct (negb (truthy sid) || negb (truthy key)); [reflexivity |].
    cbv zeta in H. rewrite !bind_run, mret_run in H. discriminate H.
  - unfold multiplayer_start in H |- *. cbv zeta in H |- *.
    destruct (negb (truthy sessionAId) || negb (truthy sessionBId));
      [reflexivity |].
    rewrite !bind_run, mret_run in H. discriminate H.
  - unfold multiplayer_update in H |- *. rewrite bind_run in H |- *.
    change (snd (select_match matchId w)) with w in H |- *.
    destruct (fst (select_match matchId w)); [| reflexivity].
    rewrite !bind_run, mret_run in H. discriminate H.
Qed.

Lemma error_answer_changes_nothing_witness :
  fst (route (LawsEnforce (Some "nobody"%string) (Some "tax_cut"%string) None)
         one_session)
  = Error 404 "session not found"
  /\ snd (route (LawsEnforce (Some "nobody"%string) (Some "tax_cut"%string) None)
            one_session)
     = one_session.
Proof.
  split; [reflexivity |].
  exact (error_answer_changes_nothing
           (LawsEnforce (Some "nobody"%string) (Some "tax_cut"%string) None)
           one_session 404 "session not found" eq_refl).
Defined.

(** ** The counters and the crisis deltas *)














(** ** The range of the rebellion intensity *)

(** X6: for a vector within the bounds, an active rebellion has an intensity
    between 8 and 100, and a rebellion that is not active has none.  When
    only the approval trigger holds, the intensity is 40 - approval, between
    26 and 40: the floor of 10 in [Math.max(10, 40 - approval)] never takes
    effect. *)
Theorem rebellion_intensity_range (v : Stats) :
  within_bounds v ->
  match checkRebellionChance v with
  | mkRebellion true (Some i) =>
      8 <= i <= 100
      /\ (chaos v <= 65 -> 20 <= stability v ->
          approval v < 15 /\ i = 40 - approval v /\ 26 <= i <= 40)
  | mkRebellion false None =>
      chaos v <= 65 /\ 20 <= stability v /\ 15 <= approval v
  | _ => False
  end.
Proof.
  intros [Haxes Hchaos].
  pose proof (Haxes KApproval) as Ha. pose proof (Haxes KStability) as Hs.
  unfold in_range in Ha, Hs. cbn [stat_get] in Ha, Hs.
  destruct (classic_unrest v) as [Hu | Hu].
  - rewrite checkRebellionChance_unrest by exact Hu.
    unfold unrest_intensity. rewrite Math_round_half. unfold unrest in Hu.
    assert (8 <= (chaos v + (50 - stability v) + 1) / 2)
      by (apply Z.div_le_lower_bound; lia).
    split; [lia |]. intros. lia.
  - rewrite checkRebellionChance_calm by exact Hu. unfold unrest in Hu.
    destruct (Z.ltb_spec (approval v) 15); lia.
Qed.

Lemma rebellion_intensity_range_witness :
  within_bounds (mkStats "s" 3 50 50 50 50 0 0 0)
  /\ checkRebellionChance (mkStats "s" 3 50 50 50 50 0 0 0)
     = mkRebellion true (Some 37)
  /\ 8 <= 37 <= 100.
Proof.
  assert (Hv : within_bounds (mkStats "s" 3 50 50 50 50 0 0 0))
    by (apply valid_within_bounds; constructor; unfold in_range; simpl; lia).
  split; [exact Hv | split; [reflexivity |]].
  exact (proj1 (rebellion_intensity_range (mkStats "s" 3 50 50 50 50 0 0 0) Hv)).
Defined.

(** ** Changes of the world along an action *)

Section Steps.

Context (R : relation World) `{!PreOrder R}.

Lemma steps_mret {A : Type} (x : A) : steps R (mret x : M A).
Proof. intros w. reflexivity. Qed.

Lemma steps_bind {A B : Type} (m : M A) (f : A -> M B) :
  steps R m -> (forall a, steps R (f a)) -> steps R (m ≫= f).
Proof.
  intros Hm Hf w. rewrite bind_run.
  transitivity (snd (m w)); [apply Hm | apply Hf].
Qed.

(** The row that [getStatsStmt.get] hands to the rest of a handler is a row
    of the session asked for. *)
Lemma steps_bind_get {B : Type} (sid : string) (f : option Stats -> M B) :
  (forall row, sessionId row = sid -> steps R (f (Some row))) ->
  steps R (f None) ->
  steps R (getStatsStmt_get sid ≫= f).
Proof.
  intros Hsome Hnone w. rewrite bind_run, getStatsStmt_get_run. cbn [fst snd].
  destruct (select_stats sid (Stats_tbl w)) as [row |] eqn:Hrow.
  - apply Hsome, (select_stats_sessionId _ _ _ Hrow).
  - apply Hnone.
Qed.

(** The evaluator is made of the read of the keys and of unlocks. *)
Lemma steps_evaluateAchievements (sid : string) (stats : Stats) :
  steps R (existing_keys sid) -> (forall rule, steps R (unlock sid rule)) ->
  steps R (evaluateAchievements sid stats).
Proof.
  intros Hkeys Hunlock. unfold evaluateAchievements.
  apply steps_bind; [exact Hkeys |].
  intros existing. generalize (@nil AchievementRow).
  induction ACHIEVEMENT_RULES as [| rule rest IH]; intros found;
    cbn [evaluate_rules]; [apply steps_mret |].
  destruct (negb (includes existing (rule_key rule)) && rule_condition rule stats);
    [| apply IH].
  apply steps_bind; [apply Hunlock | intros ach; apply IH].
Qed.

End Steps.

(** Splits an action into its primitives and leaves each of them to
    [primitive]. *)
Ltac steps_tac primitive :=
  repeat (intros; cbv zeta;
    match goal with
    | |- PreOrder _ => exact _
    | |- steps _ (mret _) => apply steps_mret
    | |- steps _ (getStatsStmt_get _ ≫= _) => apply steps_bind_get
    | |- steps _ (_ ≫= _) => apply steps_bind
    | |- steps _ (if ?c then _ else _) => destruct c
    | |- steps _ (match ?x with Some _ => _ | None => _ end) => destruct x
    | |- steps _ _ => primitive
    end).

(** *** The log tables only grow *)

#[local] Instance grows_preorder : PreOrder grows.
Proof.
  split.
  - intros w. split; reflexivity.
  - intros w1 w2 w3 [Ha Ht] [Ha' Ht']. split; etransitivity; eassumption.
Qed.

Ltac grows_primitive :=
  match goal with
  | |- steps grows (law_deltas_assign _ _) =>
      let w := fresh "w" in
      intros w; unfold law_deltas_assign; destruct (law_table w !! _);
      split; reflexivity
  | |- steps grows _ =>
      solve [let w := fresh "w" in
             intros w; destruct w; split; cbn;
             first [reflexivity | apply prefix_app_r; reflexivity]]
  end.

Lemma evaluateAchievements_grows (sid : string) (stats : Stats) :
  steps grows (evaluateAchievements sid stats).
Proof.
  apply steps_evaluateAchievements; [exact _ | grows_primitive |].
  intros rule. unfold unlock, pushTimeline. steps_tac grows_primitive.
Qed.

Ltac grows_action :=
  idtac; first [apply evaluateAchievements_grows | grows_primitive].

Lemma route_grows (r : Request) : steps grows (route r).
Proof.
  destruct r; cbn [route];
    unfold session_start, laws_enforce, crises_resolve, diplomacy_action,
      rebellion_act, cosmic_act, achievement_unlock, multiplayer_start,
      multiplayer_update, multiplayer_apply, pushTimeline;
    steps_tac grows_action.
Qed.

(** X7: the two logs are append-only.  Whatever requests are served, from
    whatever world, no row of table Achievement and no row of table
    TimelineEvent is deleted, rewritten or moved: the tables afterwards are
    the tables before with rows added at their ends. *)
Theorem logs_are_append_only (rs : list Request) (w : World) :
  (exists unlocked,
     Achievement_tbl (serve rs w) = Achievement_tbl w ++ unlocked)
  /\ (exists events,
        TimelineEvent_tbl (serve rs w) = TimelineEvent_tbl w ++ events).
Proof.
  change (grows w (serve rs w)). revert w.
  induction rs as [| r rs IH]; intros w; [reflexivity |].
  transitivity (snd (route r w)); [apply route_grows | apply IH].
Qed.

(** ** One session at a time *)

Lemma select_upsert_other (r : Stats) (tbl : list Stats) (other : string) :
  other <> sessionId r ->
  select_stats other (upsert_row r tbl) = select_stats other tbl.
Proof.
  intros Hne. apply String.eqb_neq in Hne. rewrite String.eqb_sym in Hne.
  unfold select_stats.
  induction tbl as [| r' tbl IH]; cbn [upsert_row List.find].
  - rewrite Hne. reflexivity.
  - destruct (String.eqb (sessionId r') (sessionId r)) eqn:E; cbn [List.find].
    + apply String.eqb_eq in E. rewrite E, Hne. reflexivity.
    + rewrite IH. reflexivity.
Qed.

#[local] Instance confined_to_preorder (sid : string) : PreOrder (confined_to sid).
Proof.
  split.
  - intros w other _. reflexivity.
  - intros w1 w2 w3 H12 H23 other Hne.
    rewrite (H23 other Hne). apply (H12 other Hne).
Qed.

Ltac confined_primitive :=
  idtac;
  let w := fresh "w" in
  let other := fresh "other" in
  let Hne := fresh "Hne" in
  match goal with
  | |- steps (confined_to _) (law_deltas_assign _ _) =>
      intros w other Hne; unfold law_deltas_assign;
      destruct (law_table w !! _); reflexivity
  | |- steps (confined_to _) (upsertStats_run _) =>
      intros w other Hne; unfold session_view;
      cbn [upsertStats_run snd Stats_tbl Achievement_tbl TimelineEvent_tbl
           Session_tbl];
      rewrite select_upsert_other;
      [reflexivity | rewrite ?sessionId_applyDeltas; congruence]
  | |- steps (confined_to ?sid) (insertAchievement_run _) =>
      intros w other Hne; unfold session_view;
      cbn [insertAchievement_run snd Stats_tbl Achievement_tbl
           TimelineEvent_tbl Session_tbl];
      rewrite List.filter_app; cbn [List.filter ach_sessionId];
      apply not_eq_sym, String.eqb_neq in Hne; rewrite Hne, app_nil_r;
      reflexivity
  | |- steps (confined_to ?sid) (insertTimeline_run _) =>
      intros w other Hne; unfold session_view;
      cbn [insertTimeline_run snd Stats_tbl Achievement_tbl
           TimelineEvent_tbl Session_tbl];
      rewrite List.filter_app; cbn [List.filter ev_sessionId];
      apply not_eq_sym, String.eqb_neq in Hne; rewrite Hne, app_nil_r;
      reflexivity
  | |- steps (confined_to _) _ =>
      solve [intros w other Hne; destruct w; reflexivity]
  end.

Lemma evaluateAchievements_confined (sid : string) (stats : Stats) :
  steps (confined_to sid) (evaluateAchievements sid stats).
Proof.
  apply steps_evaluateAchievements; [exact _ | confined_primitive |].
  intros rule. unfold unlock, pushTimeline. steps_tac confined_primitive.
Qed.

Ltac confined_action :=
  idtac; first [apply evaluateAchievements_confined | confined_primitive].

(** X8: an action touches one session.  A request of a route that names a
    session in its body (the five actions and the manual unlock) leaves
    every other session as it was: its vector, its achievements, its
    timeline and its row of table Session. *)
Theorem other_sessions_are_untouched (r : Request) (w : World)
    (sid other : string) :
  session_of r = Some sid -> other <> sid ->
  session_view other (snd (route r w)) = session_view other w.
Proof.
  intros Hr Hne. revert Hr.
  assert (Hsteps : session_of r = Some sid -> steps (confined_to sid) (route r)).
  { destruct r as [playerName country difficulty chaosThreshold
                  | sessionId key description | sessionId key method description
                  | sessionId key target description | sessionId key description
                  | sessionId key description | sessionId key description
                  | sessionAId sessionBId mode | matchId deltaA deltaB end_];
      cbn [session_of route]; intros [= <-];
      unfold laws_enforce, crises_resolve, diplomacy_action, rebellion_act,
        cosmic_act, achievement_unlock, pushTimeline;
      steps_tac confined_action. }
  intros Hr. apply (Hsteps Hr w other Hne).
Qed.

Lemma other_sessions_are_untouched_witness :
  session_of (LawsEnforce (Some "uuid-0"%string) (Some "tax_cut"%string) None)
  = Some "uuid-0"%string
  /\ fst (session_view "uuid-2" two_sessions)
     = (Some (DEFAULT_STATS "uuid-2"), [],
        [mkTimeline "uuid-3" "uuid-2" "system"
           "Session started for Player in Republic (normal)" 3])
  /\ session_view "uuid-2"
       (snd (route (LawsEnforce (Some "uuid-0"%string) (Some "tax_cut"%string) None)
               two_sessions))
     = session_view "uuid-2" two_sessions.
Proof.
  split; [reflexivity | split; [vm_compute; reflexivity |]].
  refine (other_sessions_are_untouched
            (LawsEnforce (Some "uuid-0"%string) (Some "tax_cut"%string) None)
            two_sessions "uuid-0" "uuid-2" eq_refl _).
  discriminate.
Defined.

(** ** Which requests can duplicate an achievement *)

#[local] Instance stays_unique_preorder : PreOrder stays_unique.
Proof.
  split.
  - intros w H. exact H.
  - intros w1 w2 w3 H12 H23 H. apply H23, H12, H.
Qed.

Ltac unique_primitive :=
  idtac;
  let w := fresh "w" in
  let H := fresh "H" in
  match goal with
  | |- steps stays_unique (evaluateAchievements _ _) =>
      intros w H; apply evaluateAchievements_keeps_unique, H
  | |- steps stays_unique (law_deltas_assign _ _) =>
      intros w H; unfold law_deltas_assign; destruct (law_table w !! _);
      exact H
  | |- steps stays_unique _ =>
      solve [intros w H; destruct w; exact H]
  end.

Lemma route_stays_unique (r : Request) :
  unlocks_unchecked r = false -> steps stays_unique (route r).
Proof.
  destruct r as [playerName country difficulty chaosThreshold
                | sessionId key description | sessionId key method description
                | sessionId key target description | sessionId key description
                | sessionId key description | sessionId key description
                | sessionAId sessionBId mode | matchId deltaA deltaB end_];
    cbn [unlocks_unchecked route]; intros Hr; try discriminate Hr;
    unfold session_start, laws_enforce, crises_resolve, diplomacy_action,
      rebellion_act, cosmic_act, multiplayer_start, multiplayer_update,
      multiplayer_apply, pushTimeline;
    rewrite ?Hr;
    steps_tac unique_primitive.
Qed.

(** X9: only the two unchecked unlocks can duplicate an achievement.  From a
    world with at most one achievement per session and key, every run of
    requests that holds neither a manual unlock nor the cosmic act distort
    ends in such a world. *)
Theorem checked_requests_keep_unique (rs : list Request) (w : World) :
  Forall (fun r => unlocks_unchecked r = false) rs ->
  unique_per_session_key (Achievement_tbl w) ->
  unique_per_session_key (Achievement_tbl (serve rs w)).
Proof.
  intros Hrs. revert w.
  induction Hrs as [| r rs Hr _ IH]; intros w H; [exact H |].
  apply (IH (snd (route r w))), (route_stays_unique r Hr w), H.
Qed.

Lemma checked_requests_keep_unique_witness :
  Forall (fun r => unlocks_unchecked r = false) nine_probes
  /\ chaos <$> select_stats "uuid-0" (Stats_tbl (serve nine_probes empty_world))
     = Some 90
  /\ List.map ach_pair (Achievement_tbl (serve nine_probes empty_world))
     = [("uuid-0", "chaos_master")]%string
  /\ unique_per_session_key (Achievement_tbl (serve nine_probes empty_world)).
Proof.
  assert (Hchecked : Forall (fun r => unlocks_unchecked r = false) nine_probes)
    by (repeat constructor).
  split; [exact Hchecked |].
  split; [vm_compute; reflexivity |].
  split; [vm_compute; reflexivity |].
  exact (checked_requests_keep_unique nine_probes empty_world Hchecked
           (List.NoDup_nil _)).
Defined.

Lemma Achievement_tbl_insertAchievement_run (a : AchievementRow) (w : World) :
  Achievement_tbl (snd (insertAchievement_run a w)) = Achievement_tbl w ++ [a].
Proof. reflexivity. Qed.

Lemma achievement_unlock_table (sid key : string) (description : option string)
    (w : World) :
  sid <> EmptyString -> key <> EmptyString ->
  exists a,
    Achievement_tbl (snd (achievement_unlock (Some sid) (Some key) description w))
    = Achievement_tbl w ++ [a]
    /\ ach_sessionId a = sid /\ ach_key a = key.
Proof.
  intros Hsid Hkey. unfold achievement_unlock. pass_guard Hsid Hkey.
  cbv zeta. rewrite !bind_run, mret_run. cbn [fst snd].
  frame Achievement_tbl. rewrite Achievement_tbl_insertAchievement_run.
  frame Achievement_tbl. eexists. split; [reflexivity | split; reflexivity].
Qed.

(** The block of [/cosmic/act] that unlocks distorted_realm, under its
    condition [c]. *)
Lemma distort_block_table (c : bool) (sid : string) (w : World) :
  c = true ->
  exists a,
    Achievement_tbl
      (snd ((if c then
               id ← uuidv4;
               at_ ← Date_now;
               _ ← insertAchievement_run
                     (mkAchievement id sid "distorted_realm"
                        "Distorted the fabric of state" at_);
               _ ← pushTimeline sid "achievement"
                     "Achievement unlocked: distorted_realm";
               mret tt
             else mret tt) w))
    = Achievement_tbl w ++ [a]
    /\ ach_sessionId a = sid /\ ach_key a = "distorted_realm"%string.
Proof.
  intros ->. rewrite !bind_run, mret_run. cbn [fst snd]. frame Achievement_tbl.
  rewrite Achievement_tbl_insertAchievement_run. frame Achievement_tbl.
  eexists. split; [reflexivity | split; reflexivity].
Qed.

(** Table Achievement after a served cosmic act: the table before, the
    outcome of the distort block, and what the rules fire. *)
Lemma cosmic_act_table (sid key : string) (row : Stats)
    (description : option string) (w : World) :
  sid <> EmptyString -> key <> EmptyString ->
  select_stats sid (Stats_tbl w) = Some row ->
  exists fired w1,
    Achievement_tbl w1 = Achievement_tbl w
    /\ Achievement_tbl (snd (cosmic_act (Some sid) (Some key) description w))
       = Achievement_tbl
           (snd ((if String.eqb key "distort" then
                    id ← uuidv4;
                    at_ ← Date_now;
                    _ ← insertAchievement_run
                          (mkAchievement id sid "distorted_realm"
                             "Distorted the fabric of state" at_);
                    _ ← pushTimeline sid "achievement"
                          "Achievement unlocked: distorted_realm";
                    mret tt
                  else mret tt) w1))
         ++ fired
    /\ Forall (fun b => ach_sessionId b = sid) fired.
Proof.
  intros Hsid Hkey Hrow. unfold cosmic_act. pass_guard Hsid Hkey.
  rewrite bind_run, getStatsStmt_get_run. cbn [fst snd]. rewrite Hrow.
  cbv zeta. rewrite !bind_run, mret_run. cbn [fst snd].
  frame Achievement_tbl.
  match goal with
  | |- context [Achievement_tbl (snd (evaluateAchievements ?s ?v ?w0))] =>
      destruct (evaluateAchievements_run s v w0)
        as (fired & _ & _ & Hsids & Htbl & _)
  end.
  rewrite Htbl. exists fired. eexists.
  split; [| split; [reflexivity | exact Hsids]].
  frame Achievement_tbl. reflexivity.
Qed.

Lemma distort_table (sid : string) (row : Stats) (description : option string)
    (w : World) :
  sid <> EmptyString -> select_stats sid (Stats_tbl w) = Some row ->
  exists a fired,
    Achievement_tbl
      (snd (cosmic_act (Some sid) (Some "distort"%string) description w))
    = Achievement_tbl w ++ a :: fired
    /\ ach_sessionId a = sid /\ ach_key a = "distorted_realm"%string
    /\ Forall (fun b => ach_sessionId b = sid) fired.
Proof.
  intros Hsid Hrow.
  assert (Hkey : "distort"%string <> EmptyString) by discriminate.
  destruct (cosmic_act_table sid "distort" row description w Hsid Hkey Hrow)
    as (fired & w1 & Hw1 & Htbl & Hsids).
  destruct (distort_block_table (String.eqb "distort" "distort") sid w1 eq_refl)
    as (a & Ha & Hs & Hk).
  exists a, fired. rewrite Htbl, Ha, Hw1, <- app_assoc.
  split; [reflexivity | split; [exact Hs | split; [exact Hk | exact Hsids]]].
Qed.

Lemma select_keys_In_pair (sid key : string) (tbl : list AchievementRow) :
  In key (select_keys sid tbl) -> In (sid, key) (List.map ach_pair tbl).
Proof.
  unfold select_keys. intros Hin.
  apply List.in_map_iff in Hin as (a & Hk & Hin).
  apply List.filter_In in Hin as [Hin Hs]. apply String.eqb_eq in Hs.
  apply List.in_map_iff. exists a. unfold ach_pair. rewrite Hs, Hk. auto.
Qed.

Lemma held_key_duplicated (sid key : string) (a : AchievementRow)
    (tbl rest : list AchievementRow) :
  ach_sessionId a = sid -> ach_key a = key ->
  In key (select_keys sid tbl) ->
  ~ unique_per_session_key (tbl ++ a :: rest).
Proof.
  intros Hs Hk Hin Hnodup. unfold unique_per_session_key in Hnodup.
  rewrite List.map_app in Hnodup. cbn [List.map] in Hnodup.
  apply List.NoDup_remove_2 in Hnodup. apply Hnodup, List.in_or_app. left.
  unfold ach_pair at 1. rewrite Hs, Hk. apply select_keys_In_pair, Hin.
Qed.

(** X10: the two unchecked unlocks add a row every time.  For every world
    and every session that has its row in table Session, a served manual
    unlock appends its key to the keys of the session, and a served cosmic
    act distort appends distorted_realm, followed by what the rules fire; so
    when the session holds the key already, the table ends with two
    achievements of that session and key. *)
Theorem unchecked_unlock_adds_a_row (sid key : string) (w : World)
    (description : option string) :
  sid <> EmptyString -> key <> EmptyString -> has_session sid w = true ->
  select_keys sid
    (Achievement_tbl (snd (achievement_unlock (Some sid) (Some key) description w)))
  = select_keys sid (Achievement_tbl w) ++ [key]
  /\ (In key (select_keys sid (Achievement_tbl w)) ->
      ~ unique_per_session_key
          (Achievement_tbl
             (snd (achievement_unlock (Some sid) (Some key) description w))))
  /\ (forall row, select_stats sid (Stats_tbl w) = Some row ->
      (exists fired,
         select_keys sid
           (Achievement_tbl
              (snd (cosmic_act (Some sid) (Some "distort"%string) description w)))
         = select_keys sid (Achievement_tbl w) ++ "distorted_realm"%string :: fired)
      /\ (In "distorted_realm"%string (select_keys sid (Achievement_tbl w)) ->
          ~ unique_per_session_key
              (Achievement_tbl
                 (snd (cosmic_act (Some sid) (Some "distort"%string)
                         description w))))).
Proof.
  intros Hsid Hkey _.
  destruct (achievement_unlock_table sid key description w Hsid Hkey)
    as (a & -> & Hs & Hk).
  split; [| split].
  - rewrite select_keys_app by (constructor; [exact Hs | constructor]).
    cbn [List.map]. rewrite Hk. reflexivity.
  - apply held_key_duplicated; assumption.
  - intros row Hrow.
    destruct (distort_table sid row description w Hsid Hrow)
      as (b & fired & -> & Hbs & Hbk & Hfired).
    split.
    + exists (List.map ach_key fired).
      rewrite select_keys_app by (constructor; assumption).
      cbn [List.map]. rewrite Hbk. reflexivity.
    + apply held_key_duplicated; assumption.
Qed.

Lemma unchecked_unlock_adds_a_row_witness :
  has_session "uuid-0" hero_unlocked = true
  /\ select_keys "uuid-0" (Achievement_tbl hero_unlocked) = ["hero"%string]
  /\ select_keys "uuid-0"
       (Achievement_tbl
          (snd (achievement_unlock (Some "uuid-0"%string) (Some "hero"%string) None
                  hero_unlocked)))
     = ["hero"; "hero"]%string.
Proof.
  split; [reflexivity |]. split; [reflexivity |].
  refine (proj1 (unchecked_unlock_adds_a_row "uuid-0" "hero" hero_unlocked None
                   _ _ eq_refl));
    discriminate.
Defined.

(** ** The threshold of the game-over check *)

#[local] Instance same_sessions_preorder : PreOrder same_sessions.
Proof.
  split.
  - intros w. reflexivity.
  - intros w1 w2 w3 H12 H23. unfold same_sessions in *. congruence.
Qed.

Ltac sessions_primitive :=
  idtac;
  let w := fresh "w" in
  match goal with
  | |- steps same_sessions (law_deltas_assign _ _) =>
      intros w; unfold law_deltas_assign; destruct (law_table w !! _);
      reflexivity
  | |- steps same_sessions _ => solve [intros w; destruct w; reflexivity]
  end.

Lemma evaluateAchievements_same_sessions (sid : string) (stats : Stats) :
  steps same_sessions (evaluateAchievements sid stats).
Proof.
  apply steps_evaluateAchievements; [exact _ | sessions_primitive |].
  intros rule. unfold unlock, pushTimeline. steps_tac sessions_primitive.
Qed.

Ltac sessions_action :=
  idtac; first [apply evaluateAchievements_same_sessions | sessions_primitive].

(** Removes from the goal the actions that leave table [Session] alone. *)
Ltac frame_sessions :=
  repeat match goal with
  | |- context [Session_tbl (snd (?m ?w))] =>
      let H := fresh "Hsame" in
      assert (H : steps same_sessions m)
        by (unfold pushTimeline; steps_tac sessions_action);
      unfold steps, same_sessions in H; rewrite (H w); clear H
  end.

Lemma select_chaosThreshold_fst (sid : string) (w w' : World) :
  Session_tbl w' = Session_tbl w ->
  fst (select_chaosThreshold sid w') = threshold_in_force sid w.
Proof.
  intros H. unfold threshold_in_force, select_chaosThreshold. cbn [fst].
  rewrite H. reflexivity.
Qed.

(** Runs an action handler on a session that has a row, up to the verdict
    of its answer. *)
Ltac run_to_verdict Hrow :=
  rewrite bind_run, getStatsStmt_get_run; cbn [fst snd]; rewrite Hrow;
  cbv zeta; rewrite !bind_run, mret_run; cbn [fst snd verdict];
  rewrite ?law_deltas_assign_fst;
  try (f_equal; f_equal; apply select_chaosThreshold_fst; frame_sessions;
       reflexivity).

(** X11: the threshold of the game-over check.  The answers of the handlers
    for laws, crises, rebellion and cosmic acts carry the verdict of
    [checkGameOver] on the new vector at the threshold in force, and the
    answer for diplomacy carries no verdict.  The threshold in force is the
    one stored for the session, with 100 in place of a stored 0 and when
    table Session has no row for the session: it is never 0. *)
Theorem stored_zero_threshold_is_100 (sid key : string) (row : Stats)
    (w : World) (method target description : option string) :
  sid <> EmptyString -> key <> EmptyString ->
  select_stats sid (Stats_tbl w) = Some row ->
  threshold_in_force sid w <> 0
  /\ threshold_in_force sid w
     = match List.find (fun r => String.eqb (session_id r) sid) (Session_tbl w) with
       | Some r =>
           if Z.eqb (session_chaosThreshold r) 0 then 100
           else session_chaosThreshold r
       | None => 100
       end
  /\ (exists new,
        completes (laws_enforce (Some sid) (Some key) description w) sid new
        /\ verdict (fst (laws_enforce (Some sid) (Some key) description w))
           = Some (checkGameOver new (threshold_in_force sid w)))
  /\ (exists new,
        completes (crises_resolve (Some sid) (Some key) method description w)
          sid new
        /\ verdict (fst (crises_resolve (Some sid) (Some key) method description w))
           = Some (checkGameOver new (threshold_in_force sid w)))
  /\ (exists new,
        completes (rebellion_act (Some sid) (Some key) description w) sid new
        /\ verdict (fst (rebellion_act (Some sid) (Some key) description w))
           = Some (checkGameOver new (threshold_in_force sid w)))
  /\ (exists new,
        completes (cosmic_act (Some sid) (Some key) description w) sid new
        /\ verdict (fst (cosmic_act (Some sid) (Some key) description w))
           = Some (checkGameOver new (threshold_in_force sid w)))
  /\ verdict (fst (diplomacy_action (Some sid) (Some key) target description w))
     = None.
Proof.
  intros Hsid Hkey Hrow.
  assert (Hvalue :
            threshold_in_force sid w
            = match List.find (fun r => String.eqb (session_id r) sid)
                      (Session_tbl w) with
              | Some r =>
                  if Z.eqb (session_chaosThreshold r) 0 then 100
                  else session_chaosThreshold r
              | None => 100
              end).
  { unfold threshold_in_force, select_chaosThreshold, num_or. cbn [fst].
    destruct (List.find _ (Session_tbl w)) as [r |]; reflexivity. }
  split.
  { rewrite Hvalue.
    destruct (List.find _ (Session_tbl w)) as [r |]; [| discriminate].
    destruct (Z.eqb_spec (session_chaosThreshold r) 0); [discriminate | assumption]. }
  split; [exact Hvalue |].
  split; [| split; [| split; [| split]]].
  - eexists. split; [apply laws_enforce_acts; eassumption |].
    unfold laws_enforce. pass_guard Hsid Hkey. run_to_verdict Hrow.
  - eexists. split; [apply crises_resolve_acts; eassumption |].
    unfold crises_resolve. pass_guard Hsid Hkey. run_to_verdict Hrow.
  - eexists. split; [apply rebellion_act_acts; eassumption |].
    unfold rebellion_act. pass_guard Hsid Hkey. run_to_verdict Hrow.
  - eexists. split; [apply cosmic_act_acts; eassumption |].
    unfold cosmic_act. pass_guard Hsid Hkey. run_to_verdict Hrow.
  - unfold diplomacy_action. pass_guard Hsid Hkey. run_to_verdict Hrow.
Qed.

Lemma stored_zero_threshold_is_100_witness :
  select_stats "uuid-0" (Stats_tbl zero_threshold_session)
  = Some (DEFAULT_STATS "uuid-0")
  /\ List.map session_chaosThreshold (Session_tbl zero_threshold_session) = [0]
  /\ threshold_in_force "uuid-0" zero_threshold_session <> 0.
Proof.
  split; [reflexivity | split; [reflexivity |]].
  refine (proj1 (stored_zero_threshold_is_100 "uuid-0" "tax_cut"
                   (DEFAULT_STATS "uuid-0") zero_threshold_session
                   None None None _ _ eq_refl));
    discriminate.
Defined.

(** ** The rows of table Stats *)

Lemma upsert_row_ids (r : Stats) (tbl : list Stats) (id : string) :
  In id (List.map sessionId (upsert_row r tbl)) ->
  id = sessionId r \/ In id (List.map sessionId tbl).
Proof.
  induction tbl as [| r' tbl IH]; cbn [upsert_row List.map In].
  - intros [<- | []]. left. reflexivity.
  - destruct (String.eqb (sessionId r') (sessionId r)) eqn:E; cbn [List.map In].
    + apply String.eqb_eq in E. rewrite E. intros [<- | H]; auto.
    + intros [<- | H]; [auto |]. destruct (IH H); auto.
Qed.

Lemma upsert_row_NoDup (r : Stats) (tbl : list Stats) :
  List.NoDup (List.map sessionId tbl) ->
  List.NoDup (List.map sessionId (upsert_row r tbl)).
Proof.
  induction tbl as [| r' tbl IH]; cbn [upsert_row List.map]; intros H.
  - constructor; [intros [] | constructor].
  - apply List.NoDup_cons_iff in H as [Hnotin Hrest].
    destruct (String.eqb (sessionId r') (sessionId r)) eqn:E; cbn [List.map].
    + apply String.eqb_eq in E. rewrite <- E. constructor; assumption.
    + apply String.eqb_neq in E. constructor; [| apply IH, Hrest].
      intros Hin. apply upsert_row_ids in Hin as [Heq | Hin]; auto.
Qed.

Lemma upsert_row_keeps_rows (r : Stats) (tbl : list Stats) (sid : string) :
  select_stats sid tbl <> None -> select_stats sid (upsert_row r tbl) <> None.
Proof.
  intros H. destruct (String.eqb_spec sid (sessionId r)) as [-> | Hne].
  - rewrite select_upsert. discriminate.
  - rewrite select_upsert_other by exact Hne. exact H.
Qed.

Lemma evolves_rows (t t' : list Stats) :
  evolves t t' ->
  (List.NoDup (List.map sessionId t) -> List.NoDup (List.map sessionId t'))
  /\ forall sid, select_stats sid t <> None -> select_stats sid t' <> None.
Proof.
  intros Hev.
  induction Hev as [| t' id _ [IHn IHs] | t' row d _ [IHn IHs] Hin].
  - split; auto.
  - split; [intros H; apply upsert_row_NoDup, IHn, H |].
    intros sid H. apply upsert_row_keeps_rows, IHs, H.
  - split; [intros H; apply upsert_row_NoDup, IHn, H |].
    intros sid H. apply upsert_row_keeps_rows, IHs, H.
Qed.

(** X12: one row per session, for good.  Whatever requests were served since
    the server started, no two rows of table Stats have the same session
    identifier; and from whatever world, a session that has a row still has
    one after any run of requests: no request deletes a vector. *)
Theorem one_row_per_session (rs : list Request) :
  List.NoDup (List.map sessionId (Stats_tbl (serve rs empty_world)))
  /\ forall (w : World) (sid : string),
       select_stats sid (Stats_tbl w) <> None ->
       select_stats sid (Stats_tbl (serve rs w)) <> None.
Proof.
  split.
  - apply (proj1 (evolves_rows _ _ (serve_evolves rs empty_world))).
    apply List.NoDup_nil.
  - intros w. apply (proj2 (evolves_rows _ _ (serve_evolves rs w))).
Qed.

(** ** The shared table of the law deltas *)

(** X13: the write into the shared table is never seen.  The handler of
    [/laws/enforce] assigns [laws: 1] to the entry of [LAW_DELTAS] itself, so
    the table changes; yet in every world that the requests can reach an
    enforced law applies the deltas of the literal with [laws: 1], as on a
    fresh server, and the table has the keys of the literal. *)
Theorem law_table_write_is_unseen (rs : list Request) (sid key : string)
    (row : Stats) (description : option string) :
  sid <> EmptyString -> key <> EmptyString ->
  select_stats sid (Stats_tbl (serve rs empty_world)) = Some row ->
  completes (laws_enforce (Some sid) (Some key) description (serve rs empty_world))
    sid (applyDeltas row (set_d_laws (lookup_or LAW_DELTAS key law_fallback) 1))
  /\ (law_table (serve rs empty_world) !! key = None <-> LAW_DELTAS !! key = None).
Proof.
  intros Hsid Hkey Hrow.
  destruct (reachable_law_table rs key) as [Hdelta Hkeys].
  split; [| exact Hkeys].
  rewrite <- Hdelta. apply laws_enforce_acts; assumption.
Qed.

Lemma law_table_write_is_unseen_witness :
  law_table
    (serve [SessionStart None None None None;
            LawsEnforce (Some "uuid-0"%string) (Some "tax_cut"%string) None]
       empty_world) !! "tax_cut"%string
  = Some (mkDeltas (Some 5) (Some (-2)) (Some 8) None (Some 0) (Some (-1))
            (Some 1) None)
  /\ LAW_DELTAS !! "tax_cut"%string
     = Some (mkDeltas (Some 5) (Some (-2)) (Some 8) None (Some 0) (Some (-1))
               None None)
  /\ completes
       (laws_enforce (Some "uuid-0"%string) (Some "tax_cut"%string) None
          (serve [SessionStart None None None None;
                  LawsEnforce (Some "uuid-0"%string) (Some "tax_cut"%string) None]
             empty_world))
       "uuid-0"
       (applyDeltas (mkStats "uuid-0" 55 48 58 50 50 0 1 0)
          (set_d_laws (lookup_or LAW_DELTAS "tax_cut" law_fallback) 1)).
Proof.
  split; [vm_compute; reflexivity | split; [vm_compute; reflexivity |]].
  refine (proj1 (law_table_write_is_unseen
                   [SessionStart None None None None;
                    LawsEnforce (Some "uuid-0"%string) (Some "tax_cut"%string) None]
                   "uuid-0" "tax_cut" (mkStats "uuid-0" 55 48 58 50 50 0 1 0)
                   None _ _ _));
    [discriminate | discriminate | vm_compute; reflexivity].
Defined.

(** ** The size and the loss of the glyph encoding *)

Lemma toString_base64_length (buf : list N) :
  String.length (toString_base64 buf) = (4 * ((length buf + 2) / 3))%nat.
Proof.
  assert (H : forall n (b : list N), (length b <= n)%nat ->
             String.length (toString_base64 b) = (4 * ((length b + 2) / 3))%nat).
  { induction n as [| n IH]; intros b Hn.
    - destruct b; [reflexivity | cbn [length] in Hn; lia].
    - destruct b as [| x [| y [| z rest]]]; try reflexivity.
      cbn [toString_base64 String.length length] in *.
      rewrite IH by lia.
      replace (S (S (S (length rest))) + 2)%nat
        with ((length rest + 2) + 1 * 3)%nat by lia.
      rewrite Nat.div_add by lia. lia. }
  apply (H (length buf)). lia.
Qed.

(** X14: the size and the alphabet of an archive.  Whatever the payload and
    whatever [zlib.deflateSync] returns for it, the glyph string has four
    glyphs for every three bytes of the deflated payload, the last group
    counting in full, and each of its code units is one of [glyphSet]: the
    index [ch % glyphSet.length] never leaves the set. *)
Theorem compressToGlyphs_size (deflateSync : list N -> list N) (obj : Json) :
  length (compressToGlyphs deflateSync obj)
  = (4 * ((length (deflateSync (Buffer_from (JSON_stringify obj))) + 2) / 3))%nat
  /\ Forall (fun g => In g glyphSet) (compressToGlyphs deflateSync obj).
Proof.
  unfold compressToGlyphs. cbv zeta.
  destruct (glyph_loop_glyphs
              (toString_base64 (deflateSync (Buffer_from (JSON_stringify obj)))))
    as [Hlen Hin].
  split; [| exact Hin].
  rewrite Hlen. apply toString_base64_length.
Qed.

(** X15: the glyph encoding loses information.  Different base64 digits are
    given the same glyph, so that different deflated payloads have the same
    glyph string: no function recovers the deflated bytes, and with them the
    payload, from every archive. *)
Theorem glyphs_cannot_be_decoded (decode : list N -> list N) :
  exists def : list N,
    decode (glyph_loop (toString_base64 def) []) <> def.
Proof.
  assert (Hsame : glyph_loop (toString_base64 [88%N]) []
                  = glyph_loop (toString_base64 [100%N]) [])
    by (vm_compute; reflexivity).
  destruct (decide (decode (glyph_loop (toString_base64 [88%N]) []) = [88%N]))
    as [Heq | Hne].
  - exists [100%N]. rewrite <- Hsame, Heq. discriminate.
  - exists [88%N]. exact Hne.
Qed.

(** ** The page and the engine *)

Lemma string_field_skip (k k' : string) (v : Json) (rest : list (string * Json)) :
  String.eqb k' k = false ->
  string_field (JObject ((k', v) :: rest)) k = string_field (JObject rest) k.
Proof.
  intros H. unfold string_field, member. cbn [List.find fst]. rewrite H.
  reflexivity.
Qed.

Lemma string_field_here (k : string) (s : string) (rest : list (string * Json)) :
  string_field (JObject ((k, JString s) :: rest)) k = Some s.
Proof.
  unfold string_field, member. cbn [List.find fst]. rewrite String.eqb_refl.
  reflexivity.
Qed.

Lemma string_field_none (k : string) : string_field (JObject []) k = None.
Proof. reflexivity. Qed.

Lemma member_skip (k k' : string) (v : Json) (rest : list (string * Json)) :
  String.eqb k' k = false ->
  member (JObject ((k', v) :: rest)) k = member (JObject rest) k.
Proof. intros H. unfold member. cbn [List.find fst]. rewrite H. reflexivity. Qed.

Lemma member_none (k : string) : member (JObject []) k = None.
Proof. reflexivity. Qed.

(** Reads members that an answer lacks. *)
Ltac read_missing :=
  repeat first [ rewrite member_skip by reflexivity | rewrite member_none ].

(** Reads the fields that a handler destructures from a body given by its
    members. *)
Ltac read_fields :=
  repeat first [ rewrite string_field_here
               | rewrite string_field_skip by reflexivity
               | rewrite string_field_none ].

(** A request without its action key is refused, whatever else it holds. *)
Lemma action_key_required (sessionId method target description : option string) :
  laws_enforce sessionId None description
  = mret (Error 400 "sessionId and lawKey required")
  /\ crises_resolve sessionId None method description
     = mret (Error 400 "sessionId and crisisKey required")
  /\ diplomacy_action sessionId None target description
     = mret (Error 400 "sessionId and actionKey required")
  /\ rebellion_act sessionId None description
     = mret (Error 400 "sessionId and act required")
  /\ cosmic_act sessionId None description
     = mret (Error 400 "sessionId and actKey required").
Proof.
  unfold laws_enforce, crises_resolve, diplomacy_action, rebellion_act,
    cosmic_act.
  cbn [truthy negb]. rewrite orb_true_r. repeat split.
Qed.

Lemma answer_mret (toISOString : N -> string) (r : Response) (s : Server) :
  answer toISOString (mret r) s = (Response_json toISOString r, s).
Proof. destruct s. reflexivity. Qed.

(** Runs an action function of the page on a body that lacks the key which
    the handler asks for. *)
Ltac act_refused :=
  unfold act, api, express; read_fields;
  match goal with
  | |- context [laws_enforce ?a None ?d] =>
      rewrite (proj1 (action_key_required a None None d))
  | |- context [crises_resolve ?a None ?m ?d] =>
      rewrite (proj1 (proj2 (action_key_required a m None d)))
  | |- context [diplomacy_action ?a None ?t ?d] =>
      rewrite (proj1 (proj2 (proj2 (action_key_required a None t d))))
  | |- context [rebellion_act ?a None ?d] =>
      rewrite (proj1 (proj2 (proj2 (proj2 (action_key_required a None None d)))))
  | |- context [cosmic_act ?a None ?d] =>
      rewrite (proj2 (proj2 (proj2 (proj2 (action_key_required a None None d)))))
  end;
  rewrite answer_mret; reflexivity.

(** X16: no action of the page reaches the engine.  The five action
    functions of core.js send the fields lawType, strategy, action and kind,
    while the handlers read lawKey, crisisKey, actionKey, act and actKey: with
    a session in [window.current], every call is answered with the error 400,
    the read of [s.approval] on the missing [data.stats] throws, and neither
    the page nor the server has changed; without a session the function only
    shows a dialogue. *)
Theorem page_actions_never_reach_engine (toISOString : N -> string)
    (deflateSync : list N -> list N) (page : Page) (s : Server)
    (strategy action kind : string) :
  Forall
    (fun outcome =>
       outcome
       = if truthy (current_sessionId page) then (TypeError, page, s)
         else (Resolved, showDialogue "Start a session first." page, s))
    [ handleEnforceLaw toISOString deflateSync page s;
      handleResolveCrisis toISOString deflateSync strategy page s;
      handleDiplomacy toISOString deflateSync action page s;
      handleRebellion toISOString deflateSync strategy page s;
      handleCosmic toISOString deflateSync kind page s ].
Proof.
  unfold handleEnforceLaw, handleResolveCrisis, handleDiplomacy,
    handleRebellion, handleCosmic.
  destruct (truthy (current_sessionId page)); cbn [negb];
    repeat constructor; cbv zeta; act_refused.
Qed.

Lemma answer_run (toISOString : N -> string) (m : M Response) (s : Server) :
  answer toISOString m s
  = (Response_json toISOString (fst (m (world s))),
     mkServer (snd (m (world s))) (Archive_tbl s)).
Proof. unfold answer. destruct (m (world s)). reflexivity. Qed.

(** What [/session/start] answers and stores. *)
Lemma session_start_run (playerName country difficulty : option string)
    (chaosThreshold : option Z) (w : World) :
  fst (session_start playerName country difficulty chaosThreshold w)
  = Started (uuid_of (next_uuid w)) (DEFAULT_STATS (uuid_of (next_uuid w)))
  /\ select_stats (uuid_of (next_uuid w))
       (Stats_tbl (snd (session_start playerName country difficulty
                          chaosThreshold w)))
     = Some (DEFAULT_STATS (uuid_of (next_uuid w)))
  /\ Session_tbl (snd (session_start playerName country difficulty
                         chaosThreshold w))
     = Session_tbl w
       ++ [mkSession (uuid_of (next_uuid w)) (default "Player"%string playerName)
             (default "Republic"%string country)
             (default "normal"%string difficulty) (default 100 chaosThreshold)
             (clock w) None].
Proof.
  unfold session_start. cbv zeta. rewrite !bind_run, mret_run. cbn [fst snd].
  split; [reflexivity | split].
  - frame Stats_tbl. rewrite Stats_tbl_upsertStats_run.
    apply (select_upsert (DEFAULT_STATS (uuid_of (next_uuid w)))).
  - destruct w. reflexivity.
Qed.

(** [startSession] run to its end: the page that it leaves is the one
    before the call of [updateHUD]. *)
Lemma startSession_unfold (toISOString : N -> string)
    (deflateSync : list N -> list N) (page : Page) (s : Server) :
  startSession toISOString deflateSync page s
  = (Resolved,
     set_display "hudOverlay" "grid"
       (set_display "titleScreen" "none"
          (addLogEntry "system" "Presidency begins."
             (showDialogue
                (cat ["Session started: "; opt_or (current_country page) "India";
                      " ("; value_of "difficulty" page; ")"]%string)
                (mkPage (Some (uuid_of (next_uuid (world s))))
                   (current_country page)
                   (Some (str_or (value_of "playerName" page) "Player"))
                   (value_of "difficulty" page) (value page) (textContent page)
                   (display page) (timelineList page))))),
     mkServer
       (snd (session_start
               (Some (str_or (value_of "playerName" page) "Player"))
               (Some (opt_or (current_country page) "India"))
               (Some (value_of "difficulty" page)) None (world s)))
       (Archive_tbl s)).
Proof.
  unfold startSession, api, express. cbv zeta. read_fields.
  change (number_field _ "chaosThreshold") with (@None Z).
  rewrite answer_run.
  destruct (session_start_run
              (Some (str_or (value_of "playerName" page) "Player"))
              (Some (opt_or (current_country page) "India"))
              (Some (value_of "difficulty" page)) None (world s))
    as (Hanswer & Hstats & _).
  rewrite Hanswer. cbn [Response_json]. rewrite string_field_here.
  cbn [showDialogue addLogEntry set_display set_textContent set_timelineList
       current_sessionId default from_option id].
  unfold session_stats. cbn [world]. rewrite Hstats.
  read_missing. reflexivity.
Qed.

(** X17: the start of a session from the page.  [startSession] always ends
    normally: the server has a new session under the player name, the
    country and the difficulty of the page, with the default vector stored,
    and the page records its identifier.  The gauges are not written: the
    function reads [approval] and the other axes from the answer of
    [/session/:id/stats] itself, which holds them under [stats]. *)
Theorem startSession_leaves_gauges (toISOString : N -> string)
    (deflateSync : list N -> list N) (page : Page) (s : Server) :
  exists page' s',
    startSession toISOString deflateSync page s = (Resolved, page', s')
    /\ current_sessionId page' = Some (uuid_of (next_uuid (world s)))
    /\ select_stats (uuid_of (next_uuid (world s))) (Stats_tbl (world s'))
       = Some (DEFAULT_STATS (uuid_of (next_uuid (world s))))
    /\ Session_tbl (world s')
       = Session_tbl (world s)
         ++ [mkSession (uuid_of (next_uuid (world s)))
               (str_or (value_of "playerName" page) "Player")
               (opt_or (current_country page) "India")
               (value_of "difficulty" page) 100 (clock (world s)) None]
    /\ Forall (fun gauge => textContent page' !! gauge = textContent page !! gauge)
         ["hudApproval"; "hudStability"; "hudEconomy"; "hudJustice";
          "hudPower"; "hudChaos"]%string.
Proof.
  rewrite startSession_unfold.
  destruct (session_start_run
              (Some (str_or (value_of "playerName" page) "Player"))
              (Some (opt_or (current_country page) "India"))
              (Some (value_of "difficulty" page)) None (world s))
    as (_ & Hstats & Hsession).
  do 2 eexists. split; [reflexivity |].
  split; [reflexivity | split; [exact Hstats | split; [exact Hsession |]]].
  repeat constructor;
    cbn [textContent set_display set_textContent set_timelineList addLogEntry
         showDialogue];
    rewrite lookup_insert_ne by discriminate; reflexivity.
Qed.

(** ** The archive routes *)

(** X18: archiving leaves the game as it is.  Whatever the request, and
    whether it is answered normally or with an error, [/session/end] and
    [/archive/export] leave every vector, every achievement, the matches and
    the law table untouched, add at most one row to table Archive and only
    append to the timeline; [/archive/export] leaves table Session as it is
    too. *)
Theorem archive_routes_leave_game (toISOString : N -> string)
    (deflateSync : list N -> list N) (sessionId : option string) (s : Server) :
  Forall
    (fun s' =>
       Stats_tbl (world s') = Stats_tbl (world s)
       /\ Achievement_tbl (world s') = Achievement_tbl (world s)
       /\ MultiplayerMatch_tbl (world s') = MultiplayerMatch_tbl (world s)
       /\ law_table (world s') = law_table (world s)
       /\ (exists events,
             TimelineEvent_tbl (world s') = TimelineEvent_tbl (world s) ++ events)
       /\ (Archive_tbl s' = Archive_tbl s
           \/ exists row, Archive_tbl s' = Archive_tbl s ++ [row]))
    [ snd (session_end toISOString deflateSync sessionId s);
      snd (archive_export toISOString deflateSync sessionId s) ]
  /\ Session_tbl (world (snd (archive_export toISOString deflateSync sessionId s)))
     = Session_tbl (world s).
Proof.
  destruct s as [w archives].
  destruct w as [sessions rows events achievements matches uuid time laws].
  unfold session_end, archive_export.
  destruct (negb (truthy sessionId)).
  - split; [| reflexivity].
    repeat constructor; cbn; try reflexivity; exists []; rewrite app_nil_r;
      reflexivity.
  - cbn -[select_stats compressToGlyphs utf8 select_timeline select_achievements].
    destruct (select_stats (default EmptyString sessionId) rows).
    + split; [| reflexivity].
      repeat constructor; cbn; try reflexivity;
        try (eexists; reflexivity); right; eexists; reflexivity.
    + split; [| reflexivity].
      repeat constructor; cbn; try reflexivity; exists []; rewrite app_nil_r;
        reflexivity.
Qed.

Lemma session_end_answer (toISOString : N -> string)
    (deflateSync : list N -> list N) (sessionId : option string) (s : Server) :
  member (fst (session_end toISOString deflateSync sessionId s)) "archive" = None.
Proof.
  destruct s as [w archives].
  destruct w as [sessions rows events achievements matches uuid time laws].
  unfold session_end. destruct (negb (truthy sessionId)); [reflexivity |].
  cbn -[select_stats compressToGlyphs utf8 member].
  destruct (select_stats (default EmptyString sessionId) rows); reflexivity.
Qed.

Lemma session_end_run (toISOString : N -> string)
    (deflateSync : list N -> list N) (sid : string) (row : Stats) (s : Server) :
  sid <> EmptyString -> select_stats sid (Stats_tbl (world s)) = Some row ->
  session_end toISOString deflateSync (Some sid) s
  = (JObject
       [ ("archiveId"%string, JString (uuid_of (next_uuid (world s))));
         ("glyphs"%string,
          JString
            (utf8
               (compressToGlyphs deflateSync
                  (JObject
                     [ ("sessionId"%string, JString sid);
                       ("stats"%string, Stats_json row);
                       ("endedAt"%string,
                        JString (toISOString (clock (world s))));
                       ("generatedAt"%string,
                        JString (toISOString (N.succ (clock (world s))))) ])))) ],
     mkServer
       (snd (pushTimeline sid "archive" "Presidency archived"
               (snd (Date_now
                       (snd (uuidv4
                               (snd (Date_now
                                       (snd (updateSessionEnded_run sid
                                               (clock (world s))
                                               (snd (Date_now (world s)))))))))))))
       (Archive_tbl s
        ++ [mkArchive (uuid_of (next_uuid (world s))) sid
              (compressToGlyphs deflateSync
                 (JObject
                    [ ("sessionId"%string, JString sid);
                      ("stats"%string, Stats_json row);
                      ("endedAt"%string,
                       JString (toISOString (clock (world s))));
                      ("generatedAt"%string,
                       JString (toISOString (N.succ (clock (world s))))) ]))
              (N.succ (N.succ (clock (world s))))])).
Proof.
  intros Hsid Hrow. destruct s as [w archives].
  destruct w as [sessions rows events achievements matches uuid time laws].
  unfold session_end. rewrite (truthy_Some _ Hsid).
  cbn -[select_stats compressToGlyphs utf8] in Hrow |- *.
  rewrite Hrow. reflexivity.
Qed.

Lemma session_end_frame (toISOString : N -> string)
    (deflateSync : list N -> list N) (sessionId : option string) (s : Server) :
  Stats_tbl (world (snd (session_end toISOString deflateSync sessionId s)))
  = Stats_tbl (world s)
  /\ law_table (world (snd (session_end toISOString deflateSync sessionId s)))
     = law_table (world s).
Proof.
  destruct s as [w archives].
  destruct w as [sessions rows events achievements matches uuid time laws].
  unfold session_end. destruct (negb (truthy sessionId)); [split; reflexivity |].
  cbn -[select_stats compressToGlyphs utf8].
  destruct (select_stats (default EmptyString sessionId) rows); split; reflexivity.
Qed.

Lemma updateSessionEnded_run_marks (sid : string) (t : N) (w : World) :
  Forall (fun r => session_id r = sid -> session_endedAt r = Some t)
    (Session_tbl (snd (updateSessionEnded_run sid t w))).
Proof.
  cbn [updateSessionEnded_run snd Session_tbl].
  induction (Session_tbl w) as [| r rest IH]; cbn [List.map]; constructor;
    [| exact IH].
  destruct (String.eqb_spec (session_id r) sid) as [Heq | Hne];
    [intros _; reflexivity | intros H; contradiction].
Qed.

(** X19: the end of a session archives it and does not close it.  For a
    session that has a vector, [/session/end] answers with the identifier of
    a new row of table Archive and with the glyph string of the payload made
    of the session, its vector and two readings of the clock, stores that
    string in the row, and stamps [endedAt] on the row of the session.
    Nothing looks at that stamp: an action on the ended session is served as
    before, and a second [/session/end] archives the session once more. *)
Theorem session_end_keeps_session_open (toISOString : N -> string)
    (deflateSync : list N -> list N) (sid key : string) (row : Stats)
    (s : Server) (description : option string) :
  sid <> EmptyString -> key <> EmptyString ->
  select_stats sid (Stats_tbl (world s)) = Some row ->
  (exists glyphs,
     glyphs
     = compressToGlyphs deflateSync
         (JObject
            [ ("sessionId"%string, JString sid);
              ("stats"%string, Stats_json row);
              ("endedAt"%string, JString (toISOString (clock (world s))));
              ("generatedAt"%string,
               JString (toISOString (N.succ (clock (world s))))) ])
     /\ fst (session_end toISOString deflateSync (Some sid) s)
        = JObject [ ("archiveId"%string, JString (uuid_of (next_uuid (world s))));
                    ("glyphs"%string, JString (utf8 glyphs)) ]
     /\ Archive_tbl (snd (session_end toISOString deflateSync (Some sid) s))
        = Archive_tbl s
          ++ [mkArchive (uuid_of (next_uuid (world s))) sid glyphs
                (N.succ (N.succ (clock (world s))))])
  /\ Forall (fun r => session_id r = sid ->
                      session_endedAt r = Some (clock (world s)))
       (Session_tbl (world (snd (session_end toISOString deflateSync (Some sid) s))))
  /\ completes
       (laws_enforce (Some sid) (Some key) description
          (world (snd (session_end toISOString deflateSync (Some sid) s))))
       sid
       (applyDeltas row
          (set_d_laws (lookup_or (law_table (world s)) key law_fallback) 1))
  /\ length
       (Archive_tbl
          (snd (session_end toISOString deflateSync (Some sid)
                  (snd (session_end toISOString deflateSync (Some sid) s)))))
     = (length (Archive_tbl s) + 2)%nat.
Proof.
  intros Hsid Hkey Hrow.
  destruct (session_end_frame toISOString deflateSync (Some sid) s)
    as [Hstats Hlaws].
  assert (Hrow' : select_stats sid
                    (Stats_tbl
                       (world (snd (session_end toISOString deflateSync
                                      (Some sid) s))))
                  = Some row) by (rewrite Hstats; exact Hrow).
  split; [| split; [| split]].
  - eexists. split; [reflexivity |].
    rewrite (session_end_run toISOString deflateSync sid row s Hsid Hrow).
    split; reflexivity.
  - rewrite (session_end_run toISOString deflateSync sid row s Hsid Hrow).
    cbn [snd world]. frame Session_tbl. apply updateSessionEnded_run_marks.
  - rewrite <- Hlaws. apply laws_enforce_acts; assumption.
  - rewrite (session_end_run toISOString deflateSync sid row _ Hsid Hrow').
    cbn [snd Archive_tbl].
    rewrite (session_end_run toISOString deflateSync sid row s Hsid Hrow).
    cbn [snd Archive_tbl]. rewrite !length_app. cbn [length]. lia.
Qed.

Lemma session_end_keeps_session_open_witness :
  select_stats "uuid-0" (Stats_tbl (world (mkServer one_session [])))
  = Some (DEFAULT_STATS "uuid-0")
  /\ length
       (Archive_tbl
          (snd (session_end pretty (fun bytes => bytes) (Some "uuid-0"%string)
                  (snd (session_end pretty (fun bytes => bytes)
                          (Some "uuid-0"%string) (mkServer one_session []))))))
     = 2%nat.
Proof.
  split; [reflexivity |].
  refine (proj2 (proj2 (proj2
            (session_end_keeps_session_open pretty (fun bytes => bytes)
               "uuid-0" "tax_cut" (DEFAULT_STATS "uuid-0")
               (mkServer one_session []) None _ _ eq_refl))));
    discriminate.
Defined.

(** ** The screens that the page never reaches *)

Lemma active_session (page : Page) :
  truthy (current_sessionId page) = true ->
  current_sessionId page = Some (default EmptyString (current_sessionId page)).
Proof. destruct (current_sessionId page); [reflexivity | discriminate]. Qed.

(** X20: the final screen is never shown.  With a session in
    [window.current], [endAndArchive] opens the archive overlay, writes its
    message and posts [/session/end], so that the server archives the
    session; the answer holds [archiveId] and [glyphs] or [error] and never
    [archive], the read of [archive.stats] throws, and the page is left with
    the overlay open: nothing of the final screen is written. *)
Theorem endAndArchive_never_shows_final_screen (toISOString : N -> string)
    (deflateSync : list N -> list N) (page : Page) (s : Server) :
  truthy (current_sessionId page) = true ->
  endAndArchive toISOString deflateSync page s
  = (TypeError,
     set_textContent "archiveMsg" "Compressing your presidency..."
       (openOverlay "archiveOverlay" page),
     snd (session_end toISOString deflateSync (current_sessionId page) s)).
Proof.
  intros H. unfold endAndArchive, api, express. rewrite H. cbn [negb].
  cbv zeta. read_fields. rewrite <- (active_session page H).
  pose proof (session_end_answer toISOString deflateSync
                (current_sessionId page) s) as Hanswer.
  destruct (session_end toISOString deflateSync (current_sessionId page) s)
    as [res s'].
  cbn [fst snd] in Hanswer |- *. rewrite Hanswer. reflexivity.
Qed.

Lemma endAndArchive_never_shows_final_screen_witness :
  fst (fst (endAndArchive pretty (fun bytes => bytes)
              (mkPage (Some "uuid-0"%string) None None "normal" ∅ ∅ ∅ [])
              (mkServer one_session [])))
  = TypeError.
Proof.
  rewrite (endAndArchive_never_shows_final_screen pretty (fun bytes => bytes)
             (mkPage (Some "uuid-0"%string) None None "normal" ∅ ∅ ∅ [])
             (mkServer one_session []) eq_refl).
  reflexivity.
Defined.

(** X21: the timeline panel is emptied and never filled.  With a session in
    [window.current], [refreshTimeline] clears the list and throws at
    [items.reverse()], the answer of [/timeline/:id] being an object that
    holds the rows under [timeline]; the server is not changed.  So the click
    on the start button, which runs [startSession] and then
    [refreshTimeline], ends with a session on the server, its identifier on
    the page and an empty list: the entry that [startSession] logged is
    gone. *)
Theorem refreshTimeline_empties_the_panel (toISOString : N -> string)
    (deflateSync : list N -> list N) (toLocaleTimeString : string -> string)
    (page : Page) (s : Server) :
  (truthy (current_sessionId page) = true ->
   refreshTimeline toISOString deflateSync toLocaleTimeString page s
   = (TypeError, set_timelineList [] page, s))
  /\ (truthy (current_country page) = true ->
      exists page' s',
        startBtn_click toISOString deflateSync toLocaleTimeString page s
        = (TypeError, page', s')
        /\ timelineList page' = []
        /\ current_sessionId page' = Some (uuid_of (next_uuid (world s)))
        /\ select_stats (uuid_of (next_uuid (world s))) (Stats_tbl (world s'))
           = Some (DEFAULT_STATS (uuid_of (next_uuid (world s))))).
Proof.
  assert (Hrefresh : forall p v,
            truthy (current_sessionId p) = true ->
            refreshTimeline toISOString deflateSync toLocaleTimeString p v
            = (TypeError, set_timelineList [] p, v)).
  { intros p v H. unfold refreshTimeline, api, express, timeline.
    rewrite H. reflexivity. }
  split; [apply Hrefresh |].
  intros H. unfold startBtn_click. rewrite H. cbn [negb].
  rewrite startSession_unfold.
  destruct (session_start_run
              (Some (str_or (value_of "playerName" page) "Player"))
              (Some (opt_or (current_country page) "India"))
              (Some (value_of "difficulty" page)) None (world s))
    as (_ & Hstats & _).
  rewrite Hrefresh by reflexivity.
  do 2 eexists. split; [reflexivity |].
  split; [reflexivity | split; [reflexivity | exact Hstats]].
Qed.

(** ** Keys that no table holds, and the two verdicts together *)




(** X23: a game that is over is in rebellion.  For every vector and every
    threshold above 65, as the default of 100 is, whenever [checkGameOver]
    reports the game over, for whichever of its three reasons,
    [checkRebellionChance] reports an active rebellion. *)
Theorem game_over_means_rebellion (v : Stats) (chaosThreshold : Z) :
  65 < chaosThreshold ->
  gameOver (checkGameOver v chaosThreshold) = true ->
  rebellion (checkRebellionChance v) = true.
Proof.
  intros Ht. unfold checkGameOver, checkRebellionChance.
  destruct (Z.leb_spec chaosThreshold (chaos v)),
           (Z.leb_spec (stability v) 0),
           (Z.leb_spec (approval v) 0),
           (Z.ltb_spec 65 (chaos v)),
           (Z.ltb_spec (stability v) 20),
           (Z.ltb_spec (approval v) 15);
    cbn [orb gameOver rebellion]; intros Hover; try reflexivity;
    try discriminate Hover; lia.
Qed.

Lemma game_over_means_rebellion_witness :
  gameOver (checkGameOver (mkStats "s" 0 50 50 50 50 0 0 0) 100) = true
  /\ rebellion (checkRebellionChance (mkStats "s" 0 50 50 50 50 0 0 0)) = true.
Proof.
  split; [reflexivity |].
  apply (game_over_means_rebellion (mkStats "s" 0 50 50 50 50 0 0 0) 100);
    [lia | reflexivity].
Defined.

(** ** The round trip of an action *)

Lemma member_here (k : string) (v : Json) (rest : list (string * Json)) :
  member (JObject ((k, v) :: rest)) k = Some v.
Proof. unfold member. cbn [List.find fst]. rewrite String.eqb_refl. reflexivity. Qed.

(** An action that completes, sent through the routing, answers with the
    new vector under [stats], and [GET /session/:id/stats] then returns the
    same vector. *)
Lemma completed_round_trip (toISOString : N -> string) (m : M Response)
    (s : Server) (sid : string) (new : Stats) :
  completes (m (world s)) sid new ->
  member (fst (answer toISOString m s)) "stats" = Some (Stats_json new)
  /\ fst (session_stats sid (snd (answer toISOString m s)))
     = JObject [("stats"%string, Stats_json new)].
Proof.
  intros [(achievements & go & Hanswer) Hstored]. rewrite answer_run.
  cbn [fst snd]. rewrite Hanswer. cbn [Response_json app].
  split; [apply member_here |].
  unfold session_stats. cbn [world]. rewrite Hstored. reflexivity.
Qed.

(** X24: an action and the read of the vector agree.  Sent with the keys
    that the handlers read (sessionId with lawKey, crisisKey, actionKey, act
    or actKey), each of the five actions on a session that has a vector
    answers with the new vector under [stats], and [GET /session/:id/stats]
    right after it returns that same vector. *)
Theorem action_answer_is_what_stats_returns (toISOString : N -> string)
    (deflateSync : list N -> list N) (sid key : string) (row : Stats)
    (s : Server) :
  sid <> EmptyString -> key <> EmptyString ->
  select_stats sid (Stats_tbl (world s)) = Some row ->
  Forall
    (fun call =>
       exists new,
         member (fst (express toISOString deflateSync call s)) "stats"
         = Some (Stats_json new)
         /\ fst (express toISOString deflateSync (GET_session_stats sid)
                   (snd (express toISOString deflateSync call s)))
            = JObject [("stats"%string, Stats_json new)])
    [ POST_laws_enforce
        (JObject [("sessionId"%string, JString sid); ("lawKey"%string, JString key)]);
      POST_crises_resolve
        (JObject [("sessionId"%string, JString sid);
                  ("crisisKey"%string, JString key)]);
      POST_diplomacy_action
        (JObject [("sessionId"%string, JString sid);
                  ("actionKey"%string, JString key)]);
      POST_rebellion_act
        (JObject [("sessionId"%string, JString sid); ("act"%string, JString key)]);
      POST_cosmic_act
        (JObject [("sessionId"%string, JString sid);
                  ("actKey"%string, JString key)]) ].
Proof.
  intros Hsid Hkey Hrow.
  repeat constructor; eexists; cbn [express]; read_fields;
    apply completed_round_trip.
  - apply laws_enforce_acts; eassumption.
  - apply crises_resolve_acts; eassumption.
  - apply diplomacy_action_acts; eassumption.
  - apply rebellion_act_acts; eassumption.
  - apply cosmic_act_acts; eassumption.
Qed.

Lemma action_answer_is_what_stats_returns_witness :
  select_stats "uuid-0" (Stats_tbl (world (mkServer one_session [])))
  = Some (DEFAULT_STATS "uuid-0")
  /\ exists new,
       member
         (fst (express pretty (fun bytes => bytes)
                 (POST_laws_enforce
                    (JObject [("sessionId"%string, JString "uuid-0");
                              ("lawKey"%string, JString "tax_cut")]))
                 (mkServer one_session [])))
         "stats"
       = Some (Stats_json new)
       /\ fst (express pretty (fun bytes => bytes) (GET_session_stats "uuid-0")
                 (snd (express pretty (fun bytes => bytes)
                         (POST_laws_enforce
                            (JObject [("sessionId"%string, JString "uuid-0");
                                      ("lawKey"%string, JString "tax_cut")]))
                         (mkServer one_session []))))
          = JObject [("stats"%string, Stats_json new)].
Proof.
  split; [reflexivity |].
  refine (List.Forall_inv
            (action_answer_is_what_stats_returns pretty (fun bytes => bytes)
               "uuid-0" "tax_cut" (DEFAULT_STATS "uuid-0")
               (mkServer one_session []) _ _ eq_refl));
    discriminate.
Defined.

(** ** The multiplayer update *)

Lemma multiplayer_apply_run (d : Deltas) (sid label : string) (row : Stats)
    (w : World) :
  sid <> EmptyString -> select_stats sid (Stats_tbl w) = Some row ->
  Stats_tbl (snd (multiplayer_apply (Some d) sid label w))
  = upsert_row (applyDeltas row d) (Stats_tbl w)
  /\ Achievement_tbl (snd (multiplayer_apply (Some d) sid label w))
     = Achievement_tbl w.
Proof.
  intros Hsid Hrow. unfold multiplayer_apply.
  apply String.eqb_neq in Hsid. rewrite Hsid. cbn [negb].
  rewrite bind_run, getStatsStmt_get_run. cbn [fst snd]. rewrite Hrow.
  cbv zeta. rewrite !bind_run, mret_run. cbn [snd].
  split.
  - frame Stats_tbl. apply Stats_tbl_upsertStats_run.
  - frame Achievement_tbl. reflexivity.
Qed.

(** X25: what a multiplayer update does.  For a match between two sessions
    that have vectors, an update with two deltas is answered with ok and
    stores [applyDeltas] of the vector of A under the delta of A and of the
    vector of B under the delta of B; when the two sides of the match are the
    same session, the delta of B is applied to the outcome of the delta of
    A.  No achievement is evaluated: table Achievement is as it was, whatever
    the new vectors are.  This holds whether or not the update ends the
    match. *)
Theorem multiplayer_update_applies_each_delta (matchId : string) (m : MatchRow)
    (deltaA deltaB : Deltas) (rowA rowB : Stats) (w : World)
    (end_ : bool) :
  List.find (fun r => String.eqb (match_id r) matchId) (MultiplayerMatch_tbl w)
  = Some m ->
  match_sessionAId m <> EmptyString -> match_sessionBId m <> EmptyString ->
  select_stats (match_sessionAId m) (Stats_tbl w) = Some rowA ->
  select_stats (match_sessionBId m) (Stats_tbl w) = Some rowB ->
  fst (multiplayer_update matchId (Some deltaA) (Some deltaB) end_ w) = Updated
  /\ Achievement_tbl
       (snd (multiplayer_update matchId (Some deltaA) (Some deltaB) end_ w))
     = Achievement_tbl w
  /\ (match_sessionAId m <> match_sessionBId m ->
      select_stats (match_sessionAId m)
        (Stats_tbl
           (snd (multiplayer_update matchId (Some deltaA) (Some deltaB) end_ w)))
      = Some (applyDeltas rowA deltaA)
      /\ select_stats (match_sessionBId m)
           (Stats_tbl
              (snd (multiplayer_update matchId (Some deltaA) (Some deltaB)
                      end_ w)))
         = Some (applyDeltas rowB deltaB))
  /\ (match_sessionAId m = match_sessionBId m ->
      select_stats (match_sessionAId m)
        (Stats_tbl
           (snd (multiplayer_update matchId (Some deltaA) (Some deltaB) end_ w)))
      = Some (applyDeltas (applyDeltas rowA deltaA) deltaB)).
Proof.
  intros Hmatch HA HB HrowA HrowB.
  unfold multiplayer_update. rewrite bind_run.
  change (fst (select_match matchId w))
    with (List.find (fun r => String.eqb (match_id r) matchId)
            (MultiplayerMatch_tbl w)).
  change (snd (select_match matchId w)) with w.
  rewrite Hmatch. rewrite !bind_run, !mret_run. cbn [fst snd].
  frame Stats_tbl. frame Achievement_tbl.
  destruct (multiplayer_apply_run deltaA (match_sessionAId m) "A" rowA w HA HrowA)
    as [HstatsA HachA].
  set (wA := snd (multiplayer_apply (Some deltaA) (match_sessionAId m) "A" w))
    in *.
  assert (HidA : sessionId (applyDeltas rowA deltaA) = match_sessionAId m)
    by (rewrite sessionId_applyDeltas;
        apply (select_stats_sessionId _ _ _ HrowA)).
  assert (HidB : sessionId rowB = match_sessionBId m)
    by apply (select_stats_sessionId _ _ _ HrowB).
  split; [reflexivity |].
  destruct (String.eqb_spec (match_sessionAId m) (match_sessionBId m))
    as [Heq | Hne].
  - assert (HrowB' : select_stats (match_sessionBId m) (Stats_tbl wA)
                     = Some (applyDeltas rowA deltaA))
      by (rewrite HstatsA, <- Heq, <- HidA; apply select_upsert).
    destruct (multiplayer_apply_run deltaB (match_sessionBId m) "B"
                (applyDeltas rowA deltaA) wA HB HrowB') as [HstatsB HachB].
    split; [rewrite HachB; exact HachA |].
    split; [intros Hdiff; contradiction |].
    intros _. rewrite HstatsB, Heq.
    assert (Hid : sessionId (applyDeltas (applyDeltas rowA deltaA) deltaB)
                  = match_sessionBId m)
      by (rewrite sessionId_applyDeltas, HidA; exact Heq).
    rewrite <- Hid at 1. apply select_upsert.
  - assert (HrowB' : select_stats (match_sessionBId m) (Stats_tbl wA) = Some rowB)
      by (rewrite HstatsA, select_upsert_other;
          [exact HrowB | rewrite HidA; auto]).
    destruct (multiplayer_apply_run deltaB (match_sessionBId m) "B" rowB wA
                HB HrowB') as [HstatsB HachB].
    split; [rewrite HachB; exact HachA |].
    split; [| intros Hsame; contradiction].
    intros _. rewrite HstatsB. split.
    + rewrite select_upsert_other
        by (rewrite sessionId_applyDeltas, HidB; exact Hne).
      rewrite HstatsA, <- HidA. apply select_upsert.
    + rewrite <- HidB at 1. rewrite <- (sessionId_applyDeltas rowB deltaB).
      apply select_upsert.
Qed.

Lemma multiplayer_update_applies_each_delta_witness :
  List.find (fun r => String.eqb (match_id r) "uuid-4")
    (MultiplayerMatch_tbl match_started)
  = Some (mkMatch "uuid-4" "uuid-0" "uuid-2" "versus" 4 None)
  /\ select_stats "uuid-2"
       (Stats_tbl
          (snd (multiplayer_update "uuid-4"
                  (Some (deltas_of (Some 5) None None None None None))
                  (Some (deltas_of None None None None None (Some 90)))
                  true match_started)))
     = Some (mkStats "uuid-2" 50 50 50 50 50 90 0 0).
Proof.
  assert (Hmatch : List.find (fun r => String.eqb (match_id r) "uuid-4")
                     (MultiplayerMatch_tbl match_started)
                   = Some (mkMatch "uuid-4" "uuid-0" "uuid-2" "versus" 4 None))
    by (vm_compute; reflexivity).
  split; [exact Hmatch |].
  refine (proj2 (proj1 (proj2 (proj2
            (multiplayer_update_applies_each_delta "uuid-4" _
               (deltas_of (Some 5) None None None None None)
               (deltas_of None None None None None (Some 90))
               (DEFAULT_STATS "uuid-0") (DEFAULT_STATS "uuid-2")
               match_started true Hmatch _ _ _ _))) _));
    try discriminate; vm_compute; reflexivity.
Defined.
